(** * Delivery tracking, routing and order state machine

    A shallow embedding of the real-time tracking core of the fleet-delivery
    backend: [utils/distance.py], [routers/tracking.py],
    [routers/location.py], [routers/orders.py] and
    [services/notification_broadcast.py].

    Conventions of the embedding.
    - Python [float] values are idealised as real numbers ([R]); rounding
      and NaN are outside the model. The range of floats is modelled where
      it decides whether a function raises: the overflow to infinity before
      the [int] of [calculate_eta], and the underflow to zero of the divisor
      of [point_to_segment_distance].
    - Handlers run in a state-and-exception monad [Py.M S]: a handler takes
      the state it works on and gives back either a returned value or the
      raised exception, together with the state at that point.
    - Tables of the persistence layer are lists of rows, in table order.
    - The routing provider is an oracle that answers the n-th request; every
      request is appended to a log, so that "the provider was not called" is
      a statement about that log. *)

From Stdlib Require Import Reals Lra ZArith Lia List Ascii String Bool.
From stdpp Require Import gmap strings list pretty.

(** ** Python values, exceptions and the handler monad *)

Module Py.

Inductive exn : Type :=
| HTTPException (status_code : Z) (detail : string)
| ZeroDivisionError
| ValueError
| KeyError
| TimeoutException
| Exception (msg : string)
| OverflowError
| TypeError
| AttributeError
| WebSocketDisconnect.

Inductive result (A : Type) : Type :=
| Return (a : A)
| Raise (e : exn).
Arguments Return {A} a.
Arguments Raise {A} e.

Definition M (S A : Type) : Type := S -> result A * S.

Definition ret {S A} (a : A) : M S A := fun s => (Return a, s).

Definition raise {S A} (e : exn) : M S A := fun s => (Raise e, s).

Definition bind {S A B} (m : M S A) (k : A -> M S B) : M S B :=
  fun s =>
    match m s with
    | (Return a, s') => k a s'
    | (Raise e, s') => (Raise e, s')
    end.

Definition get {S} : M S S := fun s => (Return s, s).

Definition put {S} (s : S) : M S unit := fun _ => (Return tt, s).

Definition modify {S} (f : S -> S) : M S unit := fun s => (Return tt, f s).

(** [try: m except Exception: h] *)
Definition try_except {S A} (m : M S A) (h : exn -> M S A) : M S A :=
  fun s =>
    match m s with
    | (Return a, s') => (Return a, s')
    | (Raise e, s') => h e s'
    end.

(** A pure computation that may raise, run inside a handler. *)
Definition lift {S A} (r : result A) : M S A := fun s => (r, s).

(** A computation on a component of the state. *)
Definition zoom {S T A} (proj : S -> T) (inj : T -> S -> S) (m : M T A) : M S A :=
  fun s => let '(r, t) := m (proj s) in (r, inj t s).

(** [when c: m] *)
Definition when {S} (c : bool) (m : M S unit) : M S unit :=
  if c then m else ret tt.

(** Truth value of an optional string: [None] and the empty string are false. *)
Definition truthy_str (s : option string) : bool :=
  match s with
  | Some v => negb (String.eqb v "")
  | None => false
  end.

(** Truth value of an optional integer: [None] and [0] are false. *)
Definition truthy_int (n : option Z) : bool :=
  match n with
  | Some v => negb (v =? 0)%Z
  | None => false
  end.

(** Truth value of an optional float: [None] and [0.0] are false. *)
Definition truthy_float (x : option R) : bool :=
  match x with
  | Some v => if Req_dec_T v 0 then false else true
  | None => false
  end.

Definition is_some {A} (o : option A) : bool :=
  match o with Some _ => true | None => false end.

(** [int(x)] on a float: truncation towards zero. *)
Definition int (x : R) : Z :=
  if Rle_dec 0 x then Int_part x else (- Int_part (- x))%Z.

(** Comparisons of floats. *)
Definition float_gt (x y : R) : bool := if Rgt_dec x y then true else false.

Definition float_lt (x y : R) : bool := if Rlt_dec x y then true else false.

Definition float_le (x y : R) : bool := if Rle_dec x y then true else false.

Definition float_eq (x y : R) : bool := if Req_dec_T x y then true else false.

(** [round(x)] on a float: to the nearest integer, ties to even. *)
Definition round_half_even (x : R) : Z :=
  let n := Int_part x in
  let f := (x - IZR n)%R in
  if Rlt_dec f (1 / 2) then n
  else if Rgt_dec f (1 / 2) then (n + 1)%Z
  else if Z.even n then n else (n + 1)%Z.

(** [round(x, 2)] *)
Definition round2 (x : R) : R := (IZR (round_half_even (x * 100)) / 100)%R.

(** [x / y] on floats. *)
Definition truediv (x y : R) : result R :=
  if Req_dec_T y 0 then Raise ZeroDivisionError else Return (x / y)%R.

(** The range of floats, at the two places where it decides whether a
    function raises.

    [float_max] is the largest finite float, (2 - 2^-52) * 2^1023. A result
    beyond it is [inf], on which [int] raises [OverflowError]. *)
Definition float_max : R := ((2 - / 2 ^ 52) * 2 ^ 1023)%R.

(** [int(x)] on a float that the computation may have taken out of the
    finite range. *)
Definition int_of_float (x : R) : result Z :=
  if float_gt (Rabs x) float_max then Raise OverflowError else Return (int x).

(** [float_tiny] is half the smallest positive float, 2^-1075. A product of
    floats of at most this magnitude is rounded to [0.0]. *)
Definition float_tiny : R := (/ 2 ^ 1075)%R.

Definition rounds_to_zero (x : R) : bool := float_le (Rabs x) float_tiny.

(** [l.remove(x)]: drops the first occurrence, [ValueError] when absent. *)
Fixpoint remove `{EqDecision A} (x : A) (l : list A) : result (list A) :=
  match l with
  | [] => Raise ValueError
  | y :: l' =>
      if decide (x = y) then Return l'
      else match remove x l' with
           | Return r => Return (y :: r)
           | Raise e => Raise e
           end
  end.

End Py.

Notation "x <- m ;; k" := (Py.bind m (fun x => k))
  (at level 100, m at next level, right associativity).
Notation "m ;;; k" := (Py.bind m (fun _ => k))
  (at level 100, right associativity).

(** ** utils/distance.py *)

Module Distance.
Import Py.
Local Open Scope R_scope.

Definition DISTANCE_CORRECTION_FACTOR : R := 1.10.

Definition DURATION_CORRECTION_FACTOR : R := 1.25.

(** [math.radians] *)
Definition radians (deg : R) : R := deg * PI / 180.

Definition haversine_distance (lat1 lon1 lat2 lon2 : R) : R :=
  let lat1_rad := radians lat1 in
  let lon1_rad := radians lon1 in
  let lat2_rad := radians lat2 in
  let lon2_rad := radians lon2 in
  let dlat := lat2_rad - lat1_rad in
  let dlon := lon2_rad - lon1_rad in
  let a := (sin (dlat / 2)) ^ 2
           + cos lat1_rad * cos lat2_rad * (sin (dlon / 2)) ^ 2 in
  let c := 2 * asin (sqrt a) in
  let r := 6371 in
  c * r.

(** *** The routing provider *)

(** One request to [/route/v1/driving/lon1,lat1;lon2,lat2]. *)
Record request : Type := {
  req_lon1 : R; req_lat1 : R; req_lon2 : R; req_lat2 : R;
  req_overview : string;
  req_geometries : option string;
  req_annotations : option string;
  req_alternatives : option string;
  req_timeout : R
}.

(** A route of the answer; absent keys are [None]. [coordinates] stands for
    [route["geometry"]["coordinates"]], pairs of (longitude, latitude). *)
Record route : Type := {
  distance : option R;
  duration : option R;
  coordinates : option (list (R * R))
}.

Record osrm_data : Type := {
  code : option string;
  routes : option (list route)
}.

Inductive http_outcome : Type :=
| Response (status_code : Z) (data : osrm_data)
| TimedOut
| Failed (msg : string).

(** The provider and the log of the requests made so far. *)
Record net : Type := {
  provider : nat -> request -> http_outcome;
  calls : list request
}.

(** [client.get(url, params=params)] with the exceptions it may raise. *)
Definition http_get (rq : request) : M net (Z * osrm_data) :=
  fun w =>
    let w' := {| provider := provider w; calls := calls w ++ [rq] |} in
    match provider w (length (calls w)) rq with
    | Response sc d => (Return (sc, d), w')
    | TimedOut => (Raise TimeoutException, w')
    | Failed msg => (Raise (Exception msg), w')
    end.

(** [data.get("code") == "Ok" and data.get("routes")] *)
Definition first_route (data : osrm_data) : option route :=
  match code data, routes data with
  | Some c, Some (r :: _) => if String.eqb c "Ok" then Some r else None
  | _, _ => None
  end.

Definition get_or_0 (x : option R) : R :=
  match x with Some v => v | None => 0 end.

(** The [url], [params] and [timeout] of the three routing functions. *)
Definition road_distance_request (lat1 lon1 lat2 lon2 timeout : R) : request :=
  {| req_lon1 := lon1; req_lat1 := lat1; req_lon2 := lon2; req_lat2 := lat2;
     req_overview := "false"; req_geometries := None;
     req_annotations := Some "false"; req_alternatives := None;
     req_timeout := timeout |}.

Definition geometry_request (lat1 lon1 lat2 lon2 timeout : R) : request :=
  {| req_lon1 := lon1; req_lat1 := lat1; req_lon2 := lon2; req_lat2 := lat2;
     req_overview := "simplified"; req_geometries := Some "geojson";
     req_annotations := None; req_alternatives := None;
     req_timeout := timeout |}.

Definition alternatives_request (lat1 lon1 lat2 lon2 timeout : R) : request :=
  {| req_lon1 := lon1; req_lat1 := lat1; req_lon2 := lon2; req_lat2 := lat2;
     req_overview := "full"; req_geometries := Some "geojson";
     req_annotations := None; req_alternatives := Some "true";
     req_timeout := timeout |}.

Definition get_road_distance (lat1 lon1 lat2 lon2 : R) (timeout : R)
  : M net (option R * option Z) :=
  try_except
    (resp <- http_get (road_distance_request lat1 lon1 lat2 lon2 timeout) ;;
     let '(status_code, data) := resp in
     if (status_code =? 200)%Z then
       match first_route data with
       | Some route =>
           let distance_meters := get_or_0 (distance route) in
           let duration_seconds := get_or_0 (duration route) in
           let distance_km := (distance_meters / 1000) * DISTANCE_CORRECTION_FACTOR in
           let duration_minutes :=
             int ((duration_seconds / 60) * DURATION_CORRECTION_FACTOR) in
           let duration_minutes :=
             if (duration_minutes =? 0)%Z && float_gt distance_km 0.1
             then 1%Z else duration_minutes in
           ret (Some distance_km, Some duration_minutes)
       | None => ret (None, None)
       end
     else ret (None, None))
    (fun _ => ret (None, None)).

Definition get_route_with_geometry (lat1 lon1 lat2 lon2 : R) (timeout : R)
  : M net (option R * option Z * option (list (R * R))) :=
  try_except
    (resp <- http_get (geometry_request lat1 lon1 lat2 lon2 timeout) ;;
     let '(status_code, data) := resp in
     if (status_code =? 200)%Z then
       match first_route data with
       | Some route =>
           let distance_meters := get_or_0 (distance route) in
           let duration_seconds := get_or_0 (duration route) in
           let coords := default [] (coordinates route) in
           let distance_km := (distance_meters / 1000) * DISTANCE_CORRECTION_FACTOR in
           let duration_minutes :=
             int ((duration_seconds / 60) * DURATION_CORRECTION_FACTOR) in
           let duration_minutes :=
             if (duration_minutes =? 0)%Z && float_gt distance_km 0.1
             then 1%Z else duration_minutes in
           ret (Some distance_km, Some duration_minutes, Some coords)
       | None => ret (None, None, None)
       end
     else ret (None, None, None))
    (fun _ => ret (None, None, None)).

Definition calculate_eta (distance_km : R) (current_speed_kmh : option R)
    (avg_speed_kmh : R) : result Z :=
  let speed_to_use :=
    match current_speed_kmh with
    | Some v =>
        if truthy_float (Some v) && float_gt v 5 then v else avg_speed_kmh
    | None => avg_speed_kmh
    end in
  match truediv distance_km speed_to_use with
  | Return time_hours =>
      match int_of_float (time_hours * 60) with
      | Return time_minutes => Return time_minutes
      | Raise e => Raise e
      end
  | Raise e => Raise e
  end.

(** The default of [avg_speed_kmh]. *)
Definition avg_speed_kmh_default : R := 40.0.

Definition get_distance_and_eta (driver_lat driver_lon customer_lat customer_lon : R)
    (current_speed_kmh : option R) (use_road_distance : bool)
  : M net (R * Z * bool) :=
  road <- (if use_road_distance
           then get_road_distance driver_lat driver_lon customer_lat customer_lon 5.0
           else ret (None, None)) ;;
  match road with
  | (Some road_distance, Some road_eta) => ret (road_distance, road_eta, true)
  | _ =>
      let straight_distance :=
        haversine_distance driver_lat driver_lon customer_lat customer_lon in
      eta <- lift (calculate_eta straight_distance current_speed_kmh avg_speed_kmh_default) ;;
      ret (straight_distance, eta, false)
  end.

(** A route option as [get_alternative_routes] builds it. *)
Record route_option : Type := {
  route_index : Z;
  distance_km : R;
  duration_minutes : Z;
  opt_coordinates : list (R * R)
}.

(** The body of [for idx, route in enumerate(data["routes"][:3])]. *)
Fixpoint alternatives_from (idx : Z) (rs : list route) : list route_option :=
  match rs with
  | [] => []
  | route :: rest =>
      let distance_meters := get_or_0 (distance route) in
      let duration_seconds := get_or_0 (duration route) in
      let coords := default [] (coordinates route) in
      let distance_km := (distance_meters / 1000) * DISTANCE_CORRECTION_FACTOR in
      let duration_minutes :=
        int ((duration_seconds / 60) * DURATION_CORRECTION_FACTOR) in
      let duration_minutes :=
        if (duration_minutes =? 0)%Z && float_gt distance_km 0.1
        then 1%Z else duration_minutes in
      {| route_index := idx;
         distance_km := round2 distance_km;
         duration_minutes := duration_minutes;
         opt_coordinates := coords |} :: alternatives_from (idx + 1) rest
  end.

Definition get_alternative_routes (lat1 lon1 lat2 lon2 : R) (timeout : R)
  : M net (list route_option) :=
  try_except
    (resp <- http_get (alternatives_request lat1 lon1 lat2 lon2 timeout) ;;
     let '(status_code, data) := resp in
     if (status_code =? 200)%Z then
       match first_route data with
       | Some _ => ret (alternatives_from 0 (take 3 (default [] (routes data))))
       | None => ret []
       end
     else ret [])
    (fun _ => ret []).

(** [eta_minutes // 60] and [eta_minutes % 60] round towards minus
    infinity, as [Z.div] and [Z.modulo] do for a positive divisor; [pretty]
    writes an integer as [str] does. *)
Definition format_eta (eta_minutes : Z) : string :=
  if (eta_minutes <? 60)%Z then pretty eta_minutes +:+ " min"
  else
    let hours := (eta_minutes / 60)%Z in
    let minutes := (eta_minutes mod 60)%Z in
    if (minutes =? 0)%Z then pretty hours +:+ " hr"
    else pretty hours +:+ " hr " +:+ pretty minutes +:+ " min".

(** A float that may be [float('inf')]. *)
Inductive xfloat : Type :=
| Finite (x : R)
| Infinity.

(** [min(a, b)] and [max(a, b)] on floats: the first argument unless the
    second is strictly smaller (larger). *)
Definition py_min (a b : R) : R := if float_lt b a then b else a.

Definition py_max (a b : R) : R := if float_gt b a then b else a.

(** [min(min_distance, dist)] where [min_distance] may be infinite. *)
Definition min_inf (min_distance : xfloat) (dist : R) : xfloat :=
  match min_distance with
  | Infinity => Finite dist
  | Finite m => Finite (py_min m dist)
  end.

(** The divisor [dx * dx + dy * dy] of [point_to_segment_distance] as the
    division meets it: [0.0] exactly when both squares are rounded to
    [0.0]. *)
Definition squared_length (dx dy : R) : R :=
  if rounds_to_zero (dx * dx) && rounds_to_zero (dy * dy) then 0
  else dx * dx + dy * dy.

Definition point_to_segment_distance (px py ax ay bx b_y : R) : result R :=
  let dx := bx - ax in
  let dy := b_y - ay in
  if float_eq dx 0 && float_eq dy 0 then
    Return (haversine_distance px py ax ay * 1000)
  else
    match truediv ((px - ax) * dx + (py - ay) * dy) (squared_length dx dy) with
    | Return q =>
        let t := py_max 0 (py_min 1 q) in
        let closest_x := ax + t * dx in
        let closest_y := ay + t * dy in
        Return (haversine_distance px py closest_x closest_y * 1000)
    | Raise e => Raise e
    end.

(** The loop [for i in range(len(line_coords) - 1)] of
    [point_to_line_distance]; a coordinate is a pair (longitude, latitude). *)
Fixpoint segments_min (point_lat point_lng : R) (line_coords : list (R * R))
    (min_distance : xfloat) : result xfloat :=
  match line_coords with
  | seg_start :: (seg_end :: _) as rest =>
      match point_to_segment_distance point_lat point_lng
              (snd seg_start) (fst seg_start) (snd seg_end) (fst seg_end) with
      | Return dist =>
          segments_min point_lat point_lng rest (min_inf min_distance dist)
      | Raise e => Raise e
      end
  | _ => Return min_distance
  end.

Definition point_to_line_distance (point_lat point_lng : R) (line_coords : list (R * R))
  : result xfloat :=
  if (length line_coords <? 2)%nat then Return Infinity
  else segments_min point_lat point_lng line_coords Infinity.

End Distance.

(** ** models/ *)

Module OrderStatus.
Inductive t : Type := PENDING | ASSIGNED | IN_TRANSIT | DELIVERED | CANCELLED.
#[global] Instance eq_dec : EqDecision t.
Proof. solve_decision. Defined.
End OrderStatus.

Module UserRole.
Inductive t : Type := ADMIN | DRIVER | CUSTOMER.
#[global] Instance eq_dec : EqDecision t.
Proof. solve_decision. Defined.
End UserRole.

Module NotificationType.
Inductive t : Type :=
| ORDER_INITIATED | DRIVER_ASSIGNED | ORDER_IN_TRANSIT | ORDER_DELIVERED
| ORDER_CANCELLED | DELIVERY_STARTED | DELIVERY_COMPLETED
| ORDER_ASSIGNED | ORDER_UNASSIGNED.
End NotificationType.

Module Order.
Record t : Type := {
  id : Z;
  customer_id : Z;
  driver_id : option Z;
  status : OrderStatus.t;
  delivery_time : option Z;
  otp : option string;
  signature : option string;
  delivery_address : option string;
  delivery_gps_lat : option R;
  delivery_gps_long : option R
}.
Definition set_status (v : OrderStatus.t) (o : t) : t :=
  {| id := id o; customer_id := customer_id o; driver_id := driver_id o;
     status := v; delivery_time := delivery_time o; otp := otp o;
     signature := signature o; delivery_address := delivery_address o;
     delivery_gps_lat := delivery_gps_lat o;
     delivery_gps_long := delivery_gps_long o |}.
Definition set_driver_id (v : option Z) (o : t) : t :=
  {| id := id o; customer_id := customer_id o; driver_id := v;
     status := status o; delivery_time := delivery_time o; otp := otp o;
     signature := signature o; delivery_address := delivery_address o;
     delivery_gps_lat := delivery_gps_lat o;
     delivery_gps_long := delivery_gps_long o |}.
Definition set_delivery_time (v : option Z) (o : t) : t :=
  {| id := id o; customer_id := customer_id o; driver_id := driver_id o;
     status := status o; delivery_time := v; otp := otp o;
     signature := signature o; delivery_address := delivery_address o;
     delivery_gps_lat := delivery_gps_lat o;
     delivery_gps_long := delivery_gps_long o |}.
Definition set_signature (v : option string) (o : t) : t :=
  {| id := id o; customer_id := customer_id o; driver_id := driver_id o;
     status := status o; delivery_time := delivery_time o; otp := otp o;
     signature := v; delivery_address := delivery_address o;
     delivery_gps_lat := delivery_gps_lat o;
     delivery_gps_long := delivery_gps_long o |}.
End Order.

Module User.
Record t : Type := {
  id : Z;
  name : string;
  mobile : option string;
  role : UserRole.t
}.
End User.

Module Customer.
Record t : Type := {
  id : Z;
  user_id : Z;
  company_name : string;
  address : option string;
  gps_lat : option R;
  gps_long : option R
}.
End Customer.

Module Receipt.
Record t : Type := {
  id : Z;
  order_id : Z
}.
End Receipt.

Module Transaction.
Record t : Type := {
  id : Z;
  customer_id : Z;
  order_id : option Z;
  amount : R;
  paid : R;
  due : R
}.
Definition zero_out (tr : t) : t :=
  {| id := id tr; customer_id := customer_id tr; order_id := order_id tr;
     amount := 0; paid := 0; due := 0 |}.
End Transaction.

Module TruckLocation.
Record t : Type := {
  id : Z;
  driver_id : Z;
  latitude : R;
  longitude : R;
  accuracy : option R;
  speed : option R;
  heading : option R;
  timestamp : Z
}.
End TruckLocation.

Module Notification.
Record t : Type := {
  user_id : option Z;
  role : UserRole.t;
  order_id : option Z;
  type : NotificationType.t
}.
End Notification.

(** ** database.py: the session, as the tables the handlers touch *)

Module Db.

Record Session : Type := {
  orders : list Order.t;
  users : list User.t;
  customers : list Customer.t;
  receipts : list Receipt.t;
  transactions : list Transaction.t;
  truck_locations : list TruckLocation.t;
  notifications : list Notification.t
}.

(** [db.query(Order).filter(Order.id == order_id).first()] *)
Definition order_by_id (db : Session) (order_id : Z) : option Order.t :=
  find (fun o => (Order.id o =? order_id)%Z) (orders db).

Definition user_by_id (db : Session) (user_id : Z) : option User.t :=
  find (fun u => (User.id u =? user_id)%Z) (users db).

Definition customer_by_id (db : Session) (customer_id : Z) : option Customer.t :=
  find (fun c => (Customer.id c =? customer_id)%Z) (customers db).

Definition customer_by_user_id (db : Session) (user_id : Z) : option Customer.t :=
  find (fun c => (Customer.user_id c =? user_id)%Z) (customers db).

(** [db.query(Transaction).filter(Transaction.order_id == order_id).first()] *)
Definition transaction_by_order (db : Session) (order_id : Z) : option Transaction.t :=
  find (fun tr => bool_decide (Transaction.order_id tr = Some order_id))
       (transactions db).

(** [db.query(Receipt).filter(Receipt.order_id == order_id).count()] *)
Definition receipt_count (db : Session) (order_id : Z) : nat :=
  length (filter (fun r => Receipt.order_id r = order_id) (receipts db)).

(** The latest sample of a driver:
    [filter(driver_id == d).order_by(timestamp.desc()).first()]. *)
Fixpoint latest_location_in (rows : list TruckLocation.t) (driver_id : Z)
  : option TruckLocation.t :=
  match rows with
  | [] => None
  | l :: rest =>
      if (TruckLocation.driver_id l =? driver_id)%Z then
        match latest_location_in rest driver_id with
        | Some l' =>
            if (TruckLocation.timestamp l <? TruckLocation.timestamp l')%Z
            then Some l' else Some l
        | None => Some l
        end
      else latest_location_in rest driver_id
  end.

Definition latest_location (db : Session) (driver_id : Z) : option TruckLocation.t :=
  latest_location_in (truck_locations db) driver_id.

(** Writing a changed order back on [db.commit()]: the row with its id is
    replaced. *)
Definition commit_order (o : Order.t) (db : Session) : Session :=
  {| orders := map (fun r => if (Order.id r =? Order.id o)%Z then o else r) (orders db);
     users := users db; customers := customers db; receipts := receipts db;
     transactions := transactions db; truck_locations := truck_locations db;
     notifications := notifications db |}.

Definition commit_transaction (tr : Transaction.t) (db : Session) : Session :=
  {| orders := orders db;
     users := users db; customers := customers db; receipts := receipts db;
     transactions :=
       map (fun r => if (Transaction.id r =? Transaction.id tr)%Z then tr else r)
           (transactions db);
     truck_locations := truck_locations db;
     notifications := notifications db |}.

(** [db.add(location); db.commit(); db.refresh(location)]: the new row gets
    the next id and is appended. *)
Definition next_location_id (db : Session) : Z :=
  (1 + foldr Z.max 0 (map TruckLocation.id (truck_locations db)))%Z.

Definition add_location (l : TruckLocation.t) (db : Session) : Session :=
  {| orders := orders db;
     users := users db; customers := customers db; receipts := receipts db;
     transactions := transactions db;
     truck_locations := truck_locations db ++ [l];
     notifications := notifications db |}.

Definition add_notification (n : Notification.t) (db : Session) : Session :=
  {| orders := orders db;
     users := users db; customers := customers db; receipts := receipts db;
     transactions := transactions db; truck_locations := truck_locations db;
     notifications := notifications db ++ [n] |}.

End Db.

(** ** services/notification_service.py, as far as the handlers use it *)

Module NotificationService.
Import Py.

(** [NotificationService.create_notification]: stores one notification row.
    Its own broadcast of the row is wrapped in a [try] there and is not part
    of the session. *)
Definition create_notification (role : UserRole.t) (notification_type : NotificationType.t)
    (user_id : option Z) (order_id : option Z) : M Db.Session unit :=
  modify (Db.add_notification
            {| Notification.user_id := user_id; Notification.role := role;
               Notification.order_id := order_id;
               Notification.type := notification_type |}).

End NotificationService.

(** ** routers/orders.py *)

Module Orders.
Import Py.

Record OrderUpdate : Type := {
  status : option OrderStatus.t;
  driver_id : option Z;
  delivery_time : option Z;
  signature : option string;
  otp_input : option string
}.

Record OrderResponse : Type := {
  order : Order.t;
  customer_name : option string;
  driver_name : option string
}.

(** The name lookups at the end of [update_order]. *)
Definition customer_name_of (db : Db.Session) (o : Order.t) : option string :=
  match Db.customer_by_id db (Order.customer_id o) with
  | Some c =>
      match Db.user_by_id db (Customer.user_id c) with
      | Some u => Some (User.name u)
      | None => None
      end
  | None => None
  end.

Definition driver_name_of (db : Db.Session) (o : Order.t) : option string :=
  if truthy_int (Order.driver_id o) then
    match Db.user_by_id db (default 0%Z (Order.driver_id o)) with
    | Some driver => Some (User.name driver)
    | None => None
    end
  else None.

(** The active delivery of a driver other than [order_id]:
    [filter(driver_id == user, status == IN_TRANSIT, id != order_id).first()]. *)
Definition active_delivery_of (db : Db.Session) (user_id order_id : Z) : option Order.t :=
  find (fun o => bool_decide (Order.driver_id o = Some user_id)
                 && bool_decide (Order.status o = OrderStatus.IN_TRANSIT)
                 && negb (Order.id o =? order_id)%Z)
       (Db.orders db).

(** The notification block of [update_order], run after the commit. *)
Definition update_order_notifications (request : OrderUpdate) (order : Order.t)
    (old_status : OrderStatus.t) (old_driver_id : option Z) : M Db.Session unit :=
  db <- get ;;
  let customer := Db.customer_by_id db (Order.customer_id order) in
  when (truthy_int (driver_id request)
        && bool_decide (old_driver_id <> driver_id request))
    (NotificationService.create_notification UserRole.DRIVER
       NotificationType.ORDER_ASSIGNED (driver_id request) (Some (Order.id order)) ;;;
     match customer with
     | Some c =>
         NotificationService.create_notification UserRole.CUSTOMER
           NotificationType.DRIVER_ASSIGNED (Some (Customer.user_id c))
           (Some (Order.id order))
     | None => ret tt
     end) ;;;
  when (bool_decide (Order.status order = OrderStatus.IN_TRANSIT)
        && bool_decide (old_status <> OrderStatus.IN_TRANSIT))
    (match customer with
     | Some c =>
         NotificationService.create_notification UserRole.CUSTOMER
           NotificationType.ORDER_IN_TRANSIT (Some (Customer.user_id c))
           (Some (Order.id order))
     | None => ret tt
     end ;;;
     NotificationService.create_notification UserRole.ADMIN
       NotificationType.DELIVERY_STARTED None (Some (Order.id order))) ;;;
  when (bool_decide (Order.status order = OrderStatus.DELIVERED)
        && bool_decide (old_status <> OrderStatus.DELIVERED))
    (match customer with
     | Some c =>
         NotificationService.create_notification UserRole.CUSTOMER
           NotificationType.ORDER_DELIVERED (Some (Customer.user_id c))
           (Some (Order.id order))
     | None => ret tt
     end ;;;
     NotificationService.create_notification UserRole.ADMIN
       NotificationType.DELIVERY_COMPLETED None (Some (Order.id order))).

(** The assignments of [update_order] between validation and commit. *)
Definition apply_updates (request : OrderUpdate) (order : Order.t) : Order.t :=
  let order :=
    match status request with
    | Some st => Order.set_status st order
    | None => order
    end in
  let order :=
    if truthy_int (driver_id request)
    then Order.set_status OrderStatus.ASSIGNED
           (Order.set_driver_id (driver_id request) order)
    else order in
  let order :=
    if is_some (delivery_time request)
    then Order.set_delivery_time (delivery_time request) order
    else order in
  let order :=
    if truthy_str (signature request) then
      let order := Order.set_signature (signature request) order in
      if bool_decide (status request <> Some OrderStatus.DELIVERED)
      then Order.set_status OrderStatus.DELIVERED order
      else order
    else order in
  order.

Definition update_order (order_id : Z) (request : OrderUpdate) (current_user : User.t)
  : M Db.Session OrderResponse :=
  db <- get ;;
  match Db.order_by_id db order_id with
  | None => raise (HTTPException 404 "Order not found")
  | Some order =>
      when (bool_decide (status request = Some OrderStatus.IN_TRANSIT)
            && bool_decide (User.role current_user = UserRole.DRIVER))
        (match active_delivery_of db (User.id current_user) order_id with
         | Some active_delivery =>
             raise (HTTPException 409
                      ("You already have an active delivery (Order #"
                       +:+ pretty (Order.id active_delivery)
                       +:+ "). Complete it before starting a new one."))
         | None => ret tt
         end) ;;;
      let old_status := Order.status order in
      let old_driver_id := Order.driver_id order in
      let will_be_delivered :=
        bool_decide (status request = Some OrderStatus.DELIVERED)
        || is_some (signature request) in
      when will_be_delivered
        (if negb (truthy_str (otp_input request)) then
           raise (HTTPException 400 "OTP is required to complete delivery")
         else if bool_decide (otp_input request <> Order.otp order) then
           raise (HTTPException 400 "Invalid OTP. Please verify with customer")
         else
           let receipt_count := Db.receipt_count db order_id in
           if (receipt_count =? 0)%nat then
             raise (HTTPException 400
                      "Cannot mark as delivered: Sale receipt is required")
           else ret tt) ;;;
      let order := apply_updates request order in
      put (Db.commit_order order db) ;;;
      try_except
        (update_order_notifications request order old_status old_driver_id)
        (fun _ => ret tt) ;;;
      db <- get ;;
      ret {| order := order;
             customer_name := customer_name_of db order;
             driver_name := driver_name_of db order |}
  end.

(** [@router.delete("/{order_id}")], the first handler registered on it. *)
Definition cancel_order (order_id : Z) (current_user : User.t) : M Db.Session string :=
  db <- get ;;
  match Db.order_by_id db order_id with
  | None => raise (HTTPException 404 "Order not found")
  | Some order =>
      let driver_id := Order.driver_id order in
      let customer_id := Order.customer_id order in
      let order := Order.set_status OrderStatus.CANCELLED order in
      put (Db.commit_order order db) ;;;
      try_except
        (db <- get ;;
         let customer := Db.customer_by_id db customer_id in
         match customer with
         | Some c =>
             NotificationService.create_notification UserRole.CUSTOMER
               NotificationType.ORDER_CANCELLED (Some (Customer.user_id c))
               (Some (Order.id order))
         | None => ret tt
         end ;;;
         when (truthy_int driver_id)
           (NotificationService.create_notification UserRole.DRIVER
              NotificationType.ORDER_UNASSIGNED driver_id (Some (Order.id order))))
        (fun _ => ret tt) ;;;
      ret "Order cancelled successfully"
  end.

Definition status_value (st : OrderStatus.t) : string :=
  match st with
  | OrderStatus.PENDING => "pending"
  | OrderStatus.ASSIGNED => "assigned"
  | OrderStatus.IN_TRANSIT => "in_transit"
  | OrderStatus.DELIVERED => "delivered"
  | OrderStatus.CANCELLED => "cancelled"
  end.

(** [@router.delete("/{order_id}")], the second handler registered on the
    same method and path. The paid amount interpolated into the detail of
    its payment rejection is left out of the text. *)
Definition delete_order (order_id : Z) (current_user : User.t)
  : M Db.Session (string * Z) :=
  db <- get ;;
  match Db.order_by_id db order_id with
  | None => raise (HTTPException 404 "Order not found")
  | Some order =>
      when (negb (bool_decide (Order.status order = OrderStatus.PENDING)
                  || bool_decide (Order.status order = OrderStatus.ASSIGNED)))
        (raise (HTTPException 400
                  ("Cannot cancel order with status "
                   +:+ status_value (Order.status order)
                   +:+ ". Only PENDING or ASSIGNED orders can be cancelled."))) ;;;
      when (bool_decide (User.role current_user = UserRole.CUSTOMER))
        (match Db.customer_by_user_id db (User.id current_user) with
         | Some customer =>
             if negb (Order.customer_id order =? Customer.id customer)%Z
             then raise (HTTPException 403 "Not authorized to cancel this order")
             else ret tt
         | None => raise (HTTPException 403 "Not authorized to cancel this order")
         end) ;;;
      let transaction := Db.transaction_by_order db order_id in
      when (match transaction with
            | Some tr => float_gt (Transaction.paid tr) 0
            | None => false
            end)
        (raise (HTTPException 400
                  "Cannot cancel order with payments. Please contact admin for refund.")) ;;;
      let order := Order.set_status OrderStatus.CANCELLED order in
      let db := Db.commit_order order db in
      let db :=
        match transaction with
        | Some tr => Db.commit_transaction (Transaction.zero_out tr) db
        | None => db
        end in
      put db ;;;
      ret ("Order cancelled successfully", order_id)
  end.



End Orders.

(** ** WebSocket connections *)

Module WebSocket.
Import Py.

(** A connection is known by its identity. *)
Abbreviation t := nat.

#[warnings="-register-all"]
Inductive json : Type :=
| JNull
| JBool (b : bool)
| JInt (n : Z)
| JFloat (x : R)
| JStr (s : string)
| JDict (d : list (string * json)).

Abbreviation message := (list (string * json)).

(** The network side of the connections: which of them are closed, and the
    messages delivered so far, oldest first. *)
Record wire : Type := {
  closed : t -> bool;
  sent : list (t * message)
}.

(** [await websocket.send_json(message)]: raises on a closed connection. *)
Definition send_json (websocket : t) (msg : message) : M wire unit :=
  fun w =>
    if closed w websocket
    then (Raise (Exception "WebSocket is closed"), w)
    else (Return tt, {| closed := closed w; sent := sent w ++ [(websocket, msg)] |}).

Definition opt_int (n : option Z) : json :=
  match n with Some v => JInt v | None => JNull end.

Definition opt_float (x : option R) : json :=
  match x with Some v => JFloat v | None => JNull end.

Definition opt_str (s : option string) : json :=
  match s with Some v => JStr v | None => JNull end.

End WebSocket.

(** ** services/notification_broadcast.py *)

Module NotificationBroadcast.
Import Py.

(** [NotificationConnectionManager] with the wire its connections write to. *)
Record NotificationConnectionManager : Type := {
  active_connections : gmap Z (list WebSocket.t);
  role_connections : gmap string (list WebSocket.t);
  wire : WebSocket.wire
}.

Definition set_active_connections (v : gmap Z (list WebSocket.t))
    (self : NotificationConnectionManager) : NotificationConnectionManager :=
  {| active_connections := v; role_connections := role_connections self;
     wire := wire self |}.

Definition set_role_connections (v : gmap string (list WebSocket.t))
    (self : NotificationConnectionManager) : NotificationConnectionManager :=
  {| active_connections := active_connections self; role_connections := v;
     wire := wire self |}.

Definition set_wire (v : WebSocket.wire)
    (self : NotificationConnectionManager) : NotificationConnectionManager :=
  {| active_connections := active_connections self;
     role_connections := role_connections self; wire := v |}.

(** [__init__] *)
Definition init (w : WebSocket.wire) : NotificationConnectionManager :=
  {| active_connections := ∅;
     role_connections := <["admin" := []]> (<["driver" := []]> (<["customer" := []]> ∅));
     wire := w |}.

Definition send_json (websocket : WebSocket.t) (message : WebSocket.message)
  : M NotificationConnectionManager unit :=
  zoom wire set_wire (WebSocket.send_json websocket message).

Definition connect (websocket : WebSocket.t) (user_id : Z) (role : string)
  : M NotificationConnectionManager unit :=
  modify (fun self =>
            set_active_connections
              (<[user_id := default [] (active_connections self !! user_id) ++ [websocket]]>
                 (active_connections self)) self) ;;;
  modify (fun self =>
            match role_connections self !! role with
            | Some l => set_role_connections (<[role := l ++ [websocket]]> (role_connections self)) self
            | None => self
            end).

Definition disconnect (websocket : WebSocket.t) (user_id : Z) (role : string)
  : M NotificationConnectionManager unit :=
  self <- get ;;
  match active_connections self !! user_id with
  | Some l =>
      try_except
        (l' <- lift (remove websocket l) ;;
         put (set_active_connections
                (match l' with
                 | [] => delete user_id (active_connections self)
                 | _ => <[user_id := l']> (active_connections self)
                 end) self))
        (fun _ => ret tt)
  | None => ret tt
  end ;;;
  self <- get ;;
  match role_connections self !! role with
  | Some l =>
      try_except
        (l' <- lift (remove websocket l) ;;
         put (set_role_connections (<[role := l']> (role_connections self)) self))
        (fun _ => ret tt)
  | None => ret tt
  end.

(** The loop [for websocket in ...: try: send_json except: disconnected.append]. *)
Fixpoint send_each (conns : list WebSocket.t) (message : WebSocket.message)
    (disconnected : list WebSocket.t)
  : M NotificationConnectionManager (list WebSocket.t) :=
  match conns with
  | [] => ret disconnected
  | websocket :: rest =>
      disconnected <-
        try_except
          (send_json websocket message ;;; ret disconnected)
          (fun _ => ret (disconnected ++ [websocket])) ;;
      send_each rest message disconnected
  end.

(** The loop [for ws in disconnected: try: role_connections[role].remove(ws)]. *)
Fixpoint remove_each_role (role : string) (disconnected : list WebSocket.t)
  : M NotificationConnectionManager unit :=
  match disconnected with
  | [] => ret tt
  | ws :: rest =>
      try_except
        (self <- get ;;
         match role_connections self !! role with
         | Some l =>
             l' <- lift (remove ws l) ;;
             put (set_role_connections (<[role := l']> (role_connections self)) self)
         | None => raise KeyError
         end)
        (fun _ => ret tt) ;;;
      remove_each_role role rest
  end.

Fixpoint remove_each_user (user_id : Z) (disconnected : list WebSocket.t)
  : M NotificationConnectionManager unit :=
  match disconnected with
  | [] => ret tt
  | ws :: rest =>
      try_except
        (self <- get ;;
         match active_connections self !! user_id with
         | Some l =>
             l' <- lift (remove ws l) ;;
             put (set_active_connections (<[user_id := l']> (active_connections self)) self)
         | None => raise KeyError
         end)
        (fun _ => ret tt) ;;;
      remove_each_user user_id rest
  end.

Definition send_to_user (user_id : Z) (message : WebSocket.message)
  : M NotificationConnectionManager unit :=
  self <- get ;;
  match active_connections self !! user_id with
  | Some conns =>
      disconnected <- send_each conns message [] ;;
      remove_each_user user_id disconnected
  | None => ret tt
  end.

Definition broadcast_to_role (role : string) (message : WebSocket.message)
  : M NotificationConnectionManager unit :=
  self <- get ;;
  match role_connections self !! role with
  | None => ret tt
  | Some conns =>
      disconnected <- send_each conns message [] ;;
      remove_each_role role disconnected
  end.

Definition broadcast_notification (notification_id : Z) (notification_type title message : string)
    (user_id : option Z) (role : option string) (order_id : option Z)
  : M NotificationConnectionManager unit :=
  let payload :=
    [("type", WebSocket.JStr "new_notification");
     ("notification",
      WebSocket.JDict
        [("id", WebSocket.JInt notification_id);
         ("notification_type", WebSocket.JStr notification_type);
         ("title", WebSocket.JStr title);
         ("message", WebSocket.JStr message);
         ("order_id", WebSocket.opt_int order_id);
         ("is_read", WebSocket.JBool false)])] in
  if truthy_int user_id then send_to_user (default 0%Z user_id) payload
  else if truthy_str role then broadcast_to_role (default "" role) payload
  else ret tt.

(** [get_connection_count]: ["total_users"] and ["by_role"]. *)
Definition get_connection_count (self : NotificationConnectionManager)
  : nat * gmap string nat :=
  (size (active_connections self), length <$> role_connections self).

End NotificationBroadcast.

(** ** routers/location.py *)

Module Location.
Import Py.
Local Open Scope R_scope.

Definition is_valid_india_location (latitude longitude : R) : bool :=
  float_le 6.5 latitude && float_le latitude 35.5
  && float_le 68.0 longitude && float_le longitude 97.5.

Record LocationUpdate : Type := {
  latitude : R;
  longitude : R;
  accuracy : option R;
  speed : option R;
  heading : option R
}.

Record LocationResponse : Type := {
  id : Z;
  driver_id : Z;
  driver_name : string;
  driver_mobile : option string;
  resp_latitude : R;
  resp_longitude : R;
  resp_accuracy : option R;
  resp_speed : option R;
  resp_heading : option R;
  timestamp : Z;
  time_ago : string
}.

(** What the handlers of this router work on: the session, the module-level
    [manager] with the wire of its connections, the activity and error log
    of [DatabaseLogger], and the clock read by [datetime.utcnow()]. *)
Record state : Type := {
  db : Db.Session;
  active_connections : list WebSocket.t;
  wire : WebSocket.wire;
  logs : list string;
  utcnow : Z
}.

Definition set_db (v : Db.Session) (s : state) : state :=
  {| db := v; active_connections := active_connections s; wire := wire s;
     logs := logs s; utcnow := utcnow s |}.

Definition set_active_connections (v : list WebSocket.t) (s : state) : state :=
  {| db := db s; active_connections := v; wire := wire s;
     logs := logs s; utcnow := utcnow s |}.

Definition set_wire (v : WebSocket.wire) (s : state) : state :=
  {| db := db s; active_connections := active_connections s; wire := v;
     logs := logs s; utcnow := utcnow s |}.

Definition log (entry : string) : M state unit :=
  modify (fun s => {| db := db s; active_connections := active_connections s;
                      wire := wire s; logs := logs s ++ [entry];
                      utcnow := utcnow s |}).

(** [ConnectionManager.connect] *)
Definition connect (websocket : WebSocket.t) : M state unit :=
  modify (fun s => set_active_connections (active_connections s ++ [websocket]) s).

(** [ConnectionManager.disconnect] *)
Definition disconnect (websocket : WebSocket.t) : M state unit :=
  s <- get ;;
  l <- lift (remove websocket (active_connections s)) ;;
  put (set_active_connections l s).

(** The loop of [ConnectionManager.broadcast]:
    [for connection in ...: try: send_json except: pass]. *)
Fixpoint broadcast_each (conns : list WebSocket.t) (message : WebSocket.message)
  : M state unit :=
  match conns with
  | [] => ret tt
  | connection :: rest =>
      try_except
        (zoom wire set_wire (WebSocket.send_json connection message))
        (fun _ => ret tt) ;;;
      broadcast_each rest message
  end.

(** [ConnectionManager.broadcast] *)
Definition broadcast (message : WebSocket.message) : M state unit :=
  s <- get ;;
  broadcast_each (active_connections s) message.

(** The "time ago" text of a number of seconds. *)
Definition time_ago_of (seconds : Z) : string :=
  if (seconds <? 60)%Z then "just now"
  else if (seconds <? 3600)%Z then pretty (seconds / 60)%Z +:+ " min ago"
  else pretty (seconds / 3600)%Z +:+ " hr ago".

Definition update_location (location : LocationUpdate) (current_user : User.t)
  : M state LocationResponse :=
  when (negb (is_valid_india_location (latitude location) (longitude location)))
    (raise (HTTPException 400
              "Invalid location - coordinates outside service area. Only live GPS locations within India are accepted.")) ;;;
  try_except
    (s <- get ;;
     let truck_location :=
       {| TruckLocation.id := Db.next_location_id (db s);
          TruckLocation.driver_id := User.id current_user;
          TruckLocation.latitude := latitude location;
          TruckLocation.longitude := longitude location;
          TruckLocation.accuracy := accuracy location;
          TruckLocation.speed := speed location;
          TruckLocation.heading := heading location;
          TruckLocation.timestamp := utcnow s |} in
     put (set_db (Db.add_location truck_location (db s)) s) ;;;
     let seconds := (utcnow s - TruckLocation.timestamp truck_location)%Z in
     let time_ago := time_ago_of seconds in
     let response :=
       {| id := TruckLocation.id truck_location;
          driver_id := User.id current_user;
          driver_name := User.name current_user;
          driver_mobile := User.mobile current_user;
          resp_latitude := TruckLocation.latitude truck_location;
          resp_longitude := TruckLocation.longitude truck_location;
          resp_accuracy := TruckLocation.accuracy truck_location;
          resp_speed := TruckLocation.speed truck_location;
          resp_heading := TruckLocation.heading truck_location;
          timestamp := TruckLocation.timestamp truck_location;
          time_ago := time_ago |} in
     broadcast
       [("type", WebSocket.JStr "location_update");
        ("driver_id", WebSocket.JInt (User.id current_user));
        ("driver_name", WebSocket.JStr (User.name current_user));
        ("driver_mobile", WebSocket.opt_str (User.mobile current_user));
        ("latitude", WebSocket.JFloat (TruckLocation.latitude truck_location));
        ("longitude", WebSocket.JFloat (TruckLocation.longitude truck_location));
        ("accuracy", WebSocket.opt_float (TruckLocation.accuracy truck_location));
        ("speed", WebSocket.opt_float (TruckLocation.speed truck_location));
        ("heading", WebSocket.opt_float (TruckLocation.heading truck_location));
        ("timestamp", WebSocket.JInt (TruckLocation.timestamp truck_location));
        ("time_ago", WebSocket.JStr time_ago)] ;;;
     log "location_update" ;;;
     ret response)
    (fun _ =>
       log "LocationUpdateError" ;;;
       raise (HTTPException 500 "Failed to update location")).

(** The order that lets a customer see a driver:
    [filter(customer_id == c, driver_id == d,
            status.in_([ASSIGNED, IN_TRANSIT])).first()]. *)
Definition active_order_with (db : Db.Session) (customer_id driver_id : Z)
  : option Order.t :=
  find (fun o => (Order.customer_id o =? customer_id)%Z
                 && bool_decide (Order.driver_id o = Some driver_id)
                 && (bool_decide (Order.status o = OrderStatus.ASSIGNED)
                     || bool_decide (Order.status o = OrderStatus.IN_TRANSIT)))
       (Db.orders db).

(** The answer of [get_latest_driver_location]: the response with the two
    fields that [update_location] leaves unset. *)
Record LatestLocation : Type := {
  response : LocationResponse;
  distance_to_destination : option R;
  eta_minutes : option Z
}.

(** [GET /api/location/driver/{driver_id}/latest] *)
Definition get_latest_driver_location (driver_id : Z) (dest_lat dest_long : option R)
    (current_user : User.t) : M state (option LatestLocation) :=
  s <- get ;;
  (if bool_decide (User.role current_user = UserRole.ADMIN) then ret tt
   else if bool_decide (User.role current_user = UserRole.DRIVER)
           && (User.id current_user =? driver_id)%Z then ret tt
   else if bool_decide (User.role current_user = UserRole.CUSTOMER) then
     match Db.customer_by_user_id (db s) (User.id current_user) with
     | None => raise (HTTPException 403 "Customer profile not found")
     | Some customer =>
         match active_order_with (db s) (Customer.id customer) driver_id with
         | None =>
             raise (HTTPException 403
                      "You can only view location of drivers assigned to your active orders")
         | Some _ => ret tt
         end
     end
   else raise (HTTPException 403 "Access denied")) ;;;
  match Db.latest_location (db s) driver_id with
  | None => ret None
  | Some location =>
      match Db.user_by_id (db s) driver_id with
      | None => ret None
      | Some driver =>
          let seconds := (utcnow s - TruckLocation.timestamp location)%Z in
          let time_ago := time_ago_of seconds in
          r <- match dest_lat, dest_long with
               | Some dest_lat, Some dest_long =>
                   let distance_to_destination :=
                     Distance.haversine_distance
                       (TruckLocation.latitude location)
                       (TruckLocation.longitude location) dest_lat dest_long in
                   eta_minutes <-
                     lift (Distance.calculate_eta distance_to_destination
                             (TruckLocation.speed location)
                             Distance.avg_speed_kmh_default) ;;
                   ret (Some distance_to_destination, Some eta_minutes)
               | _, _ => ret (None, None)
               end ;;
          ret (Some
                 {| response :=
                      {| id := TruckLocation.id location;
                         driver_id := User.id driver;
                         driver_name := User.name driver;
                         driver_mobile := User.mobile driver;
                         resp_latitude := TruckLocation.latitude location;
                         resp_longitude := TruckLocation.longitude location;
                         resp_accuracy := TruckLocation.accuracy location;
                         resp_speed := TruckLocation.speed location;
                         resp_heading := TruckLocation.heading location;
                         timestamp := TruckLocation.timestamp location;
                         time_ago := time_ago |};
                    distance_to_destination := fst r;
                    eta_minutes := snd r |})
      end
  end.

End Location.

(** ** routers/tracking.py *)

Module Tracking.
Import Py.
Local Open Scope R_scope.

Definition ROUTE_CACHE_THRESHOLD_METERS : R := 100.

Definition OFF_ROUTE_THRESHOLD_METERS : R := 50.

Definition is_valid_india_location (latitude longitude : R) : bool :=
  float_le 6.5 latitude && float_le latitude 35.5
  && float_le 68.0 longitude && float_le longitude 97.5.

(** An entry of [route_cache]:
    (driver_lat, driver_lng, cust_lat, cust_lng, route). *)
Abbreviation cache_entry := (R * R * R * R * list (R * R))%type.

(** What the handlers of this router work on: the session, the two
    module-level caches, the routing provider, the module-level [manager]
    with the wire of its connections, and the clock. *)
Record state : Type := {
  db : Db.Session;
  route_cache : gmap Z cache_entry;
  selected_route_cache : gmap Z Z;
  osrm : Distance.net;
  active_connections : list WebSocket.t;
  wire : WebSocket.wire;
  utcnow : Z
}.

Definition set_db (v : Db.Session) (s : state) : state :=
  {| db := v; route_cache := route_cache s;
     selected_route_cache := selected_route_cache s; osrm := osrm s;
     active_connections := active_connections s; wire := wire s;
     utcnow := utcnow s |}.

Definition set_route_cache (v : gmap Z cache_entry) (s : state) : state :=
  {| db := db s; route_cache := v;
     selected_route_cache := selected_route_cache s; osrm := osrm s;
     active_connections := active_connections s; wire := wire s;
     utcnow := utcnow s |}.

Definition set_selected_route_cache (v : gmap Z Z) (s : state) : state :=
  {| db := db s; route_cache := route_cache s;
     selected_route_cache := v; osrm := osrm s;
     active_connections := active_connections s; wire := wire s;
     utcnow := utcnow s |}.

Definition set_osrm (v : Distance.net) (s : state) : state :=
  {| db := db s; route_cache := route_cache s;
     selected_route_cache := selected_route_cache s; osrm := v;
     active_connections := active_connections s; wire := wire s;
     utcnow := utcnow s |}.

Definition set_active_connections (v : list WebSocket.t) (s : state) : state :=
  {| db := db s; route_cache := route_cache s;
     selected_route_cache := selected_route_cache s; osrm := osrm s;
     active_connections := v; wire := wire s;
     utcnow := utcnow s |}.

Definition set_wire (v : WebSocket.wire) (s : state) : state :=
  {| db := db s; route_cache := route_cache s;
     selected_route_cache := selected_route_cache s; osrm := osrm s;
     active_connections := active_connections s; wire := v;
     utcnow := utcnow s |}.

(** A call into [utils/distance.py]. *)
Definition routing {A} (m : M Distance.net A) : M state A := zoom osrm set_osrm m.

Record OrderTrackingResponse : Type := {
  order_id : Z;
  driver_id : Z;
  driver_name : string;
  driver_mobile : option string;
  latitude : R;
  longitude : R;
  accuracy : option R;
  speed : option R;
  heading : option R;
  timestamp : Z;
  customer_lat : option R;
  customer_lng : option R;
  customer_name : option string;
  customer_address : option string;
  distance_km : option R;
  eta_minutes : option Z;
  route_geometry : option (list (R * R));
  selected_route_index : option Z
}.

(** [float(x) if x else None] *)
Definition float_if_truthy (x : option R) : option R :=
  if truthy_float x then x else None.

(** The delivery coordinates of an order as [get_order_tracking] picks them. *)
Definition customer_coordinates (order : Order.t) (customer : option Customer.t)
  : option R * option R :=
  if truthy_float (Order.delivery_gps_lat order)
     && truthy_float (Order.delivery_gps_long order)
  then (Order.delivery_gps_lat order, Order.delivery_gps_long order)
  else match customer with
       | Some c => (Customer.gps_lat c, Customer.gps_long c)
       | None => (None, None)
       end.

(** The block of [get_order_tracking] under [if cust_lat and cust_lng:]. It
    gives [(distance_km, eta_minutes, route_geometry)]. *)
Definition track_route (order_id : Z) (driver_lat driver_lng cust_lat cust_lng : R)
    (location_speed : option R)
  : M state (option R * option Z * option (list (R * R))) :=
  s <- get ;;
  let cached := route_cache s !! order_id in
  let '(should_refetch, route_geometry) :=
    match cached with
    | Some (cached_driver_lat, cached_driver_lng, cached_cust_lat, cached_cust_lng,
            cached_route) =>
        let movement_km :=
          Distance.haversine_distance cached_driver_lat cached_driver_lng
            driver_lat driver_lng in
        let movement_meters := movement_km * 1000 in
        if float_lt movement_meters ROUTE_CACHE_THRESHOLD_METERS
        then (false, Some cached_route)
        else (true, None)
    | None => (true, None)
    end in
  r <- (if should_refetch then
          fetched <- routing (Distance.get_route_with_geometry
                                driver_lat driver_lng cust_lat cust_lng 20.0) ;;
          let '(road_distance, road_eta, route_coords) := fetched in
          r <- match road_distance, road_eta with
               | Some d, Some e =>
                   match route_coords with
                   | Some (p :: ps) =>
                       modify (fun s =>
                                 set_route_cache
                                   (<[order_id :=
                                       (driver_lat, driver_lng, cust_lat, cust_lng, p :: ps)]>
                                      (route_cache s)) s) ;;;
                       ret (Some d, Some e, Some (p :: ps))
                   | _ => ret (Some d, Some e, route_geometry)
                   end
               | _, _ => ret (None, None, route_geometry)
               end ;;
          let '(distance_km, eta_minutes, route_geometry) := r in
          match route_geometry, cached with
          | None, Some entry => ret (distance_km, eta_minutes, Some (snd entry))
          | _, _ => ret (distance_km, eta_minutes, route_geometry)
          end
        else ret (None, None, route_geometry)) ;;
  let '(distance_km, eta_minutes, route_geometry) := r in
  r <- match distance_km with
       | None =>
           fallback <- routing (Distance.get_distance_and_eta
                                  driver_lat driver_lng cust_lat cust_lng
                                  (float_if_truthy location_speed) true) ;;
           let '(distance_km, eta_minutes, is_road) := fallback in
           ret (Some distance_km, Some eta_minutes)
       | Some _ => ret (distance_km, eta_minutes)
       end ;;
  let '(distance_km, eta_minutes) := r in
  match route_geometry, distance_km with
  | None, Some _ =>
      fetched <- routing (Distance.get_route_with_geometry
                            driver_lat driver_lng cust_lat cust_lng 25.0) ;;
      let '(_, _, route_coords) := fetched in
      match route_coords with
      | Some (p :: ps) =>
          modify (fun s =>
                    set_route_cache
                      (<[order_id :=
                          (driver_lat, driver_lng, cust_lat, cust_lng, p :: ps)]>
                         (route_cache s)) s) ;;;
          ret (distance_km, eta_minutes, Some (p :: ps))
      | _ => ret (distance_km, eta_minutes, route_geometry)
      end
  | _, _ => ret (distance_km, eta_minutes, route_geometry)
  end.

Definition get_order_tracking (order_id : Z) (current_user : User.t)
  : M state OrderTrackingResponse :=
  s <- get ;;
  match Db.order_by_id (db s) order_id with
  | None => raise (HTTPException 404 "Order not found")
  | Some order =>
      when (negb (truthy_int (Order.driver_id order)))
        (raise (HTTPException 404 "No driver assigned to this order")) ;;;
      when (negb (bool_decide (Order.status order = OrderStatus.ASSIGNED)
                  || bool_decide (Order.status order = OrderStatus.IN_TRANSIT)))
        (raise (HTTPException 404 "Order is not in trackable status")) ;;;
      let order_driver_id := default 0%Z (Order.driver_id order) in
      match Db.latest_location (db s) order_driver_id with
      | None => raise (HTTPException 404 "No location data found for driver")
      | Some location =>
          match Db.user_by_id (db s) order_driver_id with
          | None => raise (HTTPException 404 "Driver not found")
          | Some driver =>
              let customer := Db.customer_by_id (db s) (Order.customer_id order) in
              let '(customer_lat, customer_lng) := customer_coordinates order customer in
              let customer_name :=
                match customer with
                | Some c => Some (Customer.company_name c)
                | None => None
                end in
              let customer_address :=
                match customer with
                | Some c =>
                    if truthy_str (Order.delivery_address order)
                    then Order.delivery_address order
                    else Customer.address c
                | None => None
                end in
              let driver_lat := TruckLocation.latitude location in
              let driver_lng := TruckLocation.longitude location in
              let cust_lat := float_if_truthy customer_lat in
              let cust_lng := float_if_truthy customer_lng in
              r <- match cust_lat, cust_lng with
                   | Some cust_lat, Some cust_lng =>
                       track_route order_id driver_lat driver_lng cust_lat cust_lng
                         (TruckLocation.speed location)
                   | _, _ => ret (None, None, None)
                   end ;;
              let '(distance_km, eta_minutes, route_geometry) := r in
              s <- get ;;
              ret {| order_id := Order.id order;
                     driver_id := User.id driver;
                     driver_name := User.name driver;
                     driver_mobile := User.mobile driver;
                     latitude := TruckLocation.latitude location;
                     longitude := TruckLocation.longitude location;
                     accuracy := TruckLocation.accuracy location;
                     speed := TruckLocation.speed location;
                     heading := TruckLocation.heading location;
                     timestamp := TruckLocation.timestamp location;
                     customer_lat := customer_lat;
                     customer_lng := customer_lng;
                     customer_name := customer_name;
                     customer_address := customer_address;
                     distance_km :=
                       if truthy_float distance_km
                       then option_map round2 distance_km else None;
                     eta_minutes := eta_minutes;
                     route_geometry := route_geometry;
                     selected_route_index :=
                       Some (default 0%Z (selected_route_cache s !! order_id)) |}
          end
      end
  end.

(** The delivery coordinates as [recalculate_route] picks them. *)
Definition customer_coordinates_or_profile (db : Db.Session) (order : Order.t)
  : option R * option R :=
  let customer_lat := Order.delivery_gps_lat order in
  let customer_lng := Order.delivery_gps_long order in
  if negb (truthy_float customer_lat) || negb (truthy_float customer_lng) then
    match Db.customer_by_id db (Order.customer_id order) with
    | Some customer => (Customer.gps_lat customer, Customer.gps_long customer)
    | None => (customer_lat, customer_lng)
    end
  else (customer_lat, customer_lng).

Definition select_route (order_id : Z) (route_index : Z) (current_user : User.t)
  : M state (bool * Z) :=
  s <- get ;;
  match Db.order_by_id (db s) order_id with
  | None => raise (HTTPException 404 "Order not found")
  | Some order =>
      when (bool_decide (User.role current_user = UserRole.DRIVER)
            && bool_decide (Order.driver_id order <> Some (User.id current_user)))
        (raise (HTTPException 403 "Not authorized to modify this order's route")) ;;;
      modify (fun s =>
                set_selected_route_cache
                  (<[order_id := route_index]> (selected_route_cache s)) s) ;;;
      modify (fun s =>
                match route_cache s !! order_id with
                | Some _ => set_route_cache (delete order_id (route_cache s)) s
                | None => s
                end) ;;;
      ret (true, route_index)
  end.

Record RecalculateRouteRequest : Type := {
  driver_lat : R;
  driver_lng : R
}.

Definition recalculate_route (order_id : Z) (request : RecalculateRouteRequest)
    (current_user : User.t)
  : M state (bool * list Distance.route_option * Z) :=
  s <- get ;;
  match Db.order_by_id (db s) order_id with
  | None => raise (HTTPException 404 "Order not found")
  | Some order =>
      when (bool_decide (User.role current_user = UserRole.DRIVER)
            && bool_decide (Order.driver_id order <> Some (User.id current_user)))
        (raise (HTTPException 403 "Not authorized to modify this order's route")) ;;;
      let '(customer_lat, customer_lng) := customer_coordinates_or_profile (db s) order in
      match float_if_truthy customer_lat, float_if_truthy customer_lng with
      | Some customer_lat, Some customer_lng =>
          modify (fun s =>
                    match route_cache s !! order_id with
                    | Some _ => set_route_cache (delete order_id (route_cache s)) s
                    | None => s
                    end) ;;;
          modify (fun s =>
                    set_selected_route_cache
                      (<[order_id := 0%Z]> (selected_route_cache s)) s) ;;;
          routes <- routing (Distance.get_alternative_routes
                               (driver_lat request) (driver_lng request)
                               customer_lat customer_lng 5.0) ;;
          routes <-
            match routes with
            | [] =>
                fetched <- routing (Distance.get_route_with_geometry
                                      (driver_lat request) (driver_lng request)
                                      customer_lat customer_lng 15.0) ;;
                let '(road_distance, road_eta, route_coords) := fetched in
                match route_coords with
                | Some (p :: ps) =>
                    ret [ {| Distance.route_index := 0;
                             Distance.distance_km :=
                               if truthy_float road_distance
                               then round2 (default 0 road_distance) else 0;
                             Distance.duration_minutes :=
                               if truthy_int road_eta
                               then default 0%Z road_eta else 0%Z;
                             Distance.opt_coordinates := p :: ps |} ]
                | _ => ret []
                end
            | _ => ret routes
            end ;;
          match routes with
          | [] => raise (HTTPException 404 "Could not calculate new routes")
          | first :: _ =>
              modify (fun s =>
                        set_route_cache
                          (<[order_id :=
                              (driver_lat request, driver_lng request,
                               customer_lat, customer_lng,
                               Distance.opt_coordinates first)]>
                             (route_cache s)) s) ;;;
              ret (true, routes, 0%Z)
          end
      | _, _ => raise (HTTPException 404 "Customer location not available")
      end
  end.

(** [ConnectionManager.connect] *)
Definition connect (websocket : WebSocket.t) : M state unit :=
  modify (fun s => set_active_connections (active_connections s ++ [websocket]) s).

(** [ConnectionManager.disconnect] *)
Definition disconnect (websocket : WebSocket.t) : M state unit :=
  s <- get ;;
  l <- lift (remove websocket (active_connections s)) ;;
  put (set_active_connections l s).

(** The loop of [ConnectionManager.broadcast]. *)
Fixpoint broadcast_each (conns : list WebSocket.t) (message : WebSocket.message)
  : M state unit :=
  match conns with
  | [] => ret tt
  | connection :: rest =>
      try_except
        (zoom wire set_wire (WebSocket.send_json connection message))
        (fun _ => ret tt) ;;;
      broadcast_each rest message
  end.

(** [ConnectionManager.broadcast] *)
Definition broadcast (message : WebSocket.message) : M state unit :=
  s <- get ;;
  broadcast_each (active_connections s) message.

Record LocationUpdate : Type := {
  upd_driver_id : Z;
  upd_latitude : R;
  upd_longitude : R
}.

(** [POST /api/tracking/update], the legacy endpoint. *)
Definition update_location (request : LocationUpdate) (current_user : User.t)
  : M state TruckLocation.t :=
  when (negb (is_valid_india_location (upd_latitude request) (upd_longitude request)))
    (raise (HTTPException 400 "Invalid location - coordinates outside service area")) ;;;
  s <- get ;;
  let location :=
    {| TruckLocation.id := Db.next_location_id (db s);
       TruckLocation.driver_id := upd_driver_id request;
       TruckLocation.latitude := upd_latitude request;
       TruckLocation.longitude := upd_longitude request;
       TruckLocation.accuracy := None;
       TruckLocation.speed := None;
       TruckLocation.heading := None;
       TruckLocation.timestamp := utcnow s |} in
  put (set_db (Db.add_location location (db s)) s) ;;;
  ret location.

(** The parsed text of one frame on the driver socket: the four keys the
    handler reads. A key holds a number, or [None] when it is absent or its
    value is falsy. *)
Record location_data : Type := {
  key_latitude : option R;
  key_lat : option R;
  key_longitude : option R;
  key_long : option R
}.

(** [a or b] on optional floats. *)
Definition float_or (a b : option R) : option R :=
  if truthy_float a then a else b.

(** One turn of the [while True] loop of [websocket_endpoint], after
    [json.loads]. [continue] ends the turn without effect. *)
Definition websocket_turn (driver_id : Z) (data : location_data) : M state unit :=
  let latitude := float_or (key_latitude data) (key_lat data) in
  let longitude := float_or (key_longitude data) (key_long data) in
  if negb (truthy_float latitude) || negb (truthy_float longitude) then ret tt
  else
    let latitude := default 0 latitude in
    let longitude := default 0 longitude in
    if negb (is_valid_india_location latitude longitude) then ret tt
    else
      s <- get ;;
      let location :=
        {| TruckLocation.id := Db.next_location_id (db s);
           TruckLocation.driver_id := driver_id;
           TruckLocation.latitude := latitude;
           TruckLocation.longitude := longitude;
           TruckLocation.accuracy := None;
           TruckLocation.speed := None;
           TruckLocation.heading := None;
           TruckLocation.timestamp := utcnow s |} in
      put (set_db (Db.add_location location (db s)) s) ;;;
      broadcast
        [("driver_id", WebSocket.JInt driver_id);
         ("latitude", WebSocket.JFloat latitude);
         ("longitude", WebSocket.JFloat longitude);
         ("timestamp", WebSocket.JInt (utcnow s))].

(** Why a text frame cannot be taken as a sample: [json.loads] fails on it,
    the JSON value is not an object and has no [get], or both coordinates
    are truthy and one of them is not a number, so that the comparisons of
    [is_valid_india_location] fail. *)
Inductive unusable : Type :=
| NotJson
| NotAnObject
| NotANumber.

(** The exception the turn raises on such a frame, before anything is
    stored or sent; [json.JSONDecodeError] is a [ValueError]. *)
Definition unusable_exn (u : unusable) : exn :=
  match u with
  | NotJson => ValueError
  | NotAnObject => AttributeError
  | NotANumber => TypeError
  end.

(** A text frame received on the driver socket. *)
Inductive frame : Type :=
| Parsed (data : location_data)
| Unusable (u : unusable).

(** The [while True] loop over the frames of a session. After the last
    frame the peer closes the socket and [receive_text] raises
    [WebSocketDisconnect]. *)
Fixpoint websocket_loop (driver_id : Z) (frames : list frame) : M state unit :=
  match frames with
  | [] => raise WebSocketDisconnect
  | Parsed data :: rest =>
      websocket_turn driver_id data ;;; websocket_loop driver_id rest
  | Unusable u :: _ => raise (unusable_exn u)
  end.


Record AlternativeRoutesResponse : Type := {
  alt_order_id : Z;
  alt_routes : list Distance.route_option;
  alt_selected_route_index : Z
}.

(** [GET /api/tracking/{order_id}/routes] *)
Definition get_alternative_routes_endpoint (order_id : Z) (current_user : User.t)
  : M state AlternativeRoutesResponse :=
  s <- get ;;
  match Db.order_by_id (db s) order_id with
  | None => raise (HTTPException 404 "Order not found")
  | Some order =>
      when (negb (truthy_int (Order.driver_id order)))
        (raise (HTTPException 404 "No driver assigned to this order")) ;;;
      match Db.latest_location (db s) (default 0%Z (Order.driver_id order)) with
      | None => raise (HTTPException 404 "No location data found for driver")
      | Some location =>
          let '(customer_lat, customer_lng) := customer_coordinates_or_profile (db s) order in
          match float_if_truthy customer_lat, float_if_truthy customer_lng with
          | Some customer_lat, Some customer_lng =>
              routes <- routing (Distance.get_alternative_routes
                                   (TruckLocation.latitude location)
                                   (TruckLocation.longitude location)
                                   customer_lat customer_lng 5.0) ;;
              match routes with
              | [] => raise (HTTPException 404 "Could not calculate routes")
              | _ =>
                  s <- get ;;
                  let selected_index := default 0%Z (selected_route_cache s !! order_id) in
                  ret {| alt_order_id := order_id;
                         alt_routes := routes;
                         alt_selected_route_index := selected_index |}
              end
          | _, _ => raise (HTTPException 404 "Customer location not available")
          end
      end
  end.

(** [GET /api/tracking/truck/{driver_id}] and [/driver/{driver_id}] *)
Definition get_driver_location (driver_id : Z) (current_user : User.t)
  : M state TruckLocation.t :=
  s <- get ;;
  match Db.latest_location (db s) driver_id with
  | None => raise (HTTPException 404 "No location data found for driver")
  | Some location => ret location
  end.

End Tracking.

(** ** main.py *)

Module Main.
Import Py.

(** One process serves every router: the handlers of [routers/orders.py]
    work on the session of the process and reach nothing else of it. *)
Definition update_order (order_id : Z) (request : Orders.OrderUpdate)
    (current_user : User.t) : M Tracking.state Orders.OrderResponse :=
  zoom Tracking.db Tracking.set_db (Orders.update_order order_id request current_user).

Definition cancel_order (order_id : Z) (current_user : User.t)
  : M Tracking.state string :=
  zoom Tracking.db Tracking.set_db (Orders.cancel_order order_id current_user).

End Main.

(** ** services/notification_service.py: the read state of notifications *)

Module NotificationRead.
Import Py.

(** The columns of a notification row that the read-state queries look at.
    [is_read] is set on every row the service creates. *)
Record row : Type := {
  id : Z;
  user_id : option Z;
  role : string;
  is_read : bool
}.

Definition set_is_read (v : bool) (n : row) : row :=
  {| id := id n; user_id := user_id n; role := role n; is_read := v |}.

(** [or_(Notification.user_id == user_id,
         (Notification.user_id == None) & (Notification.role == user_role))] *)
Definition addressed_to (user_id : Z) (user_role : string) (n : row) : bool :=
  bool_decide (NotificationRead.user_id n = Some user_id)
  || (bool_decide (NotificationRead.user_id n = None) && String.eqb (role n) user_role).

Definition mark_as_read (notification_id user_id : Z) (user_role : string)
  : M (list row) bool :=
  rows <- get ;;
  match find (fun n => (id n =? notification_id)%Z && addressed_to user_id user_role n)
          rows with
  | Some notification =>
      put (map (fun r => if (id r =? id notification)%Z then set_is_read true r else r)
             rows) ;;;
      ret true
  | None => ret false
  end.

(** [filter(user_id == user_id, is_read == False).update({"is_read": True})];
    [user_role] is not used. *)
Definition mark_all_as_read (user_id : Z) (user_role : string) : M (list row) nat :=
  rows <- get ;;
  let matched n :=
    bool_decide (NotificationRead.user_id n = Some user_id) && negb (is_read n) in
  let count := length (List.filter matched rows) in
  put (map (fun n => if matched n then set_is_read true n else n) rows) ;;;
  ret count.

Definition get_unread_count (user_id : Z) (user_role : string) : M (list row) nat :=
  rows <- get ;;
  ret (length (List.filter
                 (fun n => addressed_to user_id user_role n && negb (is_read n))
                 rows)).

End NotificationRead.

(** ** middleware/security.py: the rate limiter in front of every handler *)

Module RateLimiter.
Import Py.
Local Open Scope R_scope.

(** [RateLimiter]: [requests] is a [defaultdict(list)], read as the empty
    list at a key that is absent. *)
Record t : Type := {
  requests : gmap string (list R);
  cleanup_interval : R;
  last_cleanup : R
}.

(** [__init__], at the time [now] that [time.time()] reads. *)
Definition init (now : R) : t :=
  {| requests := ∅; cleanup_interval := 60; last_cleanup := now |}.

(** [cleanup], when [time.time()] reads [now]: entries older than five
    minutes go, and a key left with no entry is deleted. *)
Definition cleanup (now : R) (self : t) : t :=
  let cutoff_time := now - 300 in
  {| requests :=
       omap (fun times =>
               match List.filter (fun req_time => float_gt req_time cutoff_time) times with
               | [] => None
               | kept => Some kept
               end) (requests self);
     cleanup_interval := cleanup_interval self;
     last_cleanup := last_cleanup self |}.

(** [is_allowed]. The clock is read twice: [current_time] is what
    [time.time()] reads when the call starts, [cleanup_time] what it reads
    inside [cleanup], when the call gets there. *)
Definition is_allowed (current_time cleanup_time : R) (key : string) (max_requests : Z)
    (window_seconds : R) : M t bool :=
  self <- get ;;
  let self :=
    if float_gt (current_time - last_cleanup self) (cleanup_interval self) then
      {| requests := requests (cleanup cleanup_time self);
         cleanup_interval := cleanup_interval self;
         last_cleanup := current_time |}
    else self in
  let cutoff_time := current_time - window_seconds in
  let recent :=
    List.filter (fun req_time => float_gt req_time cutoff_time)
      (default [] (requests self !! key)) in
  if (max_requests <=? Z.of_nat (length recent))%Z then
    put {| requests := <[key := recent]> (requests self);
           cleanup_interval := cleanup_interval self;
           last_cleanup := last_cleanup self |} ;;;
    ret false
  else
    put {| requests := <[key := recent ++ [current_time]]> (requests self);
           cleanup_interval := cleanup_interval self;
           last_cleanup := last_cleanup self |} ;;;
    ret true.

End RateLimiter.

(** ** Reference definitions

    Definitions that follow the words of the specification, and sample
    states on which the handlers are run. *)

Module Spec.
Import Py.
Local Open Scope R_scope.

(** The speed the ETA is computed with: the live speed when it is above the
    5 km/h noise floor, else the default cruising speed of 40 km/h. *)
Definition speed_to_use (current_speed_kmh : option R) : R :=
  match current_speed_kmh with
  | Some v => if Rgt_dec v 5 then v else 40
  | None => 40
  end.

(** The duration as the specification words it: the floor of the corrected
    minutes, raised to 1 when that is 0 and the raw distance [d] (meters)
    exceeds 100 m. *)
Definition claimed_duration (d s : R) : Z :=
  let m := Int_part (s / 60 * 1.25) in
  if (m =? 0)%Z && float_gt d 100 then 1%Z else m.

(** A provider that always answers with one route of raw distance [d] and
    raw duration [s], and no request made yet. *)
Definition one_route_net (d s : R) (coords : option (list (R * R))) : Distance.net :=
  {| Distance.provider := fun _ _ =>
       Distance.Response 200
         {| Distance.code := Some "Ok";
            Distance.routes :=
              Some [ {| Distance.distance := Some d;
                        Distance.duration := Some s;
                        Distance.coordinates := coords |} ] |};
     Distance.calls := [] |}.

(** A provider that never answers in time. *)
Definition silent_net : Distance.net :=
  {| Distance.provider := fun _ _ => Distance.TimedOut; Distance.calls := [] |}.

Local Open Scope Z_scope.

(** Two sessions that differ at most in their notification rows. *)
Definition same_tables (db db' : Db.Session) : Prop :=
  Db.orders db' = Db.orders db
  /\ Db.users db' = Db.users db
  /\ Db.customers db' = Db.customers db
  /\ Db.receipts db' = Db.receipts db
  /\ Db.transactions db' = Db.transactions db
  /\ Db.truck_locations db' = Db.truck_locations db.

(** The delivery gate: the caller's [otp_input] is the stored OTP of the
    order and a receipt of the order is on record. *)
Definition delivery_gate (db : Db.Session) (order : Order.t)
    (request : Orders.OrderUpdate) : Prop :=
  (exists otp : string,
      Orders.otp_input request = Some otp /\ Order.otp order = Some otp)
  /\ (0 < Db.receipt_count db (Order.id order))%nat.

(** The two triggers of a delivery completion. *)
Definition asks_delivery (request : Orders.OrderUpdate) : Prop :=
  Orders.status request = Some OrderStatus.DELIVERED
  \/ Orders.signature request <> None.

(** The number of orders of a driver that are in transit. *)
Definition in_transit_count (db : Db.Session) (driver_id : Z) : nat :=
  length (filter (fun o => Order.driver_id o = Some driver_id
                           /\ Order.status o = OrderStatus.IN_TRANSIT)
                 (Db.orders db)).

(** The invariant of the specification: at most one order per driver is in
    transit. *)
Definition single_active_delivery (db : Db.Session) : Prop :=
  forall driver_id : Z, (in_transit_count db driver_id <= 1)%nat.

Definition sample_order (id : Z) (driver_id : option Z) (status : OrderStatus.t)
  : Order.t :=
  {| Order.id := id; Order.customer_id := 10; Order.driver_id := driver_id;
     Order.status := status; Order.delivery_time := None;
     Order.otp := Some "482913"; Order.signature := None;
     Order.delivery_address := None;
     Order.delivery_gps_lat := None; Order.delivery_gps_long := None |}.

Definition admin_user : User.t :=
  {| User.id := 1; User.name := "admin"; User.mobile := None;
     User.role := UserRole.ADMIN |}.

Definition driver_user : User.t :=
  {| User.id := 7; User.name := "driver"; User.mobile := None;
     User.role := UserRole.DRIVER |}.

Definition customer_user : User.t :=
  {| User.id := 20; User.name := "customer"; User.mobile := None;
     User.role := UserRole.CUSTOMER |}.

(** Driver 7 has order 1 assigned and order 2 in transit; order 1 has the
    given receipts. *)
Definition sample_db (receipts : list Receipt.t) : Db.Session :=
  {| Db.orders := [sample_order 1 (Some 7) OrderStatus.ASSIGNED;
                   sample_order 2 (Some 7) OrderStatus.IN_TRANSIT];
     Db.users := [admin_user; driver_user; customer_user];
     Db.customers :=
       [ {| Customer.id := 10; Customer.user_id := 20;
            Customer.company_name := "Acme Fuels"; Customer.address := None;
            Customer.gps_lat := None; Customer.gps_long := None |} ];
     Db.receipts := receipts;
     Db.transactions := [];
     Db.truck_locations := [];
     Db.notifications := [] |}.


Definition update_request (status : option OrderStatus.t) (driver_id : option Z)
    (signature otp_input : option string) : Orders.OrderUpdate :=
  {| Orders.status := status; Orders.driver_id := driver_id;
     Orders.delivery_time := None; Orders.signature := signature;
     Orders.otp_input := otp_input |}.

(** A step that only stores notifications: it returns and leaves every
    other table as it was. *)
Definition notifies (m : Py.M Db.Session unit) : Prop :=
  forall db : Db.Session,
    exists db' : Db.Session, m db = (Py.Return tt, db') /\ same_tables db db'.

(** The service region of the geofence. *)
Definition in_service_region (latitude longitude : R) : Prop :=
  (6.5 <= latitude <= 35.5 /\ 68.0 <= longitude <= 97.5)%R.

(** A wire on which every connection is open and nothing was sent. *)
Definition open_wire : WebSocket.wire :=
  {| WebSocket.closed := fun _ => false; WebSocket.sent := [] |}.

(** A wire on which connection 1 is closed. *)
Definition wire_without_1 : WebSocket.wire :=
  {| WebSocket.closed := fun ws => (ws =? 1)%nat; WebSocket.sent := [] |}.

(** The process of [main.py] with connection 1 registered on the tracking
    socket. *)
Definition tracking_state (db : Db.Session) (route_cache : gmap Z Tracking.cache_entry)
    (selected_route_cache : gmap Z Z) (osrm : Distance.net) : Tracking.state :=
  {| Tracking.db := db; Tracking.route_cache := route_cache;
     Tracking.selected_route_cache := selected_route_cache;
     Tracking.osrm := osrm; Tracking.active_connections := [1%nat];
     Tracking.wire := open_wire; Tracking.utcnow := 0 |}.

Definition location_state (db : Db.Session) (conns : list WebSocket.t)
    (wire : WebSocket.wire) : Location.state :=
  {| Location.db := db; Location.active_connections := conns;
     Location.wire := wire; Location.logs := []; Location.utcnow := 0 |}.

(** A sample taken in London, outside the service region. *)
Definition london_frame : Tracking.location_data :=
  {| Tracking.key_latitude := Some 51.5%R; Tracking.key_lat := None;
     Tracking.key_longitude := Some (-0.12)%R; Tracking.key_long := None |}.

Definition london_update : Location.LocationUpdate :=
  {| Location.latitude := 51.5%R; Location.longitude := (-0.12)%R;
     Location.accuracy := None; Location.speed := None;
     Location.heading := None |}.

Definition london_legacy_update : Tracking.LocationUpdate :=
  {| Tracking.upd_driver_id := 7; Tracking.upd_latitude := 51.5%R;
     Tracking.upd_longitude := (-0.12)%R |}.

(** What the removal loop of a broadcast leaves of a list [l]: the first
    occurrence of each element of [disconnected] is dropped in turn, and an
    element that is absent is skipped. *)
Definition prune (disconnected l : list WebSocket.t) : list WebSocket.t :=
  foldl (fun acc ws =>
           match Py.remove ws acc with
           | Py.Return r => r
           | Py.Raise _ => acc
           end) l disconnected.

(** The connections of [conns] on which a send succeeds, and those on which
    it fails. *)
Definition alive (w : WebSocket.wire) (conns : list WebSocket.t) : list WebSocket.t :=
  filter (fun ws => WebSocket.closed w ws = false) conns.

Definition failing (w : WebSocket.wire) (conns : list WebSocket.t) : list WebSocket.t :=
  filter (fun ws => WebSocket.closed w ws = true) conns.

(** The deliveries of one message to a list of connections. *)
Definition deliveries (conns : list WebSocket.t) (msg : WebSocket.message)
  : list (WebSocket.t * WebSocket.message) :=
  map (fun ws => (ws, msg)) conns.

Definition ping : WebSocket.message := [("type", WebSocket.JStr "ping")].

(** A route entry cached for order 1 at the driver position (19, 73). *)
Definition cached_entry : Tracking.cache_entry :=
  (19, 73, 19.2, 73.1, [(73, 19); (73.1, 19.2)])%R.

(** Order 1 is assigned to driver 7, who was last seen at (19, 73); the
    delivery address is at (19.2, 73.1). *)
Definition tracked_db : Db.Session :=
  {| Db.orders :=
       [ {| Order.id := 1; Order.customer_id := 10; Order.driver_id := Some 7;
            Order.status := OrderStatus.ASSIGNED; Order.delivery_time := None;
            Order.otp := Some "482913"; Order.signature := None;
            Order.delivery_address := None;
            Order.delivery_gps_lat := Some 19.2%R;
            Order.delivery_gps_long := Some 73.1%R |} ];
     Db.users := [admin_user; driver_user; customer_user];
     Db.customers :=
       [ {| Customer.id := 10; Customer.user_id := 20;
            Customer.company_name := "Acme Fuels"; Customer.address := None;
            Customer.gps_lat := None; Customer.gps_long := None |} ];
     Db.receipts := [];
     Db.transactions := [];
     Db.truck_locations :=
       [ {| TruckLocation.id := 1; TruckLocation.driver_id := 7;
            TruckLocation.latitude := 19%R; TruckLocation.longitude := 73%R;
            TruckLocation.accuracy := None; TruckLocation.speed := None;
            TruckLocation.heading := None; TruckLocation.timestamp := 0 |} ];
     Db.notifications := [] |}.

(** The process with the route of order 1 cached and its second
    alternative selected. *)
Definition cached_state (osrm : Distance.net) : Tracking.state :=
  tracking_state tracked_db (<[1 := cached_entry]> ∅) (<[1 := 2]> ∅) osrm.

(** A tracking query on [order_id] gets through its lookups: the order is
    assigned and trackable, its driver has a latest [location], and the
    delivery coordinates [cust_lat], [cust_lng] are known. *)
Definition trackable (s : Tracking.state) (order_id : Z) (location : TruckLocation.t)
    (cust_lat cust_lng : R) : Prop :=
  exists (order : Order.t) (driver : User.t),
    Db.order_by_id (Tracking.db s) order_id = Some order
    /\ truthy_int (Order.driver_id order) = true
    /\ (Order.status order = OrderStatus.ASSIGNED
        \/ Order.status order = OrderStatus.IN_TRANSIT)
    /\ Db.latest_location (Tracking.db s) (default 0 (Order.driver_id order))
       = Some location
    /\ Db.user_by_id (Tracking.db s) (default 0 (Order.driver_id order)) = Some driver
    /\ Tracking.customer_coordinates order
         (Db.customer_by_id (Tracking.db s) (Order.customer_id order))
       = (Some cust_lat, Some cust_lng)
    /\ cust_lat <> 0%R /\ cust_lng <> 0%R.

(** An answer of the provider that gives no usable route: a timeout, a
    failure, a status other than 200, or a body without routes. *)
Definition no_usable_result (o : Distance.http_outcome) : Prop :=
  match o with
  | Distance.Response status_code data =>
      status_code <> 200%Z \/ Distance.first_route data = None
  | Distance.TimedOut => True
  | Distance.Failed _ => True
  end.

(** The figures the specification gives for the sample scenario, read with
    a tolerance: a distance within 0.5 km of 17.7 km and an ETA within one
    minute of 26 minutes, not a road distance. *)
Definition claimed_scenario (r : R * Z * bool) : Prop :=
  (Rabs (fst (fst r) - 17.7) <= 0.5)%R
  /\ (25 <= snd (fst r) <= 27)%Z
  /\ snd r = false.

End Spec.

(** ** Notions for the properties of the code

    Predicates and reference functions in which the properties of the
    handlers are stated, and the runs they are stated about. *)

Module Notions.
Import Py.

(** No character of [s] is a space. *)
Fixpoint has_space (s : string) : bool :=
  match s with
  | EmptyString => false
  | String c r => if Ascii.eqb c " " then true else has_space r
  end.

(** A segment from A to B that is not a point, but so short that the
    squares of both its extents are rounded to [0.0]: each extent is below
    2^-537, about 1.5e-162 degrees. *)
Definition vanishing (ax ay bx b_y : R) : Prop :=
  (bx - ax <> 0 \/ b_y - ay <> 0)%R
  /\ ((bx - ax) * (bx - ax) <= float_tiny)%R
  /\ ((b_y - ay) * (b_y - ay) <= float_tiny)%R.

(** [s'] is [s] after the provider requests [extra] and changes of the
    route cache: everything else is as in [s]. *)
Definition routed (s s' : Tracking.state) (extra : list Distance.request) : Prop :=
  Tracking.db s' = Tracking.db s
  /\ Tracking.selected_route_cache s' = Tracking.selected_route_cache s
  /\ Tracking.active_connections s' = Tracking.active_connections s
  /\ Tracking.wire s' = Tracking.wire s
  /\ Tracking.utcnow s' = Tracking.utcnow s
  /\ Distance.provider (Tracking.osrm s') = Distance.provider (Tracking.osrm s)
  /\ Distance.calls (Tracking.osrm s') = Distance.calls (Tracking.osrm s) ++ extra.

(** The time a series of provider requests may take at most: the sum of
    their timeouts. *)
Definition total_timeout (requests : list Distance.request) : R :=
  foldr Rplus 0%R (map Distance.req_timeout requests).




(** The state of [routers/location.py] when the clock reads [now]. *)
Definition at_time (now : Z) (s : Location.state) : Location.state :=
  {| Location.db := Location.db s;
     Location.active_connections := Location.active_connections s;
     Location.wire := Location.wire s; Location.logs := Location.logs s;
     Location.utcnow := now |}.

(** The connections a notification is meant for: those of the user when a
    user is named, else those of the role when a role is named, else none. *)
Definition recipients (self : NotificationBroadcast.NotificationConnectionManager)
    (user_id : option Z) (role : option string) : list WebSocket.t :=
  if truthy_int user_id then
    default [] (NotificationBroadcast.active_connections self !! default 0%Z user_id)
  else if truthy_str role then
    default [] (NotificationBroadcast.role_connections self !! default "" role)
  else [].

(** Unread rows addressed to one user in person, and unread rows broadcast
    to a role. *)
Definition personal_unread (user_id : Z) (rows : list NotificationRead.row) : nat :=
  length (List.filter
            (fun n => bool_decide (NotificationRead.user_id n = Some user_id)
                      && negb (NotificationRead.is_read n)) rows).

Definition broadcast_unread (user_role : string) (rows : list NotificationRead.row) : nat :=
  length (List.filter
            (fun n => bool_decide (NotificationRead.user_id n = None)
                      && String.eqb (NotificationRead.role n) user_role
                      && negb (NotificationRead.is_read n)) rows).

(** The status [update_order] leaves on an order: a signature given with a
    status other than DELIVERED completes the delivery; otherwise a driver
    in the request makes the order ASSIGNED; otherwise the status of the
    request, if any, is taken. *)
Definition final_status (request : Orders.OrderUpdate) (order : Order.t) : OrderStatus.t :=
  if truthy_str (Orders.signature request)
     && bool_decide (Orders.status request <> Some OrderStatus.DELIVERED)
  then OrderStatus.DELIVERED
  else if truthy_int (Orders.driver_id request) then OrderStatus.ASSIGNED
  else match Orders.status request with
       | Some st => st
       | None => Order.status order
       end.

(** The notification rows [cancel_order] stores for an order. *)
Definition cancellation_notices (db : Db.Session) (order : Order.t)
  : list Notification.t :=
  match Db.customer_by_id db (Order.customer_id order) with
  | Some c =>
      [ {| Notification.user_id := Some (Customer.user_id c);
           Notification.role := UserRole.CUSTOMER;
           Notification.order_id := Some (Order.id order);
           Notification.type := NotificationType.ORDER_CANCELLED |} ]
  | None => []
  end
  ++ (if truthy_int (Order.driver_id order) then
        [ {| Notification.user_id := Order.driver_id order;
             Notification.role := UserRole.DRIVER;
             Notification.order_id := Some (Order.id order);
             Notification.type := NotificationType.ORDER_UNASSIGNED |} ]
      else []).

(** A request through the rate limiter: what the clock reads when
    [is_allowed] starts, what it reads inside [cleanup] should the call get
    there, and the key of the request. *)
Record call : Type := {
  call_time : R;
  call_cleanup_time : R;
  call_key : string
}.

(** A series of requests through the rate limiter, all with the same limit
    and window. *)
Fixpoint serve (max_requests : Z) (window_seconds : R) (calls : list call)
  : M RateLimiter.t (list bool) :=
  match calls with
  | [] => ret []
  | c :: rest =>
      b <- RateLimiter.is_allowed (call_time c) (call_cleanup_time c) (call_key c)
             max_requests window_seconds ;;
      bs <- serve max_requests window_seconds rest ;;
      ret (b :: bs)
  end.

(** The times of the requests of [key] that were let through. *)
Fixpoint granted (key : string) (calls : list call) (outcomes : list bool) : list R :=
  match calls, outcomes with
  | c :: calls, b :: outcomes =>
      (if b && String.eqb (call_key c) key then [call_time c] else [])
      ++ granted key calls outcomes
  | _, _ => []
  end.

(** Times that do not go back: each is at least the one before, the first
    at least [T]. *)
Fixpoint ascending (T : R) (times : list R) : Prop :=
  match times with
  | [] => True
  | t :: rest => (T <= t)%R /\ ascending t rest
  end.

(** The window of a request is within the five minutes that [cleanup]
    keeps, counted from the moment [cleanup] reads the clock. *)
Definition within_kept (window_seconds : R) (c : call) : Prop :=
  (window_seconds + (call_cleanup_time c - call_time c) <= 300)%R.

(** The entries of [times] later than [cutoff]. *)
Definition since (cutoff : R) (times : list R) : list R :=
  List.filter (fun t => float_gt t cutoff) times.

(** The stored times of every key agree with the granted ones on every
    window of [window_seconds] that ends at [T] or later. *)
Definition agrees (window_seconds : R) (self : RateLimiter.t)
    (calls : list call) (outcomes : list bool) (T : R) : Prop :=
  forall key t, (T <= t)%R ->
    since (t - window_seconds) (default [] (RateLimiter.requests self !! key))
    = since (t - window_seconds) (granted key calls outcomes).

End Notions.

(** * Properties *)

(** ** Truncation and comparison of floats *)

Section PyFloat.
Local Open Scope R_scope.

Lemma Int_part_unique (x : R) (n : Z) :
  IZR n <= x < IZR n + 1 -> Int_part x = n.
Proof.
  intros [Hlo Hhi]. symmetry. apply Int_part_spec. split; lra.
Qed.

Lemma Int_part_nonneg (x : R) : 0 <= x -> (0 <= Int_part x)%Z.
Proof.
  intros Hx. destruct (base_Int_part x) as [_ Hgt].
  assert (H : (-1 < Int_part x)%Z) by (apply lt_IZR; lra).
  lia.
Qed.

Lemma int_floor (x : R) : 0 <= x -> Py.int x = Int_part x.
Proof.
  intros Hx. unfold Py.int. destruct (Rle_dec 0 x) as [_ | Hn]; [reflexivity | lra].
Qed.

Lemma int_nonneg (x : R) : 0 <= x -> (0 <= Py.int x)%Z.
Proof.
  intros Hx. rewrite int_floor by exact Hx. apply Int_part_nonneg, Hx.
Qed.

Lemma int_eq (x : R) (n : Z) : 0 <= x -> IZR n <= x < IZR n + 1 -> Py.int x = n.
Proof.
  intros Hx Hn. rewrite int_floor by exact Hx. apply Int_part_unique, Hn.
Qed.

Lemma float_gt_true (x y : R) : x > y -> Py.float_gt x y = true.
Proof. intros H. unfold Py.float_gt. destruct (Rgt_dec x y); [reflexivity | lra]. Qed.

Lemma float_gt_false (x y : R) : x <= y -> Py.float_gt x y = false.
Proof. intros H. unfold Py.float_gt. destruct (Rgt_dec x y); [lra | reflexivity]. Qed.

Lemma float_gt_iff (x y : R) : Py.float_gt x y = true <-> x > y.
Proof.
  unfold Py.float_gt. destruct (Rgt_dec x y); split; intros; try easy.
Qed.

Lemma float_lt_true (x y : R) : x < y -> Py.float_lt x y = true.
Proof. intros H. unfold Py.float_lt. destruct (Rlt_dec x y); [reflexivity | lra]. Qed.

Lemma float_lt_false (x y : R) : y <= x -> Py.float_lt x y = false.
Proof. intros H. unfold Py.float_lt. destruct (Rlt_dec x y); [lra | reflexivity]. Qed.

Lemma float_le_true (x y : R) : x <= y -> Py.float_le x y = true.
Proof. intros H. unfold Py.float_le. destruct (Rle_dec x y); [reflexivity | lra]. Qed.

Lemma float_le_false (x y : R) : y < x -> Py.float_le x y = false.
Proof. intros H. unfold Py.float_le. destruct (Rle_dec x y); [lra | reflexivity]. Qed.

Lemma truthy_float_true (v : R) : v <> 0 -> Py.truthy_float (Some v) = true.
Proof. intros H. simpl. destruct (Req_dec_T v 0); [contradiction | reflexivity]. Qed.

Lemma truthy_float_zero : Py.truthy_float (Some 0) = false.
Proof. simpl. destruct (Req_dec_T 0 0); [reflexivity | contradiction]. Qed.

End PyFloat.

(** ** calculate_eta *)

Section CalculateEta.
Import Py Distance Spec.
Local Open Scope R_scope.

Lemma speed_to_use_positive (current_speed_kmh : option R) :
  speed_to_use current_speed_kmh >= 5.
Proof.
  unfold speed_to_use. destruct current_speed_kmh as [v |]; [| lra].
  destruct (Rgt_dec v 5); lra.
Qed.

Lemma float_max_above : 2 ^ 20 <= float_max.
Proof.
  unfold float_max.
  assert (H1 : 2 ^ 20 <= 2 ^ 1023) by (apply Rle_pow; [lra | lia]).
  assert (H2 : 0 < / 2 ^ 52 <= 1).
  { pose proof (pow_lt 2 52 ltac:(lra)) as Hp.
    pose proof (pow_R1_Rle 2 52 ltac:(lra)) as Hq.
    split; [apply Rinv_0_lt_compat, Hp |].
    rewrite <- Rinv_1. apply Rinv_le_contravar; lra. }
  assert (H3 : 0 < 2 ^ 20) by (apply pow_lt; lra).
  generalize dependent (2 ^ 1023). generalize dependent (/ 2 ^ 52).
  generalize dependent (2 ^ 20). intros; nra.
Qed.

Lemma float_max_below : float_max < 1e309.
Proof.
  unfold float_max.
  assert (H1 : 2 * 2 ^ 1023 < 1e309).
  { change (2 * 2 ^ 1023) with (2 ^ 1024).
    change 2 with (IZR 2). rewrite pow_IZR.
    replace 1e309 with (IZR (10 ^ 309)) by (change 1e309 with (1 * IZR (10 ^ 309)); ring).
    apply IZR_lt. reflexivity. }
  assert (H2 : 0 < / 2 ^ 52) by (apply Rinv_0_lt_compat, pow_lt; lra).
  assert (H3 : 0 < 2 ^ 1023) by (apply pow_lt; lra).
  generalize dependent (2 ^ 1023). generalize dependent (/ 2 ^ 52).
  generalize dependent 1e309. intros; nra.
Qed.

Lemma speed_to_use_spec (current_speed_kmh : option R) :
  match current_speed_kmh with
  | Some v => if truthy_float (Some v) && float_gt v 5 then v else 40.0
  | None => 40.0
  end = speed_to_use current_speed_kmh.
Proof.
  unfold speed_to_use. destruct current_speed_kmh as [v |]; [| lra].
  unfold float_gt. destruct (Rgt_dec v 5) as [Hgt | Hle].
  - rewrite truthy_float_true by lra. reflexivity.
  - rewrite andb_false_r. lra.
Qed.

(** With the default average speed the division never fails; what is left
    is the range check of [int]. *)
Lemma calculate_eta_cases (distance_km : R) (current_speed_kmh : option R) :
  calculate_eta distance_km current_speed_kmh avg_speed_kmh_default
  = if float_gt (Rabs (distance_km / speed_to_use current_speed_kmh * 60)) float_max
    then Raise OverflowError
    else Return (int (distance_km / speed_to_use current_speed_kmh * 60)).
Proof.
  unfold calculate_eta, avg_speed_kmh_default.
  rewrite (speed_to_use_spec current_speed_kmh). unfold truediv.
  pose proof (speed_to_use_positive current_speed_kmh) as Hpos.
  destruct (Req_dec_T (speed_to_use current_speed_kmh) 0) as [Hz | _]; [lra |].
  unfold int_of_float. destruct (float_gt _ float_max); reflexivity.
Qed.

Lemma calculate_eta_divisor (distance_km : R) (current_speed_kmh : option R) :
  Rabs (distance_km / speed_to_use current_speed_kmh * 60) <= float_max ->
  calculate_eta distance_km current_speed_kmh avg_speed_kmh_default
  = Return (int (distance_km / speed_to_use current_speed_kmh * 60)).
Proof.
  intros H. rewrite calculate_eta_cases, float_gt_false by exact H. reflexivity.
Qed.

Lemma eta_minutes_nonneg (distance_km : R) (current_speed_kmh : option R) :
  0 <= distance_km -> 0 <= distance_km / speed_to_use current_speed_kmh * 60.
Proof.
  intros Hd. pose proof (speed_to_use_positive current_speed_kmh) as Hpos.
  apply Rmult_le_pos; [| lra].
  unfold Rdiv. apply Rmult_le_pos; [exact Hd |].
  apply Rlt_le, Rinv_0_lt_compat. lra.
Qed.

Lemma eta_minutes_bound (distance_km : R) (current_speed_kmh : option R) :
  0 <= distance_km ->
  distance_km / speed_to_use current_speed_kmh * 60 <= distance_km * 12.
Proof.
  intros Hd. pose proof (speed_to_use_positive current_speed_kmh) as Hpos.
  assert (Hq : 0 < / speed_to_use current_speed_kmh <= / 5).
  { split; [apply Rinv_0_lt_compat; lra | apply Rinv_le_contravar; lra]. }
  unfold Rdiv. generalize dependent (/ speed_to_use current_speed_kmh).
  intros q Hq. nra.
Qed.

(** C10, as the code has it. For every distance [distance_km >= 0] and every
    optional live speed (absent, zero, negative or positive),
    [calculate_eta] with the default average speed never divides by zero:
    the divisor is the live speed when it is strictly greater than 5 km/h
    and 40 km/h otherwise, hence positive. It returns a non-negative integer
    as long as the minutes [distance_km / speed * 60] stay within the range
    of finite floats, which they do for every distance up to
    [float_max / 12]; beyond that range the minutes are infinite and [int]
    raises [OverflowError]. *)
Theorem calculate_eta_within_range (distance_km : R) (current_speed_kmh : option R) :
  0 <= distance_km ->
  speed_to_use current_speed_kmh > 0
  /\ (current_speed_kmh = None -> speed_to_use current_speed_kmh = 40)
  /\ (forall v, current_speed_kmh = Some v -> v > 5 ->
      speed_to_use current_speed_kmh = v)
  /\ (forall v, current_speed_kmh = Some v -> v <= 5 ->
      speed_to_use current_speed_kmh = 40)
  /\ calculate_eta distance_km current_speed_kmh avg_speed_kmh_default
     <> Raise ZeroDivisionError
  /\ (distance_km / speed_to_use current_speed_kmh * 60 <= float_max ->
      exists eta : Z,
        calculate_eta distance_km current_speed_kmh avg_speed_kmh_default = Return eta
        /\ eta = int (distance_km / speed_to_use current_speed_kmh * 60)
        /\ (0 <= eta)%Z)
  /\ (distance_km <= float_max / 12 ->
      exists eta : Z,
        calculate_eta distance_km current_speed_kmh avg_speed_kmh_default = Return eta
        /\ (0 <= eta)%Z)
  /\ (distance_km / speed_to_use current_speed_kmh * 60 > float_max ->
      calculate_eta distance_km current_speed_kmh avg_speed_kmh_default
      = Raise OverflowError).
Proof.
  intros Hd.
  pose proof (speed_to_use_positive current_speed_kmh) as Hpos.
  pose proof (eta_minutes_nonneg distance_km current_speed_kmh Hd) as Hm.
  pose proof (eta_minutes_bound distance_km current_speed_kmh Hd) as Hb.
  assert (Hret : distance_km / speed_to_use current_speed_kmh * 60 <= float_max ->
                 exists eta : Z,
                   calculate_eta distance_km current_speed_kmh avg_speed_kmh_default
                   = Return eta
                   /\ eta = int (distance_km / speed_to_use current_speed_kmh * 60)
                   /\ (0 <= eta)%Z).
  { intros Hle. eexists. split; [| split; [reflexivity |]].
    - apply calculate_eta_divisor. rewrite Rabs_pos_eq by exact Hm. exact Hle.
    - apply int_nonneg, Hm. }
  split; [lra |].
  split; [intros ->; reflexivity |].
  split; [intros v -> Hv; unfold speed_to_use; destruct (Rgt_dec v 5);
          [reflexivity | lra] |].
  split; [intros v -> Hv; unfold speed_to_use; destruct (Rgt_dec v 5);
          [lra | reflexivity] |].
  split; [rewrite calculate_eta_cases; destruct (float_gt _ float_max); discriminate |].
  split; [exact Hret |].
  split.
  - intros Hle. destruct Hret as (eta & E & _ & Hn); [lra |]. exists eta. auto.
  - intros Hgt. rewrite calculate_eta_cases, float_gt_true; [reflexivity |].
    rewrite Rabs_pos_eq by exact Hm. exact Hgt.
Qed.

Lemma calculate_eta_within_range_witness :
  exists eta : Z,
    calculate_eta 10 (Some 0) avg_speed_kmh_default = Return eta
    /\ eta = int (10 / speed_to_use (Some 0) * 60)
    /\ (0 <= eta)%Z.
Proof.
  destruct (calculate_eta_within_range 10 (Some 0) ltac:(lra))
    as (_ & _ & _ & _ & _ & _ & H & _).
  pose proof float_max_above as Hf.
  assert (H20 : 2 ^ 20 = 1048576) by (simpl; lra).
  destruct H as (eta & E & Hn); [lra |].
  exists eta. split; [exact E |]. split; [| exact Hn].
  rewrite calculate_eta_divisor in E; [congruence |].
  pose proof (eta_minutes_nonneg 10 (Some 0) ltac:(lra)) as Hm.
  pose proof (eta_minutes_bound 10 (Some 0) ltac:(lra)) as Hb.
  rewrite Rabs_pos_eq by exact Hm. lra.
Defined.

(** C10, as the claim words it, fails: the function is not total on the
    non-negative distances. At 1e308 km and a live speed of 6 km/h the
    minutes, 1e309, are beyond the largest finite float, and [int] raises
    [OverflowError]. *)
Lemma calculate_eta_overflows :
  0 <= 1e308
  /\ calculate_eta 1e308 (Some 6) avg_speed_kmh_default = Raise OverflowError.
Proof.
  assert (H308 : 1e308 = IZR (10 ^ 308))
    by (change 1e308 with (1 * IZR (10 ^ 308)); ring).
  assert (H309 : 1e309 = IZR (10 ^ 309))
    by (change 1e309 with (1 * IZR (10 ^ 309)); ring).
  assert (Hten : 1e309 = 1e308 * 10).
  { rewrite H308, H309. rewrite <- mult_IZR. f_equal. }
  assert (Hpos : 0 < 1e308) by (rewrite H308; apply IZR_lt; reflexivity).
  split; [lra |].
  rewrite calculate_eta_cases. unfold speed_to_use.
  destruct (Rgt_dec 6 5) as [_ | Hn]; [| lra].
  pose proof float_max_below as Hf.
  rewrite float_gt_true; [reflexivity |].
  generalize dependent 1e309. generalize dependent 1e308. intros x Hx _ y -> Hy.
  rewrite Rabs_pos_eq by lra. lra.
Qed.

(** Without the default the division can fail: an average speed of zero and
    no live speed raise [ZeroDivisionError]. *)
Lemma calculate_eta_zero_average (distance_km : R) :
  calculate_eta distance_km None 0 = Raise ZeroDivisionError.
Proof.
  unfold calculate_eta, truediv. destruct (Req_dec_T 0 0); [reflexivity | contradiction].
Qed.

(** The great-circle distance is within a range on which the ETA never
    overflows. *)
Lemma haversine_magnitude (lat1 lon1 lat2 lon2 : R) :
  - 25484 <= haversine_distance lat1 lon1 lat2 lon2 <= 25484.
Proof.
  unfold haversine_distance. cbv zeta.
  match goal with |- _ <= 2 * asin ?x * 6371 <= _ => pose proof (asin_bound x) as H end.
  pose proof PI_4 as H4. pose proof PI_RGT_0 as H0.
  lra.
Qed.

Lemma calculate_eta_haversine (lat1 lon1 lat2 lon2 : R) (current_speed_kmh : option R) :
  calculate_eta (haversine_distance lat1 lon1 lat2 lon2) current_speed_kmh
    avg_speed_kmh_default
  = Return (int (haversine_distance lat1 lon1 lat2 lon2
                 / speed_to_use current_speed_kmh * 60)).
Proof.
  apply calculate_eta_divisor.
  pose proof (haversine_magnitude lat1 lon1 lat2 lon2) as Hh.
  pose proof (speed_to_use_positive current_speed_kmh) as Hpos.
  pose proof float_max_above as Hf.
  assert (H20 : 2 ^ 20 = 1048576) by (simpl; lra).
  assert (Hq : 0 < / speed_to_use current_speed_kmh <= / 5).
  { split; [apply Rinv_0_lt_compat; lra | apply Rinv_le_contravar; lra]. }
  apply Rabs_le.
  unfold Rdiv. generalize dependent (/ speed_to_use current_speed_kmh).
  generalize dependent (haversine_distance lat1 lon1 lat2 lon2).
  intros h Hh q Hq. nra.
Qed.

End CalculateEta.

(** ** Correction of the provider's distance and duration *)

Section Correction.
Import Py Distance Spec.
Local Open Scope R_scope.

(** The corrected minutes of a raw duration [s] and raw distance [d]. *)
Lemma corrected_minutes (d s : R) :
  0 <= s ->
  let m := Int_part (s / 60 * 1.25) in
  let dur :=
    if (int (s / 60 * DURATION_CORRECTION_FACTOR) =? 0)%Z
       && float_gt (d / 1000 * DISTANCE_CORRECTION_FACTOR) 0.1
    then 1%Z else int (s / 60 * DURATION_CORRECTION_FACTOR) in
  (m = 0%Z /\ d * 1.10 > 100 -> dur = 1%Z)
  /\ (~ (m = 0%Z /\ d * 1.10 > 100) -> dur = m).
Proof.
  intros Hs m dur. subst m dur.
  unfold DURATION_CORRECTION_FACTOR, DISTANCE_CORRECTION_FACTOR.
  rewrite int_floor by lra.
  split.
  - intros [Hm Hd]. rewrite Hm. simpl. rewrite float_gt_true by lra. reflexivity.
  - intros Hn. destruct (Z.eqb_spec (Int_part (s / 60 * 1.25)) 0) as [Hm | Hm].
    + simpl. rewrite float_gt_false; [reflexivity |].
      destruct (Rle_dec (d / 1000 * 1.10) 0.1) as [Hle | Hgt]; [exact Hle |].
      exfalso. apply Hn. split; [exact Hm | lra].
    + reflexivity.
Qed.

Lemma get_road_distance_ok (w : net) (lat1 lon1 lat2 lon2 timeout : R)
    (data : osrm_data) (route : route) :
  provider w (length (calls w)) (road_distance_request lat1 lon1 lat2 lon2 timeout)
  = Response 200 data ->
  first_route data = Some route ->
  get_road_distance lat1 lon1 lat2 lon2 timeout w
  = (Return
       (Some (get_or_0 (distance route) / 1000 * DISTANCE_CORRECTION_FACTOR),
        Some (if (int (get_or_0 (duration route) / 60 * DURATION_CORRECTION_FACTOR) =? 0)%Z
                 && float_gt (get_or_0 (distance route) / 1000 * DISTANCE_CORRECTION_FACTOR) 0.1
              then 1%Z
              else int (get_or_0 (duration route) / 60 * DURATION_CORRECTION_FACTOR))),
     {| provider := provider w;
        calls := calls w ++ [road_distance_request lat1 lon1 lat2 lon2 timeout] |}).
Proof.
  intros Hp Hr. unfold get_road_distance, try_except, bind, http_get.
  rewrite Hp. simpl. rewrite Hr. reflexivity.
Qed.

Lemma get_route_with_geometry_ok (w : net) (lat1 lon1 lat2 lon2 timeout : R)
    (data : osrm_data) (route : route) :
  provider w (length (calls w)) (geometry_request lat1 lon1 lat2 lon2 timeout)
  = Response 200 data ->
  first_route data = Some route ->
  get_route_with_geometry lat1 lon1 lat2 lon2 timeout w
  = (Return
       (Some (get_or_0 (distance route) / 1000 * DISTANCE_CORRECTION_FACTOR),
        Some (if (int (get_or_0 (duration route) / 60 * DURATION_CORRECTION_FACTOR) =? 0)%Z
                 && float_gt (get_or_0 (distance route) / 1000 * DISTANCE_CORRECTION_FACTOR) 0.1
              then 1%Z
              else int (get_or_0 (duration route) / 60 * DURATION_CORRECTION_FACTOR)),
        Some (default [] (coordinates route))),
     {| provider := provider w;
        calls := calls w ++ [geometry_request lat1 lon1 lat2 lon2 timeout] |}).
Proof.
  intros Hp Hr. unfold get_route_with_geometry, try_except, bind, http_get.
  rewrite Hp. simpl. rewrite Hr. reflexivity.
Qed.

(** C8, as the code has it. For a successful answer of the provider whose
    first route has raw distance [d] meters and raw duration [s >= 0]
    seconds, [get_road_distance] and [get_route_with_geometry] return the
    distance [(d / 1000) * 1.10] km and the duration [floor ((s / 60) * 1.25)]
    minutes, raised to 1 minute exactly when that floor is 0 and the
    corrected distance exceeds 0.1 km, that is [d * 1.10 > 100] m. *)
Theorem road_distance_correction (w : net) (lat1 lon1 lat2 lon2 timeout : R)
    (data : osrm_data) (route : route) (d s : R) :
  provider w (length (calls w)) (road_distance_request lat1 lon1 lat2 lon2 timeout)
  = Response 200 data ->
  provider w (length (calls w)) (geometry_request lat1 lon1 lat2 lon2 timeout)
  = Response 200 data ->
  first_route data = Some route ->
  distance route = Some d ->
  duration route = Some s ->
  0 <= s ->
  exists dur : Z,
    ((Int_part (s / 60 * 1.25) = 0%Z /\ d * 1.10 > 100 -> dur = 1%Z)
     /\ (~ (Int_part (s / 60 * 1.25) = 0%Z /\ d * 1.10 > 100) ->
         dur = Int_part (s / 60 * 1.25)))
    /\ fst (get_road_distance lat1 lon1 lat2 lon2 timeout w)
       = Return (Some (d / 1000 * 1.10), Some dur)
    /\ fst (get_route_with_geometry lat1 lon1 lat2 lon2 timeout w)
       = Return (Some (d / 1000 * 1.10), Some dur,
                 Some (default [] (coordinates route))).
Proof.
  intros Hp1 Hp2 Hr Hd Hs Hs0.
  eexists. split; [exact (corrected_minutes d s Hs0) |].
  split.
  - rewrite (get_road_distance_ok _ _ _ _ _ _ _ _ Hp1 Hr), Hd, Hs. reflexivity.
  - rewrite (get_route_with_geometry_ok _ _ _ _ _ _ _ _ Hp2 Hr), Hd, Hs. reflexivity.
Qed.

Lemma road_distance_correction_witness :
  exists dur : Z,
    ((Int_part (600 / 60 * 1.25) = 0%Z /\ 5000 * 1.10 > 100 -> dur = 1%Z)
     /\ (~ (Int_part (600 / 60 * 1.25) = 0%Z /\ 5000 * 1.10 > 100) ->
         dur = Int_part (600 / 60 * 1.25)))
    /\ fst (get_road_distance 19 72 20 73 5 (one_route_net 5000 600 None))
       = Return (Some (5000 / 1000 * 1.10), Some dur)
    /\ fst (get_route_with_geometry 19 72 20 73 5 (one_route_net 5000 600 None))
       = Return (Some (5000 / 1000 * 1.10), Some dur,
                 Some (default [] (coordinates
                    {| distance := Some 5000; duration := Some 600;
                       coordinates := None |}))).
Proof.
  apply (road_distance_correction (one_route_net 5000 600 None) 19 72 20 73 5
           {| code := Some "Ok";
              routes := Some [ {| distance := Some 5000; duration := Some 600;
                                  coordinates := None |} ] |}
           {| distance := Some 5000; duration := Some 600; coordinates := None |}
           5000 600);
    [reflexivity | reflexivity | reflexivity | reflexivity | reflexivity | lra].
Defined.

(** C8, as the claim words it, fails: with a raw distance of 95 m and a raw
    duration of 10 s the corrected minutes are 0 and the raw distance does
    not exceed 100 m, so the claimed duration is 0; the code returns 1,
    because the corrected distance 0.1045 km exceeds 0.1 km. *)
Lemma claimed_duration_fails :
  fst (get_road_distance 19 72 20 73 5 (one_route_net 95 10 None))
  = Return (Some (95 / 1000 * 1.10), Some 1%Z)
  /\ claimed_duration 95 10 = 0%Z
  /\ ~ (95 > 100).
Proof.
  assert (Hm : Int_part (10 / 60 * 1.25) = 0%Z) by (apply Int_part_unique; simpl; lra).
  split; [| split].
  - rewrite (get_road_distance_ok (one_route_net 95 10 None) 19 72 20 73 5
               {| code := Some "Ok";
                  routes := Some [ {| distance := Some 95; duration := Some 10;
                                      coordinates := None |} ] |}
               {| distance := Some 95; duration := Some 10; coordinates := None |}
               eq_refl eq_refl).
    simpl. unfold DURATION_CORRECTION_FACTOR, DISTANCE_CORRECTION_FACTOR.
    rewrite int_floor by lra. rewrite Hm. simpl.
    rewrite float_gt_true by lra. reflexivity.
  - unfold claimed_duration. rewrite Hm. simpl.
    rewrite float_gt_false by lra. reflexivity.
  - lra.
Qed.

End Correction.

(** ** The order update handler *)

Section UpdateOrder.
Import Py Spec Orders.
Local Open Scope Z_scope.

Lemma same_tables_refl (db : Db.Session) : same_tables db db.
Proof. repeat split. Qed.

Lemma same_tables_trans (db1 db2 db3 : Db.Session) :
  same_tables db1 db2 -> same_tables db2 db3 -> same_tables db1 db3.
Proof.
  unfold same_tables. intros (?&?&?&?&?&?) (?&?&?&?&?&?).
  repeat split; congruence.
Qed.

Lemma notifies_ret : notifies (ret tt).
Proof. intros db. exists db. split; [reflexivity | apply same_tables_refl]. Qed.

Lemma notifies_create (role : UserRole.t) (ty : NotificationType.t)
    (user_id order_id : option Z) :
  notifies (NotificationService.create_notification role ty user_id order_id).
Proof. intros db. eexists. split; [reflexivity | repeat split]. Qed.

Lemma notifies_seq (m k : M Db.Session unit) :
  notifies m -> notifies k -> notifies (m ;;; k).
Proof.
  intros Hm Hk db. destruct (Hm db) as (db1 & E1 & S1).
  destruct (Hk db1) as (db2 & E2 & S2).
  exists db2. unfold bind. rewrite E1. split; [exact E2 |].
  eapply same_tables_trans; eassumption.
Qed.

Lemma notifies_when (c : bool) (m : M Db.Session unit) :
  notifies m -> notifies (when c m).
Proof. intros Hm. destruct c; [exact Hm | apply notifies_ret]. Qed.

Lemma notifies_customer (customer : option Customer.t)
    (k : Customer.t -> M Db.Session unit) :
  (forall c, notifies (k c)) ->
  notifies (match customer with Some c => k c | None => ret tt end).
Proof. intros Hk. destruct customer; [apply Hk | apply notifies_ret]. Qed.

Lemma notifies_get (k : Db.Session -> M Db.Session unit) :
  (forall db0, notifies (k db0)) -> notifies (db0 <- get ;; k db0).
Proof. intros Hk db. exact (Hk db db). Qed.

Create HintDb notify.
#[local] Hint Resolve notifies_ret notifies_create notifies_seq notifies_when
  notifies_customer : notify.

Lemma update_order_notifications_notifies (request : OrderUpdate) (order : Order.t)
    (old_status : OrderStatus.t) (old_driver_id : option Z) :
  notifies (update_order_notifications request order old_status old_driver_id).
Proof.
  unfold update_order_notifications. apply notifies_get. intros db0. cbv zeta.
  destruct (Db.customer_by_id db0 (Order.customer_id order)); auto 10 with notify.
Qed.

Lemma order_by_id_id (db : Db.Session) (oid : Z) (o : Order.t) :
  Db.order_by_id db oid = Some o -> Order.id o = oid.
Proof.
  unfold Db.order_by_id. intros H. apply find_some in H as [_ H].
  apply Z.eqb_eq, H.
Qed.

Lemma order_by_id_commit (db : Db.Session) (oid : Z) (o o' : Order.t) :
  Db.order_by_id db oid = Some o ->
  Order.id o' = oid ->
  Db.order_by_id (Db.commit_order o' db) oid = Some o'.
Proof.
  unfold Db.order_by_id, Db.commit_order. simpl. intros H Hid. subst oid.
  revert H. induction (Db.orders db) as [| r l IH]; simpl; [discriminate |].
  destruct (Z.eqb_spec (Order.id r) (Order.id o')) as [E | E].
  - intros _. simpl. rewrite Z.eqb_refl. reflexivity.
  - simpl. destruct (Z.eqb_spec (Order.id r) (Order.id o')); [contradiction |].
    exact IH.
Qed.

Lemma apply_updates_id (request : OrderUpdate) (o : Order.t) :
  Order.id (apply_updates request o) = Order.id o.
Proof.
  unfold apply_updates.
  destruct (status request), (truthy_int (driver_id request)),
    (is_some (delivery_time request)), (truthy_str (signature request));
    simpl; try destruct (bool_decide _); reflexivity.
Qed.

Lemma truthy_str_some (s : option string) : truthy_str s = true -> s <> None.
Proof. destruct s; [discriminate | intros; discriminate]. Qed.

(** The status after the assignments is DELIVERED only through one of the
    two triggers, or because it was DELIVERED before. *)
Lemma apply_updates_delivered (request : OrderUpdate) (o : Order.t) :
  Order.status (apply_updates request o) = OrderStatus.DELIVERED ->
  Order.status o = OrderStatus.DELIVERED \/ asks_delivery request.
Proof.
  unfold apply_updates, asks_delivery.
  destruct (truthy_str (signature request)) eqn:Hsig.
  - intros _. right. right. apply truthy_str_some, Hsig.
  - destruct (is_some (delivery_time request)),
      (truthy_int (driver_id request)), (status request) as [st |];
      simpl; intros H; try discriminate;
      solve [left; exact H | right; left; congruence].
Qed.

(** What [update_order] does on an order that exists, case by case. *)
Lemma update_order_cases (db : Db.Session) (oid : Z) (request : OrderUpdate)
    (user : User.t) (order : Order.t) :
  Db.order_by_id db oid = Some order ->
  match
    (if bool_decide (status request = Some OrderStatus.IN_TRANSIT)
        && bool_decide (User.role user = UserRole.DRIVER)
     then active_delivery_of db (User.id user) oid else None)
  with
  | Some active =>
      exists detail,
        update_order oid request user db = (Raise (HTTPException 409 detail), db)
  | None =>
      if bool_decide (status request = Some OrderStatus.DELIVERED)
         || is_some (signature request)
      then
        if negb (truthy_str (otp_input request))
           || bool_decide (otp_input request <> Order.otp order)
           || (Db.receipt_count db oid =? 0)%nat
        then exists detail,
            update_order oid request user db = (Raise (HTTPException 400 detail), db)
        else exists resp db',
            update_order oid request user db = (Return resp, db')
            /\ Orders.order resp = apply_updates request order
            /\ same_tables (Db.commit_order (apply_updates request order) db) db'
      else exists resp db',
          update_order oid request user db = (Return resp, db')
          /\ Orders.order resp = apply_updates request order
          /\ same_tables (Db.commit_order (apply_updates request order) db) db'
  end.
Proof.
  intros Hfind.
  destruct (update_order_notifications_notifies request (apply_updates request order)
              (Order.status order) (Order.driver_id order)
              (Db.commit_order (apply_updates request order) db)) as (db' & E & S).
  unfold update_order, bind, get, when, raise, ret, put, try_except.
  rewrite Hfind.
  destruct (bool_decide (status request = Some OrderStatus.IN_TRANSIT)
            && bool_decide (User.role user = UserRole.DRIVER));
    [destruct (active_delivery_of db (User.id user) oid) |];
    try (eexists; reflexivity);
    (destruct (bool_decide (status request = Some OrderStatus.DELIVERED)
              || is_some (signature request));
     [ destruct (negb (truthy_str (otp_input request))); simpl;
       [eexists; reflexivity |];
       destruct (bool_decide (otp_input request <> Order.otp order)); simpl;
       [eexists; reflexivity |];
       destruct (Db.receipt_count db oid =? 0)%nat; simpl;
       [eexists; reflexivity |]
     | ];
     rewrite E; eexists _, db'; repeat split; apply S).
Qed.

Lemma asks_delivery_bool (request : OrderUpdate) :
  bool_decide (status request = Some OrderStatus.DELIVERED)
  || is_some (signature request) = true
  <-> asks_delivery request.
Proof.
  unfold asks_delivery. rewrite orb_true_iff, bool_decide_eq_true.
  destruct (signature request); simpl; split; intros [H | H]; auto;
    try discriminate; try (right; discriminate); contradiction.
Qed.

(** When none of the three tests of the gate fires, the gate holds. *)
Lemma gate_passed (db : Db.Session) (request : OrderUpdate) (order : Order.t) :
  negb (truthy_str (otp_input request))
  || bool_decide (otp_input request <> Order.otp order)
  || (Db.receipt_count db (Order.id order) =? 0)%nat = false ->
  delivery_gate db order request.
Proof.
  intros H. apply orb_false_iff in H as [H H3]. apply orb_false_iff in H as [H1 H2].
  apply negb_false_iff in H1. apply bool_decide_eq_false in H2.
  apply Nat.eqb_neq in H3.
  destruct (otp_input request) as [otp |] eqn:Ho; [| discriminate].
  split; [| lia].
  exists otp. split; [exact Ho |].
  destruct (decide (Some otp = Order.otp order)) as [E | E]; [symmetry; exact E |].
  contradiction.
Qed.

(** The outcome of [update_order] once the exclusivity check has let the
    request through. *)
Lemma gate_outcome (db : Db.Session) (oid : Z) (request : OrderUpdate)
    (user : User.t) (order : Order.t) :
  Db.order_by_id db oid = Some order ->
  (if bool_decide (status request = Some OrderStatus.DELIVERED)
      || is_some (signature request)
   then
     if negb (truthy_str (otp_input request))
        || bool_decide (otp_input request <> Order.otp order)
        || (Db.receipt_count db oid =? 0)%nat
     then exists detail,
         update_order oid request user db = (Raise (HTTPException 400 detail), db)
     else exists resp db',
         update_order oid request user db = (Return resp, db')
         /\ Orders.order resp = apply_updates request order
         /\ same_tables (Db.commit_order (apply_updates request order) db) db'
   else exists resp db',
       update_order oid request user db = (Return resp, db')
       /\ Orders.order resp = apply_updates request order
       /\ same_tables (Db.commit_order (apply_updates request order) db) db') ->
  (forall resp db',
      update_order oid request user db = (Return resp, db') ->
      Db.order_by_id db' oid = Some (Orders.order resp)
      /\ (Order.status order <> OrderStatus.DELIVERED ->
          Order.status (Orders.order resp) = OrderStatus.DELIVERED ->
          asks_delivery request /\ delivery_gate db order request))
  /\ (asks_delivery request ->
      ~ delivery_gate db order request ->
      exists detail,
        update_order oid request user db = (Raise (HTTPException 400 detail), db)).
Proof.
  intros Hfind Hc. pose proof (order_by_id_id _ _ _ Hfind) as Hid.
  pose proof (asks_delivery_bool request) as Hasks.
  pose proof (gate_passed db request order) as Hgate. rewrite Hid in Hgate.
  assert (Hstored : forall resp db',
             Orders.order resp = apply_updates request order ->
             same_tables (Db.commit_order (apply_updates request order) db) db' ->
             Db.order_by_id db' oid = Some (Orders.order resp)).
  { intros resp db' Hr (So & _). unfold Db.order_by_id. rewrite So, Hr.
    apply (order_by_id_commit db oid order); [exact Hfind |].
    rewrite apply_updates_id. exact Hid. }
  revert Hc Hasks Hgate.
  generalize (bool_decide (status request = Some OrderStatus.DELIVERED)
              || is_some (signature request)).
  generalize (negb (truthy_str (otp_input request))
              || bool_decide (otp_input request <> Order.otp order)
              || (Db.receipt_count db oid =? 0)%nat).
  intros g a Hc Hasks Hgate.
  destruct a, g; try destruct Hc as (resp & db' & E & Hr & S);
    try destruct Hc as (detail & E); (split;
    [ intros resp0 db0 E0; rewrite E in E0;
      first [ discriminate
            | injection E0 as <- <-; split; [apply Hstored; assumption |] ]
    | ]).
  - intros _ _. exists detail. exact E.
  - intros _ _. split; [apply Hasks | apply Hgate]; reflexivity.
  - intros _ Hn. exfalso. apply Hn, Hgate. reflexivity.
  - intros Hnd Hd. exfalso. rewrite Hr in Hd.
    destruct (apply_updates_delivered _ _ Hd) as [H | H]; [contradiction |].
    apply Hasks in H. discriminate.
  - intros Ha0. apply Hasks in Ha0. discriminate.
  - intros Hnd Hd. exfalso. rewrite Hr in Hd.
    destruct (apply_updates_delivered _ _ Hd) as [H | H]; [contradiction |].
    apply Hasks in H. discriminate.
  - intros Ha0. apply Hasks in Ha0. discriminate.
Qed.

(** C1, as the code has it. On an order that exists, a successful update
    leaves the order DELIVERED only if it was so before or the request asked
    for it (status DELIVERED or a signature) and passed the gate: the OTP
    supplied equals the stored one and a receipt is recorded. When the
    request asks for it through either trigger and the gate does not hold,
    the handler raises and the session is unchanged; the error is the
    validation error 400, unless the request also asks for IN_TRANSIT, comes
    from a driver with another delivery in transit, and is therefore
    rejected first with the conflict 409. *)
Theorem delivery_gate_enforced (db : Db.Session) (oid : Z) (request : OrderUpdate)
    (user : User.t) (order : Order.t) :
  Db.order_by_id db oid = Some order ->
  (forall resp db',
      update_order oid request user db = (Return resp, db') ->
      Db.order_by_id db' oid = Some (Orders.order resp)
      /\ (Order.status order <> OrderStatus.DELIVERED ->
          Order.status (Orders.order resp) = OrderStatus.DELIVERED ->
          asks_delivery request /\ delivery_gate db order request))
  /\ (asks_delivery request ->
      ~ delivery_gate db order request ->
      exists code detail,
        update_order oid request user db = (Raise (HTTPException code detail), db)
        /\ (code = 400
            \/ (code = 409
                /\ status request = Some OrderStatus.IN_TRANSIT
                /\ User.role user = UserRole.DRIVER
                /\ active_delivery_of db (User.id user) oid <> None))).
Proof.
  intros Hfind.
  pose proof (update_order_cases db oid request user order Hfind) as Hc.
  destruct (bool_decide (status request = Some OrderStatus.IN_TRANSIT)
            && bool_decide (User.role user = UserRole.DRIVER)) eqn:Hconf;
    [destruct (active_delivery_of db (User.id user) oid) as [active |] eqn:Ha |].
  - apply andb_true_iff in Hconf as [Hs Hr].
    apply bool_decide_eq_true in Hs. apply bool_decide_eq_true in Hr.
    destruct Hc as (detail & E). split.
    + intros resp db' E'. rewrite E in E'. discriminate.
    + intros _ _. exists 409, detail. split; [exact E |].
      right. repeat split; [exact Hs | exact Hr | discriminate].
  - destruct (gate_outcome db oid request user order Hfind Hc) as [H1 H2].
    split; [exact H1 |]. intros Hasks Hn.
    destruct (H2 Hasks Hn) as (detail & E). exists 400, detail. auto.
  - destruct (gate_outcome db oid request user order Hfind Hc) as [H1 H2].
    split; [exact H1 |]. intros Hasks Hn.
    destruct (H2 Hasks Hn) as (detail & E). exists 400, detail. auto.
Qed.

Lemma delivery_gate_enforced_witness :
  exists code detail,
    update_order 1 (update_request None None (Some "sig") (Some "482913"))
      driver_user (sample_db [])
    = (Raise (HTTPException code detail), sample_db []).
Proof.
  destruct (delivery_gate_enforced (sample_db []) 1
              (update_request None None (Some "sig") (Some "482913"))
              driver_user (sample_order 1 (Some 7) OrderStatus.ASSIGNED) eq_refl)
    as [_ H].
  destruct H as (code & detail & E & _).
  - right. discriminate.
  - intros [_ Hr]. vm_compute in Hr. lia.
  - exists code, detail. exact E.
Defined.

(** C1, as the claim words it, fails on the class of the error: a driver who
    has order 2 in transit sends status IN_TRANSIT together with a signature
    and no OTP for order 1. The signature is a trigger and the gate does not
    hold, yet the error raised is the conflict 409 of the exclusivity check,
    which runs first, not the validation error. *)
Lemma gate_failure_answered_with_conflict :
  asks_delivery (update_request (Some OrderStatus.IN_TRANSIT) None (Some "sig") None)
  /\ ~ delivery_gate (sample_db []) (sample_order 1 (Some 7) OrderStatus.ASSIGNED)
         (update_request (Some OrderStatus.IN_TRANSIT) None (Some "sig") None)
  /\ update_order 1
       (update_request (Some OrderStatus.IN_TRANSIT) None (Some "sig") None)
       driver_user (sample_db [])
     = (Raise
          (HTTPException 409
             "You already have an active delivery (Order #2). Complete it before starting a new one."),
        sample_db []).
Proof.
  split; [right; discriminate |].
  split; [intros [_ Hr]; vm_compute in Hr; lia | reflexivity].
Qed.

(** The scenario of the specification: OTP 482913 supplied and matching, no
    receipt recorded. The update is rejected with "receipt required" and the
    session is unchanged. *)
Example receipt_required :
  update_order 1
    (update_request (Some OrderStatus.DELIVERED) None None (Some "482913"))
    driver_user (sample_db [])
  = (Raise (HTTPException 400 "Cannot mark as delivered: Sale receipt is required"),
     sample_db []).
Proof. reflexivity. Qed.

(** ** One delivery at a time *)

Lemma active_delivery_found (db : Db.Session) (user_id oid : Z) (other : Order.t) :
  In other (Db.orders db) ->
  Order.driver_id other = Some user_id ->
  Order.status other = OrderStatus.IN_TRANSIT ->
  Order.id other <> oid ->
  exists active, active_delivery_of db user_id oid = Some active.
Proof.
  intros Hin Hd Hs Hne. unfold active_delivery_of.
  destruct (find _ (Db.orders db)) as [active |] eqn:Hf; [eauto |].
  exfalso. apply (find_none _ _ Hf) in Hin.
  rewrite !bool_decide_eq_true_2 in Hin by assumption.
  simpl in Hin. apply negb_false_iff, Z.eqb_eq in Hin. contradiction.
Qed.

(** C2, as the code has it. An update that asks for IN_TRANSIT, sent by a
    caller whose role is driver, while another order assigned to that caller
    is IN_TRANSIT, is rejected with the conflict 409 and leaves the session
    unchanged. *)
Theorem driver_conflict_rejected (db : Db.Session) (oid : Z) (request : OrderUpdate)
    (user : User.t) (order other : Order.t) :
  Db.order_by_id db oid = Some order ->
  status request = Some OrderStatus.IN_TRANSIT ->
  User.role user = UserRole.DRIVER ->
  In other (Db.orders db) ->
  Order.driver_id other = Some (User.id user) ->
  Order.status other = OrderStatus.IN_TRANSIT ->
  Order.id other <> oid ->
  exists detail,
    update_order oid request user db = (Raise (HTTPException 409 detail), db).
Proof.
  intros Hfind Hs Hr Hin Hd Hst Hne.
  destruct (active_delivery_found db (User.id user) oid other Hin Hd Hst Hne)
    as (active & Ha).
  pose proof (update_order_cases db oid request user order Hfind) as Hc.
  rewrite !bool_decide_eq_true_2 in Hc by assumption. simpl in Hc.
  rewrite Ha in Hc. exact Hc.
Qed.

Lemma driver_conflict_rejected_witness :
  exists detail,
    update_order 1 (update_request (Some OrderStatus.IN_TRANSIT) None None None)
      driver_user (sample_db [])
    = (Raise (HTTPException 409 detail), sample_db []).
Proof.
  apply (driver_conflict_rejected (sample_db []) 1
           (update_request (Some OrderStatus.IN_TRANSIT) None None None)
           driver_user (sample_order 1 (Some 7) OrderStatus.ASSIGNED)
           (sample_order 2 (Some 7) OrderStatus.IN_TRANSIT));
    [reflexivity | reflexivity | reflexivity | simpl; auto
    | reflexivity | reflexivity | simpl; lia].
Defined.

Lemma sample_db_single_active (receipts : list Receipt.t) :
  single_active_delivery (sample_db receipts).
Proof.
  intros d. unfold in_transit_count, sample_db. simpl.
  rewrite !filter_cons, filter_nil.
  repeat case_decide; simpl; try lia.
  match goal with
  | H : _ /\ Order.status (sample_order 1 _ _) = _ |- _ => destruct H; discriminate
  end.
Qed.

(** C2, as the claim words it, fails: the check is made only for a caller
    whose role is driver. Driver 7 has order 2 in transit; an admin moves
    order 1, also assigned to driver 7, to IN_TRANSIT. The update succeeds
    and driver 7 then has two orders in transit. *)
Lemma admin_starts_second_delivery :
  single_active_delivery (sample_db [])
  /\ (exists resp,
        fst (update_order 1 (update_request (Some OrderStatus.IN_TRANSIT) None None None)
               admin_user (sample_db []))
        = Return resp)
  /\ in_transit_count
       (snd (update_order 1 (update_request (Some OrderStatus.IN_TRANSIT) None None None)
               admin_user (sample_db []))) 7 = 2%nat
  /\ ~ single_active_delivery
         (snd (update_order 1
                 (update_request (Some OrderStatus.IN_TRANSIT) None None None)
                 admin_user (sample_db []))).
Proof.
  split; [apply sample_db_single_active |].
  split; [eexists; reflexivity |].
  split; [reflexivity |].
  intros H. specialize (H 7). vm_compute in H. lia.
Qed.

End UpdateOrder.

(** ** Cancellation and payments *)

Section CancelOrder.
Import Py Spec Orders.
Local Open Scope Z_scope.


(** In general [cancel_order] cancels every order that exists, whatever the
    payments recorded for it. *)
Lemma cancel_order_always_cancels (db : Db.Session) (oid : Z) (user : User.t)
    (order : Order.t) :
  Db.order_by_id db oid = Some order ->
  exists db',
    cancel_order oid user db = (Return "Order cancelled successfully", db')
    /\ Db.order_by_id db' oid
       = Some (Order.set_status OrderStatus.CANCELLED order).
Proof.
  intros Hfind. pose proof (order_by_id_id _ _ _ Hfind) as Hid.
  assert (Hn : notifies
    (db0 <- get ;;
     match Db.customer_by_id db0 (Order.customer_id order) with
     | Some c =>
         NotificationService.create_notification UserRole.CUSTOMER
           NotificationType.ORDER_CANCELLED (Some (Customer.user_id c))
           (Some (Order.id (Order.set_status OrderStatus.CANCELLED order)))
     | None => ret tt
     end ;;;
     when (truthy_int (Order.driver_id order))
       (NotificationService.create_notification UserRole.DRIVER
          NotificationType.ORDER_UNASSIGNED (Order.driver_id order)
          (Some (Order.id (Order.set_status OrderStatus.CANCELLED order)))))).
  { apply notifies_get. intros db0.
    apply notifies_seq; [apply notifies_customer; intros c |];
      auto using notifies_create, notifies_when. }
  destruct (Hn (Db.commit_order (Order.set_status OrderStatus.CANCELLED order) db))
    as (db' & E & S).
  exists db'. unfold cancel_order. unfold bind at 1, get at 1. rewrite Hfind.
  unfold bind at 1, put. unfold bind at 1, try_except. cbv zeta. rewrite E.
  split; [reflexivity |].
  destruct S as (So & _). unfold Db.order_by_id. rewrite So.
  apply (order_by_id_commit db oid order); [exact Hfind | exact Hid].
Qed.

(** The second handler on the same route, [delete_order], has the check: an
    order whose transaction records a payment is never cancelled by it. *)
Lemma delete_order_rejects_paid (db : Db.Session) (oid : Z) (user : User.t)
    (order : Order.t) (tr : Transaction.t) :
  Db.order_by_id db oid = Some order ->
  Db.transaction_by_order db oid = Some tr ->
  (Transaction.paid tr > 0)%R ->
  exists code detail,
    delete_order oid user db = (Raise (HTTPException code detail), db)
    /\ (code = 400 \/ code = 403).
Proof.
  intros Hfind Htr Hpaid.
  unfold delete_order, bind, get, when, raise, ret, put. rewrite Hfind, Htr.
  rewrite (float_gt_true _ _ Hpaid).
  destruct (negb _); [eexists _, _; split; [reflexivity | auto] |].
  destruct (bool_decide (User.role user = UserRole.CUSTOMER)).
  - destruct (Db.customer_by_user_id db (User.id user)) as [c |].
    + destruct (negb _); eexists _, _; split; try reflexivity; auto.
    + eexists _, _; split; [reflexivity | auto].
  - eexists _, _; split; [reflexivity | auto].
Qed.

End CancelOrder.

(** ** The geofence on the ingestion paths *)

Section Geofence.
Import Py Spec.
Local Open Scope R_scope.

Lemma location_valid_iff (latitude longitude : R) :
  Location.is_valid_india_location latitude longitude = true
  <-> in_service_region latitude longitude.
Proof.
  unfold Location.is_valid_india_location, in_service_region, float_le.
  repeat match goal with |- context [Rle_dec ?a ?b] => destruct (Rle_dec a b) end;
    simpl; split; intros H; try discriminate; try reflexivity; lra.
Qed.

Lemma tracking_valid_iff (latitude longitude : R) :
  Tracking.is_valid_india_location latitude longitude = true
  <-> in_service_region latitude longitude.
Proof. exact (location_valid_iff latitude longitude). Qed.

Lemma outside_invalid (latitude longitude : R) :
  ~ in_service_region latitude longitude ->
  Location.is_valid_india_location latitude longitude = false
  /\ Tracking.is_valid_india_location latitude longitude = false.
Proof.
  intros Hn. split.
  - destruct (Location.is_valid_india_location latitude longitude) eqn:E;
      [apply location_valid_iff in E; contradiction | reflexivity].
  - destruct (Tracking.is_valid_india_location latitude longitude) eqn:E;
      [apply tracking_valid_iff in E; contradiction | reflexivity].
Qed.

(** A frame on the driver socket whose coordinates are outside the region
    ends its turn of the loop without any effect. *)
Lemma websocket_turn_outside (driver_id : Z) (data : Tracking.location_data)
    (latitude longitude : R) (s : Tracking.state) :
  Tracking.float_or (Tracking.key_latitude data) (Tracking.key_lat data)
  = Some latitude ->
  Tracking.float_or (Tracking.key_longitude data) (Tracking.key_long data)
  = Some longitude ->
  ~ in_service_region latitude longitude ->
  Tracking.websocket_turn driver_id data s = (Return tt, s).
Proof.
  intros Hlat Hlng Hn. unfold Tracking.websocket_turn. rewrite Hlat, Hlng.
  destruct (negb (truthy_float (Some latitude))
            || negb (truthy_float (Some longitude))); [reflexivity |].
  simpl. destruct (outside_invalid _ _ Hn) as [_ ->]. reflexivity.
Qed.

(** A whole session of frames outside the region leaves the state as it
    was, up to the disconnection that ends it: nothing is stored and nothing
    is sent. *)
Lemma websocket_loop_outside (driver_id : Z) (frames : list Tracking.location_data)
    (s : Tracking.state) :
  Forall (fun data =>
            exists latitude longitude,
              Tracking.float_or (Tracking.key_latitude data) (Tracking.key_lat data)
              = Some latitude
              /\ Tracking.float_or (Tracking.key_longitude data) (Tracking.key_long data)
                 = Some longitude
              /\ ~ in_service_region latitude longitude) frames ->
  Tracking.websocket_loop driver_id (map Tracking.Parsed frames) s
  = (Raise WebSocketDisconnect, s).
Proof.
  induction 1 as [| data frames (la & lo & Hla & Hlo & Hn) _ IH]; [reflexivity |].
  simpl. unfold bind.
  rewrite (websocket_turn_outside driver_id data la lo s Hla Hlo Hn). exact IH.
Qed.

(** C4, as the code has it. For a sample outside the bounding box, no
    ingestion path stores a location record. The two HTTP endpoints raise
    the validation error 400 and leave the state unchanged. The driver
    WebSocket handler ends the turn of its loop without raising and without
    sending anything: the state, with its session and its wire, is
    unchanged. *)
Theorem geofence_rejection (latitude longitude : R) :
  ~ in_service_region latitude longitude ->
  (forall (location : Location.LocationUpdate) (user : User.t) (s : Location.state),
      Location.latitude location = latitude ->
      Location.longitude location = longitude ->
      exists detail,
        Location.update_location location user s
        = (Raise (HTTPException 400 detail), s))
  /\ (forall (request : Tracking.LocationUpdate) (user : User.t) (s : Tracking.state),
         Tracking.upd_latitude request = latitude ->
         Tracking.upd_longitude request = longitude ->
         exists detail,
           Tracking.update_location request user s
           = (Raise (HTTPException 400 detail), s))
  /\ (forall (driver_id : Z) (data : Tracking.location_data) (s : Tracking.state),
         Tracking.float_or (Tracking.key_latitude data) (Tracking.key_lat data)
         = Some latitude ->
         Tracking.float_or (Tracking.key_longitude data) (Tracking.key_long data)
         = Some longitude ->
         Tracking.websocket_turn driver_id data s = (Return tt, s)).
Proof.
  intros Hn. destruct (outside_invalid _ _ Hn) as [HL HT].
  split; [| split].
  - intros location user s <- <-. eexists.
    unfold Location.update_location, bind at 1, when. rewrite HL. reflexivity.
  - intros request user s <- <-. eexists.
    unfold Tracking.update_location, bind at 1, when. rewrite HT. reflexivity.
  - intros driver_id data s Hla Hlo.
    exact (websocket_turn_outside driver_id data latitude longitude s Hla Hlo Hn).
Qed.

Lemma london_outside : ~ in_service_region 51.5 (-0.12).
Proof. unfold in_service_region. lra. Qed.

Lemma geofence_rejection_witness :
  (exists detail,
      Location.update_location london_update driver_user
        (location_state (sample_db []) [1%nat] open_wire)
      = (Raise (HTTPException 400 detail),
         location_state (sample_db []) [1%nat] open_wire))
  /\ (exists detail,
         Tracking.update_location london_legacy_update driver_user
           (tracking_state (sample_db []) ∅ ∅ silent_net)
         = (Raise (HTTPException 400 detail),
            tracking_state (sample_db []) ∅ ∅ silent_net)).
Proof.
  destruct (geofence_rejection 51.5 (-0.12) london_outside) as (H1 & H2 & _).
  split.
  - apply (H1 london_update driver_user); reflexivity.
  - apply (H2 london_legacy_update driver_user); reflexivity.
Defined.

(** C4, as the claim words it, fails on the WebSocket path: a frame from
    London on the driver socket is dropped silently. The handler returns
    normally, and neither the session nor the wire changes, so no error
    reaches the submitting device. *)
Lemma websocket_drops_silently :
  ~ in_service_region 51.5 (-0.12)
  /\ Tracking.websocket_turn 7 london_frame
       (tracking_state (sample_db []) ∅ ∅ silent_net)
     = (Return tt, tracking_state (sample_db []) ∅ ∅ silent_net)
  /\ WebSocket.sent (Tracking.wire (tracking_state (sample_db []) ∅ ∅ silent_net)) = [].
Proof.
  split; [exact london_outside |]. split; [| reflexivity].
  apply (websocket_turn_outside 7 london_frame 51.5 (-0.12)).
  - unfold london_frame, Tracking.float_or. simpl Tracking.key_latitude.
    rewrite truthy_float_true by lra. reflexivity.
  - unfold london_frame, Tracking.float_or. simpl Tracking.key_longitude.
    rewrite truthy_float_true by lra. reflexivity.
  - exact london_outside.
Qed.

End Geofence.

(** ** Best-effort broadcast *)

Section Broadcast.
Import Py Spec.

Lemma prune_cons_alive (d t : list WebSocket.t) (x : WebSocket.t) :
  Forall (fun y => y <> x) d -> prune d (x :: t) = x :: prune d t.
Proof.
  intros Hd. revert t. induction Hd as [| y d Hy _ IH]; intros t; [reflexivity |].
  unfold prune in *. simpl.
  destruct (decide (y = x)) as [E | _]; [contradiction |].
  destruct (remove y t) as [r | e]; apply IH.
Qed.

Lemma prune_failing (w : WebSocket.wire) (l : list WebSocket.t) :
  prune (failing w l) l = alive w l.
Proof.
  unfold failing, alive. induction l as [| x l IH]; [reflexivity |].
  rewrite !filter_cons.
  destruct (WebSocket.closed w x) eqn:Hx.
  - rewrite decide_True by reflexivity. rewrite decide_False by discriminate.
    unfold prune in *. simpl. rewrite decide_True by reflexivity. exact IH.
  - rewrite decide_False by discriminate. rewrite decide_True by reflexivity.
    rewrite prune_cons_alive; [rewrite IH; reflexivity |].
    apply Forall_forall. intros y Hy.
    apply list_elem_of_filter in Hy as [Hy _].
    intros ->. rewrite Hx in Hy. discriminate.
Qed.

Lemma send_each_spec (conns : list WebSocket.t) (msg : WebSocket.message)
    (acc : list WebSocket.t) (ac : gmap Z (list WebSocket.t))
    (rc : gmap string (list WebSocket.t)) (w : WebSocket.wire) :
  NotificationBroadcast.send_each conns msg acc
    {| NotificationBroadcast.active_connections := ac;
       NotificationBroadcast.role_connections := rc;
       NotificationBroadcast.wire := w |}
  = (Return (acc ++ failing w conns),
     {| NotificationBroadcast.active_connections := ac;
        NotificationBroadcast.role_connections := rc;
        NotificationBroadcast.wire :=
          {| WebSocket.closed := WebSocket.closed w;
             WebSocket.sent := WebSocket.sent w ++ deliveries (alive w conns) msg |} |}).
Proof.
  revert acc w. induction conns as [| ws conns IH]; intros acc w.
  - simpl. unfold ret, failing, alive, deliveries. simpl.
    rewrite !app_nil_r. destruct w. reflexivity.
  - simpl. unfold bind at 1, try_except, NotificationBroadcast.send_json, zoom,
      WebSocket.send_json, bind, ret. simpl.
    unfold failing, alive. rewrite !filter_cons.
    destruct (WebSocket.closed w ws) eqn:Hws; simpl.
    + replace (NotificationBroadcast.set_wire w _)
        with {| NotificationBroadcast.active_connections := ac;
                NotificationBroadcast.role_connections := rc;
                NotificationBroadcast.wire := w |} by reflexivity.
      rewrite IH. unfold failing, alive. rewrite <- app_assoc. reflexivity.
    + unfold NotificationBroadcast.set_wire. simpl.
      rewrite IH. unfold failing, alive, deliveries. simpl.
      rewrite <- app_assoc. reflexivity.
Qed.

Lemma remove_each_role_spec (role : string) (d l : list WebSocket.t)
    (ac : gmap Z (list WebSocket.t)) (rc : gmap string (list WebSocket.t))
    (w : WebSocket.wire) :
  rc !! role = Some l ->
  NotificationBroadcast.remove_each_role role d
    {| NotificationBroadcast.active_connections := ac;
       NotificationBroadcast.role_connections := rc;
       NotificationBroadcast.wire := w |}
  = (Return tt,
     {| NotificationBroadcast.active_connections := ac;
        NotificationBroadcast.role_connections := <[role := prune d l]> rc;
        NotificationBroadcast.wire := w |}).
Proof.
  revert l rc. induction d as [| ws d IH]; intros l rc Hl.
  - simpl. unfold ret, prune. simpl. rewrite insert_id by exact Hl. reflexivity.
  - simpl. unfold bind at 1, try_except, bind, get, lift, put, ret. simpl.
    rewrite Hl. unfold prune. simpl.
    destruct (remove ws l) as [l' | e]; simpl.
    + unfold NotificationBroadcast.set_role_connections. simpl.
      rewrite (IH l' (<[role := l']> rc)) by apply lookup_insert_eq.
      rewrite insert_insert_eq. reflexivity.
    + rewrite (IH l rc Hl). reflexivity.
Qed.

Lemma broadcast_each_spec (conns : list WebSocket.t) (msg : WebSocket.message)
    (db : Db.Session) (ac : list WebSocket.t) (w : WebSocket.wire)
    (logs : list string) (now : Z) :
  Location.broadcast_each conns msg
    {| Location.db := db; Location.active_connections := ac; Location.wire := w;
       Location.logs := logs; Location.utcnow := now |}
  = (Return tt,
     {| Location.db := db; Location.active_connections := ac;
        Location.wire :=
          {| WebSocket.closed := WebSocket.closed w;
             WebSocket.sent := WebSocket.sent w ++ deliveries (alive w conns) msg |};
        Location.logs := logs; Location.utcnow := now |}).
Proof.
  revert w. induction conns as [| ws conns IH]; intros w.
  - simpl. unfold ret, alive, deliveries. simpl. rewrite app_nil_r.
    destruct w. reflexivity.
  - simpl. unfold bind at 1, try_except, zoom, WebSocket.send_json, ret. simpl.
    unfold alive. rewrite filter_cons.
    destruct (WebSocket.closed w ws) eqn:Hws; simpl.
    + replace (Location.set_wire w _)
        with {| Location.db := db; Location.active_connections := ac;
                Location.wire := w; Location.logs := logs;
                Location.utcnow := now |} by reflexivity.
      apply IH.
    + unfold Location.set_wire. simpl. rewrite IH.
      unfold alive, deliveries. simpl. rewrite <- app_assoc. reflexivity.
Qed.

(** C7, as the code has it. [broadcast_to_role] never raises; the message
    is delivered, in order, to every connection of the role on which the
    send succeeds; the connections on which it fails are removed from the
    list of the role, which afterwards holds exactly the others; nothing
    else of the registry changes. [ConnectionManager.broadcast] never
    raises and delivers to every connection on which the send succeeds, but
    it leaves its list of connections as it was. *)
Theorem broadcast_best_effort :
  (forall (role : string) (msg : WebSocket.message)
          (self : NotificationBroadcast.NotificationConnectionManager),
      exists self',
        NotificationBroadcast.broadcast_to_role role msg self = (Return tt, self')
        /\ match NotificationBroadcast.role_connections self !! role with
           | None => self' = self
           | Some conns =>
               WebSocket.sent (NotificationBroadcast.wire self')
               = WebSocket.sent (NotificationBroadcast.wire self)
                 ++ deliveries (alive (NotificationBroadcast.wire self) conns) msg
               /\ NotificationBroadcast.role_connections self' !! role
                  = Some (alive (NotificationBroadcast.wire self) conns)
               /\ WebSocket.closed (NotificationBroadcast.wire self')
                  = WebSocket.closed (NotificationBroadcast.wire self)
               /\ NotificationBroadcast.active_connections self'
                  = NotificationBroadcast.active_connections self
               /\ (forall r, r <> role ->
                   NotificationBroadcast.role_connections self' !! r
                   = NotificationBroadcast.role_connections self !! r)
           end)
  /\ (forall (msg : WebSocket.message) (s : Location.state),
         exists s',
           Location.broadcast msg s = (Return tt, s')
           /\ WebSocket.sent (Location.wire s')
              = WebSocket.sent (Location.wire s)
                ++ deliveries (alive (Location.wire s) (Location.active_connections s)) msg
           /\ Location.active_connections s' = Location.active_connections s
           /\ Location.db s' = Location.db s).
Proof.
  split.
  - intros role msg [ac rc w].
    unfold NotificationBroadcast.broadcast_to_role, bind at 1, get. simpl.
    destruct (rc !! role) as [conns |] eqn:Hl.
    + unfold bind. rewrite send_each_spec. simpl.
      rewrite (remove_each_role_spec role _ conns) by exact Hl.
      rewrite prune_failing. eexists. split; [reflexivity |]. simpl.
      split; [reflexivity |]. split; [apply lookup_insert_eq |].
      split; [reflexivity |]. split; [reflexivity |].
      intros r Hr. apply lookup_insert_ne. congruence.
    + eexists. split; reflexivity.
  - intros msg [db ac w logs now].
    unfold Location.broadcast, bind, get. simpl.
    rewrite broadcast_each_spec. eexists. split; [reflexivity |].
    simpl. auto.
Qed.

(** C7, as the claim words it, fails for [ConnectionManager.broadcast]:
    connection 1 is closed, the message reaches connection 2 only, and
    connection 1 is still registered afterwards. *)
Lemma location_broadcast_keeps_dead :
  WebSocket.closed wire_without_1 1%nat = true
  /\ fst (Location.broadcast ping
            (location_state (sample_db []) [1%nat; 2%nat] wire_without_1))
     = Return tt
  /\ WebSocket.sent
       (Location.wire
          (snd (Location.broadcast ping
                  (location_state (sample_db []) [1%nat; 2%nat] wire_without_1))))
     = [(2%nat, ping)]
  /\ Location.active_connections
       (snd (Location.broadcast ping
               (location_state (sample_db []) [1%nat; 2%nat] wire_without_1)))
     = [1%nat; 2%nat].
Proof. repeat split. Qed.

(** The scenario of the specification: three admin connections, the second
    of which has dropped. The other two receive the message, the dead one is
    removed, and nothing is raised. *)
Example admin_broadcast_scenario :
  let self :=
    {| NotificationBroadcast.active_connections := ∅;
       NotificationBroadcast.role_connections :=
         <["admin" := [0%nat; 1%nat; 2%nat]]>
           (NotificationBroadcast.role_connections
              (NotificationBroadcast.init wire_without_1));
       NotificationBroadcast.wire := wire_without_1 |} in
  fst (NotificationBroadcast.broadcast_to_role "admin" ping self) = Return tt
  /\ NotificationBroadcast.role_connections
       (snd (NotificationBroadcast.broadcast_to_role "admin" ping self)) !! "admin"
     = Some [0%nat; 2%nat]
  /\ WebSocket.sent
       (NotificationBroadcast.wire
          (snd (NotificationBroadcast.broadcast_to_role "admin" ping self)))
     = [(0%nat, ping); (2%nat, ping)].
Proof. repeat split. Qed.

End Broadcast.

(** ** The route cache and the selected-route index *)

Section RouteCache.
Import Py Spec.
Local Open Scope Z_scope.

Lemma get_route_with_geometry_total (lat1 lon1 lat2 lon2 timeout : R) (w : Distance.net) :
  exists r,
    Distance.get_route_with_geometry lat1 lon1 lat2 lon2 timeout w
    = (Return r,
       {| Distance.provider := Distance.provider w;
          Distance.calls :=
            Distance.calls w ++ [Distance.geometry_request lat1 lon1 lat2 lon2 timeout] |}).
Proof.
  unfold Distance.get_route_with_geometry, try_except, bind, Distance.http_get, ret.
  destruct (Distance.provider w _ _) as [sc data | |]; try (eexists; reflexivity).
  destruct (sc =? 200); [| eexists; reflexivity].
  destruct (Distance.first_route data); eexists; reflexivity.
Qed.

Lemma get_alternative_routes_total (lat1 lon1 lat2 lon2 timeout : R) (w : Distance.net) :
  exists r,
    Distance.get_alternative_routes lat1 lon1 lat2 lon2 timeout w
    = (Return r,
       {| Distance.provider := Distance.provider w;
          Distance.calls :=
            Distance.calls w ++ [Distance.alternatives_request lat1 lon1 lat2 lon2 timeout] |}).
Proof.
  unfold Distance.get_alternative_routes, try_except, bind, Distance.http_get, ret.
  destruct (Distance.provider w _ _) as [sc data | |]; try (eexists; reflexivity).
  destruct (sc =? 200); [| eexists; reflexivity].
  destruct (Distance.first_route data); eexists; reflexivity.
Qed.

Lemma select_route_spec (s : Tracking.state) (oid idx : Z) (user : User.t)
    (r : bool * Z) (s' : Tracking.state) :
  Tracking.select_route oid idx user s = (Return r, s') ->
  Tracking.route_cache s' !! oid = None
  /\ Tracking.selected_route_cache s' !! oid = Some idx
  /\ Tracking.db s' = Tracking.db s.
Proof.
  unfold Tracking.select_route, bind, get, when, raise, ret, modify.
  destruct (Db.order_by_id (Tracking.db s) oid) as [order |]; [| discriminate].
  destruct (bool_decide _ && bool_decide _); [discriminate |].
  simpl. intros H. injection H as _ <-.
  destruct (Tracking.route_cache s !! oid) eqn:Hc; simpl.
  - split; [apply lookup_delete_eq |]. split; [apply lookup_insert_eq | reflexivity].
  - split; [exact Hc |]. split; [apply lookup_insert_eq | reflexivity].
Qed.

Lemma recalculate_route_spec (s : Tracking.state) (oid : Z)
    (request : Tracking.RecalculateRouteRequest) (user : User.t)
    (r : bool * list Distance.route_option * Z) (s' : Tracking.state) :
  Tracking.recalculate_route oid request user s = (Return r, s') ->
  Tracking.selected_route_cache s' !! oid = Some 0
  /\ exists cust_lat cust_lng first rest,
      snd (fst r) = first :: rest
      /\ Tracking.route_cache s' !! oid
         = Some (Tracking.driver_lat request, Tracking.driver_lng request,
                 cust_lat, cust_lng, Distance.opt_coordinates first).
Proof.
  unfold Tracking.recalculate_route, bind, get, when, raise, ret, modify,
    Tracking.routing, zoom.
  destruct (Db.order_by_id (Tracking.db s) oid) as [order |]; [| discriminate].
  destruct (bool_decide _ && bool_decide _); [discriminate |].
  destruct (Tracking.customer_coordinates_or_profile _ _) as [clat clng].
  destruct (Tracking.float_if_truthy clat) as [la |]; [| discriminate].
  destruct (Tracking.float_if_truthy clng) as [lo |]; [| discriminate].
  simpl.
  set (s1 := match Tracking.route_cache s !! oid with
             | Some _ => Tracking.set_route_cache (delete oid (Tracking.route_cache s)) s
             | None => s
             end).
  destruct (get_alternative_routes_total (Tracking.driver_lat request)
              (Tracking.driver_lng request) la lo 5.0 (Tracking.osrm s1))
    as (routes & E1).
  rewrite E1. destruct routes as [| first rest].
  - simpl.
    match goal with
    | |- context [Distance.get_route_with_geometry ?a ?b ?c ?d ?e ?w] =>
        destruct (get_route_with_geometry_total a b c d e w) as (g & E2)
    end.
    rewrite E2. destruct g as [[rd re] [[| p ps] |]]; intros H; try discriminate.
    injection H as <- <-. simpl.
    split; [apply lookup_insert_eq |].
    eexists _, _, _, _. split; [reflexivity | apply lookup_insert_eq].
  - intros H. injection H as <- <-. simpl.
    split; [apply lookup_insert_eq |].
    eexists _, _, _, _. split; [reflexivity | apply lookup_insert_eq].
Qed.

Lemma orders_leave_caches (s : Tracking.state) (oid : Z) (user : User.t)
    (request : Orders.OrderUpdate) :
  (Tracking.route_cache (snd (Main.cancel_order oid user s)) = Tracking.route_cache s
   /\ Tracking.selected_route_cache (snd (Main.cancel_order oid user s))
      = Tracking.selected_route_cache s)
  /\ (Tracking.route_cache (snd (Main.update_order oid request user s))
      = Tracking.route_cache s
      /\ Tracking.selected_route_cache (snd (Main.update_order oid request user s))
         = Tracking.selected_route_cache s).
Proof.
  unfold Main.cancel_order, Main.update_order, zoom.
  destruct (Orders.cancel_order oid user (Tracking.db s)) as [r1 t1].
  destruct (Orders.update_order oid request user (Tracking.db s)) as [r2 t2].
  repeat split.
Qed.


(** C5, as the code has it. Selecting a route removes the route-cache entry
    of the order and stores the chosen index as its selected-route index.
    A successful recalculation sets the selected-route index to 0 and
    leaves, in place of the old entry, a fresh one taken at the driver
    position of the request with the geometry of the first route returned.
    The handlers that bring an order to a terminal status, [cancel_order]
    and [update_order], touch neither cache. *)
Theorem route_cache_invalidation :
  (forall (s : Tracking.state) (oid idx : Z) (user : User.t)
          (r : bool * Z) (s' : Tracking.state),
      Tracking.select_route oid idx user s = (Return r, s') ->
      Tracking.route_cache s' !! oid = None
      /\ Tracking.selected_route_cache s' !! oid = Some idx
      /\ Tracking.db s' = Tracking.db s)
  /\ (forall (s : Tracking.state) (oid : Z)
             (request : Tracking.RecalculateRouteRequest) (user : User.t)
             (r : bool * list Distance.route_option * Z) (s' : Tracking.state),
         Tracking.recalculate_route oid request user s = (Return r, s') ->
         Tracking.selected_route_cache s' !! oid = Some 0
         /\ exists cust_lat cust_lng first rest,
             snd (fst r) = first :: rest
             /\ Tracking.route_cache s' !! oid
                = Some (Tracking.driver_lat request, Tracking.driver_lng request,
                        cust_lat, cust_lng, Distance.opt_coordinates first))
  /\ (forall (s : Tracking.state) (oid : Z) (user : User.t)
             (request : Orders.OrderUpdate),
         (Tracking.route_cache (snd (Main.cancel_order oid user s))
          = Tracking.route_cache s
          /\ Tracking.selected_route_cache (snd (Main.cancel_order oid user s))
             = Tracking.selected_route_cache s)
         /\ (Tracking.route_cache (snd (Main.update_order oid request user s))
             = Tracking.route_cache s
             /\ Tracking.selected_route_cache (snd (Main.update_order oid request user s))
                = Tracking.selected_route_cache s)).
Proof.
  split; [exact select_route_spec |].
  split; [exact recalculate_route_spec | exact orders_leave_caches].
Qed.

Lemma route_cache_invalidation_witness :
  Tracking.route_cache
    (snd (Tracking.select_route 1 0 admin_user (cached_state silent_net))) !! 1
  = None
  /\ Tracking.selected_route_cache
       (snd (Tracking.select_route 1 0 admin_user (cached_state silent_net))) !! 1
     = Some 0
  /\ Tracking.db (snd (Tracking.select_route 1 0 admin_user (cached_state silent_net)))
     = Tracking.db (cached_state silent_net).
Proof.
  destruct route_cache_invalidation as (Hsel & _).
  apply (Hsel (cached_state silent_net) 1 0 admin_user (true, 0)).
  reflexivity.
Defined.

(** C5, as the claim words it, fails on the terminal status: order 1 has a
    cached route and a selected index; the customer cancels it. The order is
    CANCELLED and both entries are still there. *)
Lemma cancelled_order_keeps_cache :
  fst (Main.cancel_order 1 customer_user (cached_state silent_net))
  = Return "Order cancelled successfully"
  /\ option_map Order.status
       (Db.order_by_id
          (Tracking.db (snd (Main.cancel_order 1 customer_user (cached_state silent_net))))
          1)
     = Some OrderStatus.CANCELLED
  /\ Tracking.route_cache
       (snd (Main.cancel_order 1 customer_user (cached_state silent_net))) !! 1
     = Some cached_entry
  /\ Tracking.selected_route_cache
       (snd (Main.cancel_order 1 customer_user (cached_state silent_net))) !! 1
     = Some 2.
Proof. repeat split. Qed.

End RouteCache.

(** ** Tracking queries served from the route cache *)

Section CacheHit.
Import Py Spec.
Local Open Scope R_scope.

Lemma get_road_distance_total (lat1 lon1 lat2 lon2 timeout : R) (w : Distance.net) :
  exists r,
    Distance.get_road_distance lat1 lon1 lat2 lon2 timeout w
    = (Return r,
       {| Distance.provider := Distance.provider w;
          Distance.calls :=
            Distance.calls w ++ [Distance.road_distance_request lat1 lon1 lat2 lon2 timeout] |}).
Proof.
  unfold Distance.get_road_distance, try_except, bind, Distance.http_get, ret.
  destruct (Distance.provider w _ _) as [sc data | |]; try (eexists; reflexivity).
  destruct (sc =? 200)%Z; [| eexists; reflexivity].
  destruct (Distance.first_route data); eexists; reflexivity.
Qed.

Lemma get_distance_and_eta_total (driver_lat driver_lon customer_lat customer_lon : R)
    (current_speed_kmh : option R) (w : Distance.net) :
  exists r,
    Distance.get_distance_and_eta driver_lat driver_lon customer_lat customer_lon
      current_speed_kmh true w
    = (Return r,
       {| Distance.provider := Distance.provider w;
          Distance.calls :=
            Distance.calls w
            ++ [Distance.road_distance_request driver_lat driver_lon
                  customer_lat customer_lon 5.0] |}).
Proof.
  unfold Distance.get_distance_and_eta, bind.
  destruct (get_road_distance_total driver_lat driver_lon customer_lat customer_lon
              5.0 w) as ([rd re] & E).
  rewrite E. unfold lift, ret. rewrite calculate_eta_haversine.
  destruct rd, re; eexists; reflexivity.
Qed.

Lemma haversine_same_point (lat lon : R) :
  Distance.haversine_distance lat lon lat lon = 0.
Proof.
  unfold Distance.haversine_distance. cbv zeta.
  replace (Distance.radians lat - Distance.radians lat) with 0 by ring.
  replace (Distance.radians lon - Distance.radians lon) with 0 by ring.
  replace (0 / 2) with 0 by field.
  rewrite sin_0. replace (0 ^ 2 + _ * _ * 0 ^ 2) with 0 by ring.
  rewrite sqrt_0, asin_0. ring.
Qed.

Lemma track_route_cache_hit (s : Tracking.state) (oid : Z)
    (driver_lat driver_lng cust_lat cust_lng : R) (speed : option R)
    (cdlat cdlng cclat cclng : R) (geom : list (R * R)) :
  Tracking.route_cache s !! oid = Some (cdlat, cdlng, cclat, cclng, geom) ->
  Distance.haversine_distance cdlat cdlng driver_lat driver_lng * 1000 < 100 ->
  exists d e,
    Tracking.track_route oid driver_lat driver_lng cust_lat cust_lng speed s
    = (Return (Some d, Some e, Some geom),
       Tracking.set_osrm
         {| Distance.provider := Distance.provider (Tracking.osrm s);
            Distance.calls :=
              Distance.calls (Tracking.osrm s)
              ++ [Distance.road_distance_request driver_lat driver_lng
                    cust_lat cust_lng 5.0] |} s).
Proof.
  intros Hc Hm. unfold Tracking.track_route, bind at 1, get. rewrite Hc.
  unfold Tracking.ROUTE_CACHE_THRESHOLD_METERS. rewrite (float_lt_true _ _ Hm).
  unfold bind, ret, Tracking.routing, zoom.
  destruct (get_distance_and_eta_total driver_lat driver_lng cust_lat cust_lng
              (Tracking.float_if_truthy speed) (Tracking.osrm s)) as ([[d e] b] & E).
  rewrite E. exists d, e. reflexivity.
Qed.

Lemma get_order_tracking_cache_hit (s : Tracking.state) (oid : Z) (user : User.t)
    (location : TruckLocation.t) (cust_lat cust_lng : R)
    (cdlat cdlng cclat cclng : R) (geom : list (R * R)) :
  trackable s oid location cust_lat cust_lng ->
  Tracking.route_cache s !! oid = Some (cdlat, cdlng, cclat, cclng, geom) ->
  Distance.haversine_distance cdlat cdlng
    (TruckLocation.latitude location) (TruckLocation.longitude location) * 1000 < 100 ->
  exists resp s',
    Tracking.get_order_tracking oid user s = (Return resp, s')
    /\ Tracking.route_geometry resp = Some geom
    /\ Tracking.route_cache s' = Tracking.route_cache s
    /\ Distance.calls (Tracking.osrm s')
       = Distance.calls (Tracking.osrm s)
         ++ [Distance.road_distance_request
               (TruckLocation.latitude location) (TruckLocation.longitude location)
               cust_lat cust_lng 5.0].
Proof.
  intros (order & driver & Ho & Hd & Hst & Hl & Hu & Hcc & Hla & Hlo) Hc Hm.
  assert (Hs : negb (bool_decide (Order.status order = OrderStatus.ASSIGNED)
                     || bool_decide (Order.status order = OrderStatus.IN_TRANSIT))
               = false).
  { destruct Hst as [-> | ->]; reflexivity. }
  unfold Tracking.get_order_tracking, bind at 1, get.
  rewrite Ho, Hd, Hs, Hl, Hu, Hcc.
  unfold Tracking.float_if_truthy at 1 2.
  rewrite (truthy_float_true _ Hla), (truthy_float_true _ Hlo).
  unfold when. cbv beta iota delta [negb].
  unfold bind at 1 2, ret at 1 2. cbv beta iota.
  destruct (track_route_cache_hit s oid (TruckLocation.latitude location)
              (TruckLocation.longitude location) cust_lat cust_lng
              (TruckLocation.speed location) cdlat cdlng cclat cclng geom Hc Hm)
    as (d & e & E).
  unfold bind at 1. rewrite E.
  unfold bind, get, ret.
  eexists _, _. split; [reflexivity |]. simpl. auto.
Qed.

(** C3, as the code has it. A tracking query that gets through its lookups,
    on an order with a route-cache entry from which the driver has moved
    strictly less than 100 m, returns: its geometry is the cached one, the
    cache is unchanged, and during the query the routing provider receives
    exactly one request, the distance and duration request of
    [get_road_distance]; no geometry request is made. *)
Theorem cache_hit_serves_geometry (s : Tracking.state) (oid : Z) (user : User.t)
    (location : TruckLocation.t) (cust_lat cust_lng : R)
    (cdlat cdlng cclat cclng : R) (geom : list (R * R)) :
  trackable s oid location cust_lat cust_lng ->
  Tracking.route_cache s !! oid = Some (cdlat, cdlng, cclat, cclng, geom) ->
  Distance.haversine_distance cdlat cdlng
    (TruckLocation.latitude location) (TruckLocation.longitude location) * 1000 < 100 ->
  exists resp s',
    Tracking.get_order_tracking oid user s = (Return resp, s')
    /\ Tracking.route_geometry resp = Some geom
    /\ Tracking.route_cache s' = Tracking.route_cache s
    /\ Distance.calls (Tracking.osrm s')
       = Distance.calls (Tracking.osrm s)
         ++ [Distance.road_distance_request
               (TruckLocation.latitude location) (TruckLocation.longitude location)
               cust_lat cust_lng 5.0].
Proof. exact (get_order_tracking_cache_hit s oid user location cust_lat cust_lng
                cdlat cdlng cclat cclng geom). Qed.

Lemma cached_state_trackable (osrm : Distance.net) :
  trackable (cached_state osrm) 1
    {| TruckLocation.id := 1; TruckLocation.driver_id := 7;
       TruckLocation.latitude := 19; TruckLocation.longitude := 73;
       TruckLocation.accuracy := None; TruckLocation.speed := None;
       TruckLocation.heading := None; TruckLocation.timestamp := 0 |}
    19.2 73.1.
Proof.
  eexists _, _. split; [reflexivity |]. split; [reflexivity |].
  split; [left; reflexivity |]. split; [reflexivity |]. split; [reflexivity |].
  split; [| split; lra].
  unfold Tracking.customer_coordinates. simpl Order.delivery_gps_lat.
  simpl Order.delivery_gps_long.
  rewrite !truthy_float_true by lra. reflexivity.
Qed.

Lemma cached_state_not_moved :
  Distance.haversine_distance 19 73 19 73 * 1000 < 100.
Proof. rewrite haversine_same_point. lra. Qed.

Lemma cache_hit_serves_geometry_witness :
  exists resp s',
    Tracking.get_order_tracking 1 admin_user (cached_state silent_net)
    = (Return resp, s')
    /\ Tracking.route_geometry resp = Some [(73, 19); (73.1, 19.2)]
    /\ Tracking.route_cache s' = Tracking.route_cache (cached_state silent_net)
    /\ Distance.calls (Tracking.osrm s')
       = Distance.calls (Tracking.osrm (cached_state silent_net))
         ++ [Distance.road_distance_request 19 73 19.2 73.1 5.0].
Proof.
  apply (cache_hit_serves_geometry (cached_state silent_net) 1 admin_user
           {| TruckLocation.id := 1; TruckLocation.driver_id := 7;
              TruckLocation.latitude := 19; TruckLocation.longitude := 73;
              TruckLocation.accuracy := None; TruckLocation.speed := None;
              TruckLocation.heading := None; TruckLocation.timestamp := 0 |}
           19.2 73.1 19 73 19.2 73.1 [(73, 19); (73.1, 19.2)]).
  - apply cached_state_trackable.
  - reflexivity.
  - exact cached_state_not_moved.
Defined.

(** C3, as the claim words it, fails: order 1 has a cached route taken at
    (19, 73) and the driver is still there. The query returns the cached
    geometry, but the provider, which had received no request before, has
    received one during the query: the distance request. *)
Lemma cache_hit_still_calls_provider :
  Distance.calls (Tracking.osrm (cached_state silent_net)) = []
  /\ exists resp s',
      Tracking.get_order_tracking 1 admin_user (cached_state silent_net)
      = (Return resp, s')
      /\ Tracking.route_geometry resp = Some [(73, 19); (73.1, 19.2)]
      /\ Distance.calls (Tracking.osrm s')
         = [Distance.road_distance_request 19 73 19.2 73.1 5.0].
Proof.
  split; [reflexivity |].
  destruct (get_order_tracking_cache_hit (cached_state silent_net) 1 admin_user
              _ 19.2 73.1 19 73 19.2 73.1 [(73, 19); (73.1, 19.2)]
              (cached_state_trackable silent_net) eq_refl cached_state_not_moved)
    as (resp & s' & E & Hg & _ & Hcalls).
  exists resp, s'. split; [exact E |]. split; [exact Hg | exact Hcalls].
Qed.

End CacheHit.

(** ** The straight-line fallback *)

Section Fallback.
Import Py Spec.
Local Open Scope R_scope.

Lemma PI_bounds : 3.14159 < PI < 3.1416.
Proof.
  pose proof (PI_2_3_7_ineq 2) as H.
  unfold sum_f_R0, tg_alt, PI_2_3_7_tg, Ratan_seq in H. simpl in H. lra.
Qed.

Lemma sin_lower (x : R) : 0 <= x <= 1 -> x - x ^ 3 / 6 <= sin x.
Proof.
  intros [H0 H1]. destruct (pre_sin_bound x 0 H0 ltac:(lra)) as [H _].
  unfold sin_approx, sum_f_R0, sin_term in H. simpl in H. simpl. lra.
Qed.

Lemma sin_upper (x : R) : 0 <= x -> sin x <= x.
Proof.
  intros [H | <-]; [left; apply sin_lt_x, H | rewrite sin_0; lra].
Qed.

Lemma cos_lower (x : R) : 0 <= x <= 1 -> 1 - x ^ 2 / 2 <= cos x.
Proof.
  intros [H0 H1]. destruct (pre_cos_bound x 0 ltac:(lra) ltac:(lra)) as [H _].
  unfold cos_approx, sum_f_R0, cos_term in H. simpl in H. simpl. lra.
Qed.

Lemma cos_upper (x : R) : 0 <= x <= 1 -> cos x <= 1 - x ^ 2 / 2 + x ^ 4 / 24.
Proof.
  intros [H0 H1]. destruct (pre_cos_bound x 0 ltac:(lra) ltac:(lra)) as [_ H].
  unfold cos_approx, sum_f_R0, cos_term in H. simpl in H. simpl. lra.
Qed.

Lemma asin_lower (t : R) : 0 < t <= 1 -> t < asin t.
Proof.
  intros [H0 H1]. pose proof (asin_bound t) as [Hl Hu].
  pose proof (sin_asin t ltac:(lra)) as Hs. pose proof PI_RGT_0 as Hpi.
  destruct (Rle_lt_dec (asin t) 0) as [Hy | Hy].
  - exfalso. pose proof (sin_ge_0 (- asin t) ltac:(lra) ltac:(lra)) as Hn.
    rewrite sin_neg, Hs in Hn. lra.
  - rewrite <- Hs at 1. apply sin_lt_x, Hy.
Qed.

Lemma asin_upper (t yu : R) :
  0 <= t <= 1 -> 0 <= yu <= 1 -> t <= yu - yu ^ 3 / 6 -> asin t <= yu.
Proof.
  intros Ht Hyu Hle. pose proof (asin_bound t) as [Hl Hu].
  pose proof (sin_asin t ltac:(lra)) as Hs. pose proof PI2_1 as Hpi.
  destruct (Rle_lt_dec (asin t) yu) as [Hy | Hy]; [exact Hy | exfalso].
  pose proof (sin_increasing_1 yu (asin t) ltac:(lra) ltac:(lra) ltac:(lra)
                ltac:(lra) Hy) as Hinc.
  pose proof (sin_lower yu Hyu). lra.
Qed.

Lemma scenario_distance :
  19.01 < Distance.haversine_distance 19.0760 72.8777 19.2183 72.9781 < 19.02.
Proof.
  pose proof PI_bounds as [Hpl Hph].
  unfold Distance.haversine_distance, Distance.radians. cbv zeta.
  set (u := (19.2183 * PI / 180 - 19.0760 * PI / 180) / 2).
  set (v := (72.9781 * PI / 180 - 72.8777 * PI / 180) / 2).
  set (x1 := 19.0760 * PI / 180).
  set (x2 := 19.2183 * PI / 180).
  assert (Hu : 0.0012418007 <= u <= 0.0012418047) by (unfold u; lra).
  assert (Hv : 0.0008761545 <= v <= 0.0008761574) by (unfold v; lra).
  assert (Hx1 : 0.33293872 <= x1 <= 0.33293979) by (unfold x1; lra).
  assert (Hx2 : 0.33542232 <= x2 <= 0.3354234) by (unfold x2; lra).
  assert (Hu3 : u ^ 3 <= 0.0012418047 ^ 3) by (apply pow_incr; lra).
  assert (Hv3 : v ^ 3 <= 0.0008761574 ^ 3) by (apply pow_incr; lra).
  assert (Hsu : 0.00124180038 <= sin u <= 0.0012418047).
  { pose proof (sin_lower u ltac:(lra)). pose proof (sin_upper u ltac:(lra)). lra. }
  assert (Hsv : 0.000876154387 <= sin v <= 0.0008761574).
  { pose proof (sin_lower v ltac:(lra)). pose proof (sin_upper v ltac:(lra)). lra. }
  assert (Hx12 : 0.33293872 ^ 2 <= x1 ^ 2 <= 0.33293979 ^ 2)
    by (split; apply pow_incr; lra).
  assert (Hx14 : x1 ^ 4 <= 0.33293979 ^ 4) by (apply pow_incr; lra).
  assert (Hx22 : 0.33542232 ^ 2 <= x2 ^ 2 <= 0.3354234 ^ 2)
    by (split; apply pow_incr; lra).
  assert (Hx24 : x2 ^ 4 <= 0.3354234 ^ 4) by (apply pow_incr; lra).
  assert (Hc1 : 0.94457554 <= cos x1 <= 0.94508789).
  { pose proof (cos_lower x1 ltac:(lra)). pose proof (cos_upper x1 ltac:(lra)). lra. }
  assert (Hc2 : 0.94374557 <= cos x2 <= 0.94427337).
  { pose proof (cos_lower x2 ltac:(lra)). pose proof (cos_upper x2 ltac:(lra)). lra. }
  assert (Hsu2 : 0.00124180038 ^ 2 <= sin u ^ 2 <= 0.0012418047 ^ 2)
    by (split; apply pow_incr; lra).
  assert (Hsv2 : 0.000876154387 ^ 2 <= sin v ^ 2 <= 0.0008761574 ^ 2)
    by (split; apply pow_incr; lra).
  assert (Hcc : 0.94457554 * 0.94374557 <= cos x1 * cos x2 <= 0.94508789 * 0.94427337)
    by (split; apply Rmult_le_compat; lra).
  assert (Hccs : 0.94457554 * 0.94374557 * 0.000876154387 ^ 2
                 <= cos x1 * cos x2 * sin v ^ 2
                 <= 0.94508789 * 0.94427337 * 0.0008761574 ^ 2)
    by (split; apply Rmult_le_compat; lra).
  set (a := sin u ^ 2 + cos x1 * cos x2 * sin v ^ 2).
  assert (Ha : 0.0000022263782 <= a <= 0.00000222714775) by (unfold a; lra).
  assert (Hr : 0.0014921052 <= sqrt a <= 0.0014923632).
  { split.
    - rewrite <- (sqrt_pow2 0.0014921052) by lra. apply sqrt_le_1_alt. lra.
    - rewrite <- (sqrt_pow2 0.0014923632) by lra. apply sqrt_le_1_alt. lra. }
  pose proof (asin_lower (sqrt a) ltac:(lra)) as Hal.
  pose proof (asin_upper (sqrt a) 0.00149236387 ltac:(lra) ltac:(lra) ltac:(lra)) as Hau.
  lra.
Qed.

Lemma asin_nonneg (t : R) : 0 <= t -> 0 <= asin t.
Proof.
  intros Ht. pose proof PI_RGT_0 as Hpi.
  destruct (Rle_lt_dec t 1) as [H1 | H1].
  - destruct Ht as [Ht | <-]; [| rewrite asin_0; lra].
    pose proof (asin_lower t ltac:(lra)). lra.
  - unfold asin. destruct (Rle_dec t (-1)); [lra |].
    destruct (Rle_dec 1 t); lra.
Qed.

Lemma haversine_nonneg (lat1 lon1 lat2 lon2 : R) :
  0 <= Distance.haversine_distance lat1 lon1 lat2 lon2.
Proof.
  unfold Distance.haversine_distance. cbv zeta.
  match goal with |- 0 <= 2 * asin (sqrt ?a) * 6371 =>
    pose proof (asin_nonneg (sqrt a) (sqrt_pos a))
  end.
  lra.
Qed.

Lemma get_road_distance_unusable (w : Distance.net) (lat1 lon1 lat2 lon2 timeout : R) :
  no_usable_result
    (Distance.provider w (length (Distance.calls w))
       (Distance.road_distance_request lat1 lon1 lat2 lon2 timeout)) ->
  fst (Distance.get_road_distance lat1 lon1 lat2 lon2 timeout w) = Return (None, None).
Proof.
  unfold Distance.get_road_distance, try_except, bind, Distance.http_get, ret.
  destruct (Distance.provider w _ _) as [sc data | |]; simpl; try reflexivity.
  intros [Hsc | Hr].
  - destruct (Z.eqb_spec sc 200); [contradiction | reflexivity].
  - rewrite Hr. destruct (sc =? 200)%Z; reflexivity.
Qed.

Lemma get_distance_and_eta_fallback (w : Distance.net)
    (driver_lat driver_lon customer_lat customer_lon : R)
    (current_speed_kmh : option R) :
  no_usable_result
    (Distance.provider w (length (Distance.calls w))
       (Distance.road_distance_request driver_lat driver_lon
          customer_lat customer_lon 5.0)) ->
  fst (Distance.get_distance_and_eta driver_lat driver_lon customer_lat customer_lon
         current_speed_kmh true w)
  = Return
      (Distance.haversine_distance driver_lat driver_lon customer_lat customer_lon,
       Int_part
         (60 * Distance.haversine_distance driver_lat driver_lon
                 customer_lat customer_lon
          / speed_to_use current_speed_kmh),
       false).
Proof.
  intros Hn. pose proof (get_road_distance_unusable w _ _ _ _ _ Hn) as Hr.
  unfold Distance.get_distance_and_eta, bind.
  destruct (Distance.get_road_distance _ _ _ _ _ w) as [r w'].
  simpl in Hr. subst r. unfold lift, ret. rewrite calculate_eta_haversine. simpl.
  pose proof (haversine_nonneg driver_lat driver_lon customer_lat customer_lon) as Hh.
  pose proof (speed_to_use_positive current_speed_kmh) as Hs.
  rewrite int_floor.
  - match goal with
    | |- context [Int_part (?h / ?v * 60)] =>
        replace (h / v * 60) with (60 * h / v) by (field; lra)
    end.
    reflexivity.
  - apply Rmult_le_pos; [| lra]. unfold Rdiv. apply Rmult_le_pos; [exact Hh |].
    apply Rlt_le, Rinv_0_lt_compat. lra.
Qed.

Lemma scenario_eta :
  Int_part (60 * Distance.haversine_distance 19.0760 72.8777 19.2183 72.9781
            / speed_to_use None) = 28%Z.
Proof.
  pose proof scenario_distance as [Hl Hu].
  apply Int_part_unique. unfold speed_to_use. simpl IZR. lra.
Qed.

(** C9, as the code has it. When the provider yields no usable result,
    [get_distance_and_eta] returns the Haversine distance, not marked as a
    road distance, with the ETA [floor (60 * distance / speed)], where the
    speed is the live speed if it is strictly greater than 5 km/h and 40
    km/h otherwise. For the driver at (19.0760, 72.8777), the customer at
    (19.2183, 72.9781) and no live speed, the distance lies between 19.01
    and 19.02 km and the ETA is 28 minutes. *)
Theorem fallback_distance_and_eta :
  (forall (w : Distance.net)
          (driver_lat driver_lon customer_lat customer_lon : R)
          (current_speed_kmh : option R),
      no_usable_result
        (Distance.provider w (length (Distance.calls w))
           (Distance.road_distance_request driver_lat driver_lon
              customer_lat customer_lon 5.0)) ->
      fst (Distance.get_distance_and_eta driver_lat driver_lon
             customer_lat customer_lon current_speed_kmh true w)
      = Return
          (Distance.haversine_distance driver_lat driver_lon
             customer_lat customer_lon,
           Int_part
             (60 * Distance.haversine_distance driver_lat driver_lon
                     customer_lat customer_lon
              / speed_to_use current_speed_kmh),
           false))
  /\ (forall w : Distance.net,
         no_usable_result
           (Distance.provider w (length (Distance.calls w))
              (Distance.road_distance_request 19.0760 72.8777 19.2183 72.9781 5.0)) ->
         exists d : R,
           fst (Distance.get_distance_and_eta 19.0760 72.8777 19.2183 72.9781
                  None true w)
           = Return (d, 28%Z, false)
           /\ 19.01 < d < 19.02).
Proof.
  split; [exact get_distance_and_eta_fallback |].
  intros w Hn. eexists. split.
  - rewrite (get_distance_and_eta_fallback w _ _ _ _ None Hn), scenario_eta.
    reflexivity.
  - exact scenario_distance.
Qed.

Lemma fallback_distance_and_eta_witness :
  exists d : R,
    fst (Distance.get_distance_and_eta 19.0760 72.8777 19.2183 72.9781
           None true silent_net)
    = Return (d, 28%Z, false)
    /\ 19.01 < d < 19.02.
Proof.
  destruct fallback_distance_and_eta as [_ H].
  apply (H silent_net). exact I.
Defined.

(** C9, as the claim words it, fails on its figures: with no provider the
    scenario gives a distance above 19 km and an ETA of 28 minutes, which is
    neither about 17.7 km nor about 26 minutes. *)
Lemma scenario_is_not_17_7 :
  exists r : R * Z * bool,
    fst (Distance.get_distance_and_eta 19.0760 72.8777 19.2183 72.9781
           None true silent_net) = Return r
    /\ ~ claimed_scenario r.
Proof.
  eexists. split.
  - rewrite (get_distance_and_eta_fallback silent_net _ _ _ _ None I), scenario_eta.
    reflexivity.
  - unfold claimed_scenario. simpl. intros (_ & H & _). lia.
Qed.

End Fallback.

(** * Further properties of the code *)

(** ** The display of an ETA *)

Section FormatEta.
Import Py Distance Notions.
Local Open Scope Z_scope.

Lemma pretty_N_char_no_space (x : N) : Ascii.eqb (pretty_N_char x) " " = false.
Proof. unfold pretty_N_char. repeat case_match; reflexivity. Qed.

Lemma pretty_N_go_no_space (x : N) (s : string) :
  has_space s = false -> has_space (pretty_N_go x s) = false.
Proof.
  revert s. induction (N.lt_wf_0 x) as [x _ IH]; intros s Hs.
  assert (x = 0 \/ 0 < x)%N as [-> | Hx] by lia.
  - rewrite pretty_N_go_0. exact Hs.
  - rewrite pretty_N_go_step by exact Hx.
    apply IH; [apply N.div_lt; [exact Hx | reflexivity] |].
    simpl. rewrite pretty_N_char_no_space. exact Hs.
Qed.

Lemma pretty_N_no_space (x : N) : has_space (pretty x) = false.
Proof.
  unfold pretty, pretty_N. case_decide; [reflexivity |].
  apply pretty_N_go_no_space. reflexivity.
Qed.

Lemma pretty_Z_no_space (z : Z) : has_space (pretty z) = false.
Proof.
  destruct z as [| p | p]; [reflexivity | apply pretty_N_no_space |].
  change (pretty (Z.neg p)) with ("-" +:+ pretty (N.pos p)).
  simpl. apply pretty_N_no_space.
Qed.

(** A text is cut in one way only at its first space. *)
Lemma split_at_space (p p' r r' : string) :
  has_space p = false -> has_space p' = false ->
  p +:+ String " " r = p' +:+ String " " r' -> p = p' /\ r = r'.
Proof.
  revert p'. induction p as [| c p IH]; intros [| c' p'] Hp Hp' E; simpl in *.
  - injection E as ->. split; reflexivity.
  - injection E as <- _. simpl in Hp'. discriminate.
  - injection E as -> _. simpl in Hp. discriminate.
  - injection E as -> E.
    destruct (Ascii.eqb c' " "); [discriminate |].
    destruct (IH p' Hp Hp' E) as [-> ->]. split; reflexivity.
Qed.

Lemma format_eta_inj (a b : Z) : format_eta a = format_eta b -> a = b.
Proof.
  unfold format_eta. cbv zeta.
  pose proof (pretty_Z_no_space a) as Ha.
  pose proof (pretty_Z_no_space b) as Hb.
  pose proof (pretty_Z_no_space (a / 60)) as Hqa.
  pose proof (pretty_Z_no_space (b / 60)) as Hqb.
  pose proof (pretty_Z_no_space (a mod 60)) as Hra.
  pose proof (pretty_Z_no_space (b mod 60)) as Hrb.
  pose proof (Z.div_mod a 60 ltac:(lia)) as Da.
  pose proof (Z.div_mod b 60 ltac:(lia)) as Db.
  destruct (a <? 60) eqn:La; destruct (b <? 60) eqn:Lb;
    [| destruct (b mod 60 =? 0) eqn:Mb
     | destruct (a mod 60 =? 0) eqn:Ma
     | destruct (a mod 60 =? 0) eqn:Ma; destruct (b mod 60 =? 0) eqn:Mb ];
    intros E;
    change (?x +:+ " min") with (x +:+ String " " "min") in E;
    change (?x +:+ " hr") with (x +:+ String " " "hr") in E;
    change (?x +:+ " hr " +:+ ?y) with (x +:+ String " " ("hr " +:+ y)) in E;
    apply split_at_space in E; try assumption;
    destruct E as [E1 E2]; try discriminate.
  - apply (inj pretty) in E1. exact E1.
  - apply (inj pretty) in E1. lia.
  - simpl in E2. injection E2 as E2.
    change (?x +:+ " min") with (x +:+ String " " "min") in E2.
    apply split_at_space in E2; try assumption.
    destruct E2 as [E2 _].
    apply (inj pretty) in E1, E2. lia.
Qed.

(** X1. [format_eta] shows different numbers of minutes as different
    texts: of its three forms ("N min", "H hr", "H hr M min") no two
    coincide, and each determines the number it was made from. *)
Theorem format_eta_distinct (a b : Z) :
  a <> b -> format_eta a <> format_eta b.
Proof. intros Hne E. apply Hne, format_eta_inj, E. Qed.

Lemma format_eta_distinct_witness :
  75 <> 90
  /\ format_eta 75 = "1 hr 15 min"
  /\ format_eta 90 = "1 hr 30 min"
  /\ format_eta 75 <> format_eta 90.
Proof.
  assert (H : 75 <> 90) by lia.
  split; [exact H |]. split; [reflexivity |]. split; [reflexivity |].
  exact (format_eta_distinct 75 90 H).
Defined.

End FormatEta.

(** ** Great-circle distances and the distance to a route *)

Section RouteDeviation.
Import Py Distance Notions.
Local Open Scope R_scope.

Lemma sin_half_swap (x y : R) : sin ((x - y) / 2) ^ 2 = sin ((y - x) / 2) ^ 2.
Proof.
  replace ((x - y) / 2) with (- ((y - x) / 2)) by lra.
  rewrite sin_neg. ring.
Qed.

Lemma haversine_symmetric (lat1 lon1 lat2 lon2 : R) :
  haversine_distance lat1 lon1 lat2 lon2 = haversine_distance lat2 lon2 lat1 lon1.
Proof.
  unfold haversine_distance. cbv zeta.
  rewrite (sin_half_swap (radians lat2) (radians lat1)).
  rewrite (sin_half_swap (radians lon2) (radians lon1)).
  rewrite (Rmult_comm (cos (radians lat1)) (cos (radians lat2))).
  reflexivity.
Qed.

Lemma haversine_upper (lat1 lon1 lat2 lon2 : R) :
  haversine_distance lat1 lon1 lat2 lon2 <= PI * 6371.
Proof.
  unfold haversine_distance. cbv zeta.
  match goal with |- 2 * asin ?x * 6371 <= _ => pose proof (asin_bound x) as H end.
  lra.
Qed.

(** X2. [haversine_distance] behaves as a distance on the globe: it is 0
    from a point to itself, never negative, the same in both directions,
    and at most half the circumference of the sphere of radius 6371 km
    (pi * 6371, below 20016 km), whatever the coordinates. *)
Theorem haversine_is_a_distance (lat1 lon1 lat2 lon2 : R) :
  haversine_distance lat1 lon1 lat1 lon1 = 0
  /\ 0 <= haversine_distance lat1 lon1 lat2 lon2 <= PI * 6371
  /\ haversine_distance lat1 lon1 lat2 lon2 < 20016
  /\ haversine_distance lat1 lon1 lat2 lon2 = haversine_distance lat2 lon2 lat1 lon1.
Proof.
  pose proof (haversine_upper lat1 lon1 lat2 lon2) as Hu.
  pose proof PI_bounds as Hpi.
  split; [apply haversine_same_point |].
  split; [split; [apply haversine_nonneg | exact Hu] |].
  split; [lra | apply haversine_symmetric].
Qed.

Lemma py_min_Rmin (a b : R) : py_min a b = Rmin a b.
Proof.
  unfold py_min, float_lt, Rmin.
  destruct (Rlt_dec b a), (Rle_dec a b); lra.
Qed.

Lemma py_max_Rmax (a b : R) : py_max a b = Rmax a b.
Proof.
  unfold py_max, float_gt, Rmax.
  destruct (Rgt_dec b a), (Rle_dec a b); lra.
Qed.

Lemma clamp_unit (s : R) : 0 <= s <= 1 -> py_max 0 (py_min 1 s) = s.
Proof.
  intros Hs. rewrite py_min_Rmin, py_max_Rmax.
  unfold Rmin, Rmax. destruct (Rle_dec 1 s), (Rle_dec 0 s); try lra.
  destruct (Rle_dec 0 1); lra.
Qed.

Lemma clamp_bounds (q : R) : 0 <= py_max 0 (py_min 1 q) <= 1.
Proof.
  rewrite py_min_Rmin, py_max_Rmax.
  unfold Rmin, Rmax. destruct (Rle_dec 1 q); destruct (Rle_dec 0 _); lra.
Qed.

Lemma float_eq_true_iff (x y : R) : float_eq x y = true <-> x = y.
Proof. unfold float_eq. destruct (Req_dec_T x y); split; congruence. Qed.

Lemma segment_not_a_point (dx dy : R) :
  float_eq dx 0 && float_eq dy 0 = false -> dx <> 0 \/ dy <> 0.
Proof.
  intros H. apply andb_false_iff in H.
  unfold float_eq in H.
  destruct (Req_dec_T dx 0), (Req_dec_T dy 0); destruct H; try discriminate; auto.
Qed.

Lemma float_tiny_pos : 0 < float_tiny.
Proof. unfold float_tiny. apply Rinv_0_lt_compat, pow_lt. lra. Qed.

Lemma float_tiny_small : float_tiny < 1 / 1000000.
Proof.
  unfold float_tiny.
  assert (H1 : 2 ^ 20 <= 2 ^ 1075) by (apply Rle_pow; [lra | lia]).
  assert (H20 : 2 ^ 20 = 1048576) by (simpl; lra).
  assert (H2 : / 2 ^ 1075 <= / 2 ^ 20) by (apply Rinv_le_contravar; lra).
  rewrite H20 in H2. generalize dependent (/ 2 ^ 1075). intros; lra.
Qed.

Lemma rounds_to_zero_square (x : R) :
  rounds_to_zero (x * x) = true <-> x * x <= float_tiny.
Proof.
  unfold rounds_to_zero, float_le. rewrite Rabs_pos_eq by nra.
  destruct (Rle_dec (x * x) float_tiny); split; intros; try easy.
Qed.

Lemma squared_length_zero (dx dy : R) :
  squared_length dx dy = 0
  <-> dx * dx <= float_tiny /\ dy * dy <= float_tiny.
Proof.
  unfold squared_length. pose proof float_tiny_pos as Ht.
  destruct (rounds_to_zero (dx * dx)) eqn:E1; destruct (rounds_to_zero (dy * dy)) eqn:E2;
    simpl.
  - apply rounds_to_zero_square in E1, E2. tauto.
  - split; [| intros [_ H]; apply rounds_to_zero_square in H; congruence].
    intros H. assert (~ dy * dy <= float_tiny)
      by (intros Hc; apply rounds_to_zero_square in Hc; congruence). nra.
  - split; [| intros [H _]; apply rounds_to_zero_square in H; congruence].
    intros H. assert (~ dx * dx <= float_tiny)
      by (intros Hc; apply rounds_to_zero_square in Hc; congruence). nra.
  - split; [| intros [H _]; apply rounds_to_zero_square in H; congruence].
    intros H. assert (~ dx * dx <= float_tiny)
      by (intros Hc; apply rounds_to_zero_square in Hc; congruence). nra.
Qed.

Lemma squared_length_exact (dx dy : R) :
  squared_length dx dy <> 0 -> squared_length dx dy = dx * dx + dy * dy.
Proof.
  unfold squared_length.
  destruct (rounds_to_zero (dx * dx) && rounds_to_zero (dy * dy)); [congruence | reflexivity].
Qed.

(** The function raises exactly on a vanishing segment; on every other it
    returns the distance to a point of the segment. *)
Lemma point_to_segment_distance_cases (px py ax ay bx b_y : R) :
  (vanishing ax ay bx b_y
   /\ point_to_segment_distance px py ax ay bx b_y = Raise ZeroDivisionError)
  \/ (~ vanishing ax ay bx b_y
      /\ exists t, 0 <= t <= 1
           /\ point_to_segment_distance px py ax ay bx b_y
              = Return (haversine_distance px py (ax + t * (bx - ax))
                          (ay + t * (b_y - ay)) * 1000)).
Proof.
  unfold point_to_segment_distance, vanishing. cbv zeta.
  destruct (float_eq (bx - ax) 0 && float_eq (b_y - ay) 0) eqn:E.
  - right. apply andb_true_iff in E as [E1 E2].
    apply float_eq_true_iff in E1, E2.
    split; [intros [[H | H] _]; contradiction |].
    exists 0. split; [lra |]. do 3 f_equal; lra.
  - apply segment_not_a_point in E.
    unfold truediv. destruct (Req_dec_T (squared_length _ _) 0) as [E0 | E0].
    + left. apply squared_length_zero in E0. split; [tauto | reflexivity].
    + right. split.
      * intros (_ & H1 & H2). apply E0, squared_length_zero. auto.
      * eexists. split; [apply clamp_bounds | reflexivity].
Qed.

Lemma point_to_segment_distance_total (px py ax ay bx b_y : R) :
  ~ vanishing ax ay bx b_y ->
  exists d, point_to_segment_distance px py ax ay bx b_y = Return d /\ 0 <= d.
Proof.
  intros Hn.
  destruct (point_to_segment_distance_cases px py ax ay bx b_y)
    as [[Hv _] | (_ & t & _ & E)]; [contradiction |].
  eexists. split; [exact E |].
  match goal with |- 0 <= haversine_distance ?a1 ?a2 ?a3 ?a4 * 1000 =>
    pose proof (haversine_nonneg a1 a2 a3 a4)
  end.
  lra.
Qed.

Lemma point_to_segment_distance_nonneg (px py ax ay bx b_y d : R) :
  point_to_segment_distance px py ax ay bx b_y = Return d -> 0 <= d.
Proof.
  intros E.
  destruct (point_to_segment_distance_cases px py ax ay bx b_y)
    as [[_ Er] | (_ & t & _ & Et)]; rewrite E in *; [discriminate |].
  injection Et as ->.
  match goal with |- 0 <= haversine_distance ?a1 ?a2 ?a3 ?a4 * 1000 =>
    pose proof (haversine_nonneg a1 a2 a3 a4)
  end.
  lra.
Qed.


Lemma point_on_segment (ax ay bx b_y s : R) :
  0 <= s <= 1 ->
  ~ vanishing ax ay bx b_y ->
  point_to_segment_distance (ax + s * (bx - ax)) (ay + s * (b_y - ay)) ax ay bx b_y
  = Return 0.
Proof.
  intros Hs Hn. unfold point_to_segment_distance. cbv zeta.
  destruct (float_eq (bx - ax) 0 && float_eq (b_y - ay) 0) eqn:E.
  - apply andb_true_iff in E as [E1 E2].
    apply float_eq_true_iff in E1, E2. rewrite E1, E2.
    replace (ax + s * 0) with ax by lra. replace (ay + s * 0) with ay by lra.
    rewrite haversine_same_point. f_equal. lra.
  - apply segment_not_a_point in E.
    assert (E0 : squared_length (bx - ax) (b_y - ay) <> 0).
    { intros E0. apply squared_length_zero in E0. apply Hn. split; tauto. }
    pose proof (squared_length_exact _ _ E0) as Ex. rewrite Ex in E0 |- *.
    unfold truediv. destruct (Req_dec_T _ 0) as [E1 | _]; [contradiction |].
    match goal with
    | |- context [py_max 0 (py_min 1 ?q)] => replace q with s by (field; exact E0)
    end.
    rewrite (clamp_unit s Hs), haversine_same_point. f_equal. lra.
Qed.

(** X4. A point that lies on the segment, A + s (B - A) with s between 0
    and 1, is at distance 0 from it, unless the segment is a vanishing one,
    on which the function raises. *)
Theorem segment_distance_zero_on_segment (ax ay bx b_y s : R) :
  0 <= s <= 1 ->
  ~ vanishing ax ay bx b_y ->
  point_to_segment_distance (ax + s * (bx - ax)) (ay + s * (b_y - ay)) ax ay bx b_y
  = Return 0.
Proof. exact (point_on_segment ax ay bx b_y s). Qed.

Lemma not_vanishing_long (ax ay bx b_y : R) :
  1 / 1000 <= bx - ax -> ~ vanishing ax ay bx b_y.
Proof.
  intros H (_ & H1 & _). pose proof float_tiny_small as Ht. nra.
Qed.

Lemma segment_distance_zero_on_segment_witness :
  0 <= 1 / 2 <= 1
  /\ ~ vanishing 19 73 19.2 73.2
  /\ point_to_segment_distance (19 + 1 / 2 * (19.2 - 19)) (73 + 1 / 2 * (73.2 - 73))
       19 73 19.2 73.2
     = Return 0.
Proof.
  assert (H : 0 <= 1 / 2 <= 1) by lra.
  assert (Hn : ~ vanishing 19 73 19.2 73.2) by (apply not_vanishing_long; lra).
  split; [exact H |]. split; [exact Hn |].
  exact (segment_distance_zero_on_segment 19 73 19.2 73.2 (1 / 2) H Hn).
Defined.

Lemma min_inf_spec (m : xfloat) (d : R) :
  exists y, min_inf m d = Finite y /\ y <= d
            /\ (forall x, m = Finite x -> y <= x)
            /\ (y = d \/ m = Finite y).
Proof.
  destruct m as [x |]; simpl.
  - exists (py_min x d). rewrite py_min_Rmin.
    split; [reflexivity |]. split; [apply Rmin_r |].
    split; [intros ? [= <-]; apply Rmin_l |].
    unfold Rmin. destruct (Rle_dec x d); [right | left]; reflexivity.
  - exists d. split; [reflexivity |]. split; [lra |].
    split; [discriminate | left; reflexivity].
Qed.

Lemma segments_min_spec (point_lat point_lng : R) (l : list (R * R)) (m : xfloat) :
  match segments_min point_lat point_lng l m with
  | Return m' =>
      (m' = m
       \/ exists i a b d,
            l !! i = Some a /\ l !! S i = Some b
            /\ point_to_segment_distance point_lat point_lng
                 (snd a) (fst a) (snd b) (fst b) = Return d
            /\ m' = Finite d)
      /\ (forall x, m = Finite x -> exists x', m' = Finite x' /\ x' <= x)
      /\ (forall i a b, l !! i = Some a -> l !! S i = Some b ->
            exists d x',
              point_to_segment_distance point_lat point_lng
                (snd a) (fst a) (snd b) (fst b) = Return d
              /\ m' = Finite x' /\ x' <= d)
  | Raise e =>
      e = ZeroDivisionError
      /\ exists i a b,
           l !! i = Some a /\ l !! S i = Some b
           /\ vanishing (snd a) (fst a) (snd b) (fst b)
  end.
Proof.
  revert m. induction l as [| a l IH]; intros m.
  - simpl. split; [now left |].
    split; [intros x ->; eexists; split; [reflexivity | lra] |].
    intros i ? ? H. discriminate.
  - destruct l as [| b l].
    + simpl. split; [now left |].
      split; [intros x ->; eexists; split; [reflexivity | lra] |].
      intros [| i] ? ? _ H; discriminate.
    + change (segments_min point_lat point_lng (a :: b :: l) m)
        with (match point_to_segment_distance point_lat point_lng
                      (snd a) (fst a) (snd b) (fst b) with
              | Return dist => segments_min point_lat point_lng (b :: l) (min_inf m dist)
              | Raise e => Raise e
              end).
      destruct (point_to_segment_distance_cases point_lat point_lng
                  (snd a) (fst a) (snd b) (fst b)) as [[Hv Ed] | (_ & t & _ & Ed)];
        rewrite Ed.
      { split; [reflexivity |]. exists 0%nat, a, b. auto. }
      match type of Ed with _ = Return ?d0 => set (d := d0) in * end.
      specialize (IH (min_inf m d)).
      destruct (segments_min point_lat point_lng (b :: l) (min_inf m d)) as [m' | e].
      * destruct IH as (Hatt & Hle & Hall).
        destruct (min_inf_spec m d) as (y & Ey & Hyd & Hym & Hy).
        destruct (Hle y Ey) as (x' & Ex' & Hx').
        split; [| split].
        -- destruct Hatt as [-> | (i & a' & b' & d' & Ha & Hb & Hs & Hm)].
           ++ destruct Hy as [-> | ->]; [| rewrite Ey; now left].
              right. exists 0%nat, a, b, d. rewrite Ey. repeat split; auto.
           ++ right. exists (S i), a', b', d'. repeat split; auto.
        -- intros x ->. exists x'. split; [exact Ex' |]. specialize (Hym x eq_refl). lra.
        -- intros [| i] a' b' Ha Hb.
           ++ simpl in Ha, Hb. injection Ha as <-. injection Hb as <-.
              exists d, x'. repeat split; auto. lra.
           ++ apply (Hall i a' b'); assumption.
      * destruct IH as (-> & i & a' & b' & Ha & Hb & Hv).
        split; [reflexivity |]. exists (S i), a', b'. auto.
Qed.

Lemma point_to_line_distance_cases (point_lat point_lng : R) (l : list (R * R)) :
  match point_to_line_distance point_lat point_lng l with
  | Return Infinity => (length l < 2)%nat
  | Return (Finite d) =>
      (2 <= length l)%nat
      /\ 0 <= d
      /\ (exists i a b,
             l !! i = Some a /\ l !! S i = Some b
             /\ point_to_segment_distance point_lat point_lng
                  (snd a) (fst a) (snd b) (fst b) = Return d)
      /\ (forall i a b, l !! i = Some a -> l !! S i = Some b ->
            exists d',
              point_to_segment_distance point_lat point_lng
                (snd a) (fst a) (snd b) (fst b) = Return d'
              /\ d <= d')
  | Raise e =>
      e = ZeroDivisionError
      /\ exists i a b,
           l !! i = Some a /\ l !! S i = Some b
           /\ vanishing (snd a) (fst a) (snd b) (fst b)
  end.
Proof.
  unfold point_to_line_distance.
  destruct (length l <? 2)%nat eqn:E.
  - apply Nat.ltb_lt. exact E.
  - apply Nat.ltb_ge in E.
    pose proof (segments_min_spec point_lat point_lng l Infinity) as H.
    destruct (segments_min point_lat point_lng l Infinity) as [m' | e]; [| exact H].
    destruct H as (Hatt & _ & Hall).
    destruct l as [| a [| b l]]; simpl in E; try lia.
    destruct (Hall 0%nat a b eq_refl eq_refl) as (d0 & x' & Ed0 & -> & Hx').
    destruct Hatt as [Habs | (i & a' & b' & d' & Ha & Hb & Hs & [= ->])];
      [discriminate |].
    split; [simpl; lia |]. split.
    + exact (point_to_segment_distance_nonneg _ _ _ _ _ _ _ Hs).
    + split; [exists i, a', b'; auto |].
      intros j a1 b1 Ha1 Hb1.
      destruct (Hall j a1 b1 Ha1 Hb1) as (d1 & x1 & Ed1 & [= <-] & Hx1).
      exists d1. auto.
Qed.


(** X6. A driver who stands exactly on a vertex of the route, a line of
    at least two coordinates none of whose segments is a vanishing one, is
    at distance 0 from the route. *)
Theorem line_distance_zero_at_vertex (l : list (R * R)) (i : nat) (v : R * R) :
  (2 <= length l)%nat ->
  (forall j a b, l !! j = Some a -> l !! S j = Some b ->
     ~ vanishing (snd a) (fst a) (snd b) (fst b)) ->
  l !! i = Some v ->
  point_to_line_distance (snd v) (fst v) l = Return (Finite 0).
Proof.
  intros Hlen Hnv Hv.
  pose proof (point_to_line_distance_cases (snd v) (fst v) l) as H.
  destruct (point_to_line_distance (snd v) (fst v) l) as [[d |] | e]; [| lia |].
  2: { destruct H as (_ & j & a & b & Ha & Hb & Hvan).
       destruct (Hnv j a b Ha Hb Hvan). }
  destruct H as (_ & Hd & _ & Hall).
  assert (Hzero : exists d', d <= d' /\ d' = 0).
  { destruct (l !! S i) as [b |] eqn:Hb.
    - destruct (Hall i v b Hv Hb) as (d' & Ed' & Hle).
      pose proof (point_on_segment (snd v) (fst v) (snd b) (fst b) 0 ltac:(lra)
                    (Hnv i v b Hv Hb)) as E0.
      replace (snd v + 0 * (snd b - snd v)) with (snd v) in E0 by lra.
      replace (fst v + 0 * (fst b - fst v)) with (fst v) in E0 by lra.
      rewrite E0 in Ed'. injection Ed' as <-. exists 0. split; [exact Hle | reflexivity].
    - destruct i as [| i].
      + apply lookup_ge_None in Hb. lia.
      + destruct (l !! i) as [a |] eqn:Ha.
        * destruct (Hall i a v Ha Hv) as (d' & Ed' & Hle).
          pose proof (point_on_segment (snd a) (fst a) (snd v) (fst v) 1 ltac:(lra)
                        (Hnv i a v Ha Hv)) as E1.
          replace (snd a + 1 * (snd v - snd a)) with (snd v) in E1 by lra.
          replace (fst a + 1 * (fst v - fst a)) with (fst v) in E1 by lra.
          rewrite E1 in Ed'. injection Ed' as <-. exists 0. split; [exact Hle | reflexivity].
        * apply lookup_ge_None in Ha. apply lookup_lt_Some in Hv. lia. }
  destruct Hzero as (d' & Hle & ->).
  do 2 f_equal. lra.
Qed.

Lemma line_distance_zero_at_vertex_witness :
  point_to_line_distance 19.2 73.1 [(73, 19); (73.1, 19.2)] = Return (Finite 0).
Proof.
  assert (H1 : (2 <= length [(73, 19); (73.1, 19.2)]%R)%nat) by (simpl; lia).
  assert (H2 : [(73, 19); (73.1, 19.2)] !! 1%nat = Some (73.1, 19.2)) by reflexivity.
  assert (H3 : forall j a b,
             [(73, 19); (73.1, 19.2)] !! j = Some a ->
             [(73, 19); (73.1, 19.2)] !! S j = Some b ->
             ~ vanishing (snd a) (fst a) (snd b) (fst b)).
  { intros [| [| j]] a b Ha Hb; simpl in Ha, Hb; try discriminate.
    injection Ha as <-. injection Hb as <-. simpl.
    apply not_vanishing_long. lra. }
  exact (line_distance_zero_at_vertex [(73, 19); (73.1, 19.2)] 1 (73.1, 19.2) H1 H3 H2).
Defined.

End RouteDeviation.

(** ** Alternative routes and the tracking queries *)

Section TrackingQueries.
Import Py Spec Notions.
Local Open Scope Z_scope.

Lemma alternatives_from_length (idx : Z) (rs : list Distance.route) :
  length (Distance.alternatives_from idx rs) = length rs.
Proof.
  revert idx. induction rs as [| r rs IH]; intros idx; simpl; [| rewrite IH]; reflexivity.
Qed.

Lemma alternatives_from_index (idx : Z) (rs : list Distance.route) (i : nat)
    (o : Distance.route_option) :
  Distance.alternatives_from idx rs !! i = Some o ->
  Distance.route_index o = idx + Z.of_nat i.
Proof.
  revert idx i. induction rs as [| r rs IH]; intros idx i H; [discriminate |].
  destruct i as [| i]; simpl in H.
  - injection H as <-. simpl. lia.
  - apply IH in H. lia.
Qed.

Lemma get_alternative_routes_numbered (lat1 lon1 lat2 lon2 timeout : R) (w : Distance.net) :
  exists l,
    Distance.get_alternative_routes lat1 lon1 lat2 lon2 timeout w
    = (Return l,
       {| Distance.provider := Distance.provider w;
          Distance.calls :=
            Distance.calls w
            ++ [Distance.alternatives_request lat1 lon1 lat2 lon2 timeout] |})
    /\ (length l <= 3)%nat
    /\ (forall i o, l !! i = Some o -> Distance.route_index o = Z.of_nat i).
Proof.
  unfold Distance.get_alternative_routes, try_except, bind, Distance.http_get, ret.
  destruct (Distance.provider w _ _) as [sc data | |];
    try (exists []; split; [reflexivity |]; split; [simpl; lia | intros ? ? H; discriminate]).
  destruct (sc =? 200);
    [| exists []; split; [reflexivity |]; split; [simpl; lia | intros ? ? H; discriminate]].
  destruct (Distance.first_route data);
    [| exists []; split; [reflexivity |]; split; [simpl; lia | intros ? ? H; discriminate]].
  eexists. split; [reflexivity |]. split.
  - rewrite alternatives_from_length, length_take. lia.
  - intros i o H. apply alternatives_from_index in H. lia.
Qed.

(** X7. [get_alternative_routes] never raises, whatever the provider does
    (an answer, a timeout, a failure): it makes exactly one request, the
    alternatives request, and returns at most three options, numbered
    0, 1, 2 in the order of the list. *)
Theorem alternative_routes_at_most_three (lat1 lon1 lat2 lon2 timeout : R)
    (w : Distance.net) :
  exists l,
    Distance.get_alternative_routes lat1 lon1 lat2 lon2 timeout w
    = (Return l,
       {| Distance.provider := Distance.provider w;
          Distance.calls :=
            Distance.calls w
            ++ [Distance.alternatives_request lat1 lon1 lat2 lon2 timeout] |})
    /\ (length l <= 3)%nat
    /\ (forall i o, l !! i = Some o -> Distance.route_index o = Z.of_nat i).
Proof. exact (get_alternative_routes_numbered lat1 lon1 lat2 lon2 timeout w). Qed.

Lemma routed_refl (s : Tracking.state) : routed s s [].
Proof. unfold routed. rewrite app_nil_r. repeat split. Qed.

Lemma routed_trans (s1 s2 s3 : Tracking.state) (e1 e2 : list Distance.request) :
  routed s1 s2 e1 -> routed s2 s3 e2 -> routed s1 s3 (e1 ++ e2).
Proof.
  unfold routed.
  intros (A1 & A2 & A3 & A4 & A5 & A6 & A7) (B1 & B2 & B3 & B4 & B5 & B6 & B7).
  rewrite B1, B2, B3, B4, B5, B6, B7, A7, app_assoc. repeat split; assumption.
Qed.

Lemma routed_set_cache (s s' : Tracking.state) (extra : list Distance.request)
    (c : gmap Z Tracking.cache_entry) :
  routed s s' extra -> routed s (Tracking.set_route_cache c s') extra.
Proof. unfold routed. simpl. tauto. Qed.

Lemma routing_geometry (lat1 lon1 lat2 lon2 timeout : R) (s : Tracking.state) :
  exists r s',
    Tracking.routing (Distance.get_route_with_geometry lat1 lon1 lat2 lon2 timeout) s
    = (Return r, s')
    /\ Tracking.route_cache s' = Tracking.route_cache s
    /\ routed s s' [Distance.geometry_request lat1 lon1 lat2 lon2 timeout].
Proof.
  unfold Tracking.routing, zoom.
  destruct (get_route_with_geometry_total lat1 lon1 lat2 lon2 timeout (Tracking.osrm s))
    as (r & E).
  rewrite E. eexists _, _. split; [reflexivity |]. unfold routed. simpl. repeat split.
Qed.

Lemma routing_distance_and_eta (lat1 lon1 lat2 lon2 : R) (speed : option R)
    (s : Tracking.state) :
  exists r s',
    Tracking.routing (Distance.get_distance_and_eta lat1 lon1 lat2 lon2 speed true) s
    = (Return r, s')
    /\ Tracking.route_cache s' = Tracking.route_cache s
    /\ routed s s' [Distance.road_distance_request lat1 lon1 lat2 lon2 5.0].
Proof.
  unfold Tracking.routing, zoom.
  destruct (get_distance_and_eta_total lat1 lon1 lat2 lon2 speed (Tracking.osrm s))
    as (r & E).
  rewrite E. eexists _, _. split; [reflexivity |]. unfold routed. simpl. repeat split.
Qed.

Lemma routing_alternatives (lat1 lon1 lat2 lon2 timeout : R) (s : Tracking.state) :
  exists l s',
    Tracking.routing (Distance.get_alternative_routes lat1 lon1 lat2 lon2 timeout) s
    = (Return l, s')
    /\ Tracking.route_cache s' = Tracking.route_cache s
    /\ routed s s' [Distance.alternatives_request lat1 lon1 lat2 lon2 timeout]
    /\ (length l <= 3)%nat
    /\ (forall i o, l !! i = Some o -> Distance.route_index o = Z.of_nat i).
Proof.
  unfold Tracking.routing, zoom.
  destruct (get_alternative_routes_numbered lat1 lon1 lat2 lon2 timeout (Tracking.osrm s))
    as (l & E & Hl & Hi).
  rewrite E. eexists _, _. split; [reflexivity |]. unfold routed. simpl.
  repeat split; assumption.
Qed.

Ltac unrouted :=
  exists []; simpl;
  split; [apply routed_refl |]; split; [reflexivity |]; split; [simpl; lia | eauto].

Lemma get_alternative_routes_endpoint_routed (s : Tracking.state) (oid : Z)
    (user : User.t) :
  exists extra,
    routed s (snd (Tracking.get_alternative_routes_endpoint oid user s)) extra
    /\ Tracking.route_cache (snd (Tracking.get_alternative_routes_endpoint oid user s))
       = Tracking.route_cache s
    /\ (length extra <= 1)%nat
    /\ match fst (Tracking.get_alternative_routes_endpoint oid user s) with
       | Return resp =>
           Tracking.alt_order_id resp = oid
           /\ (1 <= length (Tracking.alt_routes resp) <= 3)%nat
           /\ (forall i o, Tracking.alt_routes resp !! i = Some o ->
                 Distance.route_index o = Z.of_nat i)
           /\ Tracking.alt_selected_route_index resp
              = default 0 (Tracking.selected_route_cache s !! oid)
       | Raise e => exists detail, e = HTTPException 404 detail
       end.
Proof.
  unfold Tracking.get_alternative_routes_endpoint, bind, get, when, raise, ret.
  destruct (Db.order_by_id (Tracking.db s) oid) as [order |]; [| unrouted].
  destruct (negb (truthy_int (Order.driver_id order))); [unrouted |].
  destruct (Db.latest_location (Tracking.db s) (default 0 (Order.driver_id order)))
    as [location |]; [| unrouted].
  destruct (Tracking.customer_coordinates_or_profile (Tracking.db s) order) as [clat clng].
  destruct (Tracking.float_if_truthy clat) as [la |]; [| unrouted].
  destruct (Tracking.float_if_truthy clng) as [lo |]; [| unrouted].
  destruct (routing_alternatives (TruckLocation.latitude location)
              (TruckLocation.longitude location) la lo 5.0 s)
    as (l & s' & E & Hc & Hr & Hl & Hi).
  rewrite E. eexists. destruct l as [| o l]; simpl.
  - split; [exact Hr |]. split; [exact Hc |]. split; [simpl; lia | eauto].
  - split; [exact Hr |]. split; [exact Hc |]. split; [simpl; lia |].
    split; [reflexivity |]. split; [simpl in Hl |- *; lia |].
    split; [exact Hi |].
    destruct Hr as (_ & -> & _). reflexivity.
Qed.

(** X8. [get_alternative_routes_endpoint] only reads: the session, both
    caches, the connections and the clock are as before, and the provider
    is asked at most once. When it answers, the answer is for the order
    asked, holds between one and three routes numbered from 0, and names
    the index held in the selected-route cache (0 when there is none).
    Every other outcome is a 404. *)
Theorem alternative_routes_endpoint_reads (s : Tracking.state) (oid : Z) (user : User.t) :
  exists extra,
    routed s (snd (Tracking.get_alternative_routes_endpoint oid user s)) extra
    /\ Tracking.route_cache (snd (Tracking.get_alternative_routes_endpoint oid user s))
       = Tracking.route_cache s
    /\ (length extra <= 1)%nat
    /\ match fst (Tracking.get_alternative_routes_endpoint oid user s) with
       | Return resp =>
           Tracking.alt_order_id resp = oid
           /\ (1 <= length (Tracking.alt_routes resp) <= 3)%nat
           /\ (forall i o, Tracking.alt_routes resp !! i = Some o ->
                 Distance.route_index o = Z.of_nat i)
           /\ Tracking.alt_selected_route_index resp
              = default 0 (Tracking.selected_route_cache s !! oid)
       | Raise e => exists detail, e = HTTPException 404 detail
       end.
Proof. exact (get_alternative_routes_endpoint_routed s oid user). Qed.

Ltac track_step s :=
  match goal with
  | |- context [Tracking.routing (Distance.get_distance_and_eta ?a ?b ?c ?d ?sp true) ?st] =>
      let s2 := fresh "s" in
      let E := fresh "E" in
      let Hr2 := fresh "Hr" in
      destruct (routing_distance_and_eta a b c d sp st) as ([[? ?] ?] & s2 & E & _ & Hr2);
      rewrite E; clear E;
      match goal with H : routed s st _ |- _ => pose proof (routed_trans _ _ _ _ _ H Hr2) end;
      cbv beta iota
  | |- context [Tracking.routing (Distance.get_route_with_geometry ?a ?b ?c ?d ?t) ?st] =>
      let s2 := fresh "s" in
      let E := fresh "E" in
      let Hr2 := fresh "Hr" in
      destruct (routing_geometry a b c d t st)
        as ([[[? |] [? |]] [[| ? ?] |]] & s2 & E & _ & Hr2);
      rewrite E; clear E;
      match goal with H : routed s st _ |- _ => pose proof (routed_trans _ _ _ _ _ H Hr2) end;
      cbv beta iota
  | |- context [Tracking.set_route_cache ?c ?s1] =>
      lazymatch goal with
      | H : routed s (Tracking.set_route_cache c s1) _ |- _ => fail
      | H : routed s s1 ?e |- _ => pose proof (routed_set_cache s s1 e c H)
      end
  end.

Lemma track_route_routed (oid : Z) (driver_lat driver_lng cust_lat cust_lng : R)
    (speed : option R) (s : Tracking.state) :
  exists r s' extra,
    Tracking.track_route oid driver_lat driver_lng cust_lat cust_lng speed s
    = (Return r, s')
    /\ routed s s' extra
    /\ (1 <= length extra <= 3)%nat
    /\ (total_timeout extra <= 50)%R.
Proof.
  pose proof (routed_refl s) as H0.
  unfold Tracking.track_route, bind, get, modify, ret.
  destruct (Tracking.route_cache s !! oid) as [[[[[cdlat cdlng] cclat] cclng] croute] |];
    [destruct (float_lt _ _) |];
    repeat track_step s;
    eexists _, _, _; (split; [reflexivity |]); (split; [eassumption |]);
    (split; [simpl; lia | unfold total_timeout; simpl; lra]).
Qed.

Lemma get_order_tracking_routed (s : Tracking.state) (oid : Z) (user : User.t) :
  exists extra,
    routed s (snd (Tracking.get_order_tracking oid user s)) extra
    /\ (length extra <= 3)%nat
    /\ (total_timeout extra <= 50)%R
    /\ match fst (Tracking.get_order_tracking oid user s) with
       | Return resp =>
           exists order location,
             Db.order_by_id (Tracking.db s) oid = Some order
             /\ (exists d, Order.driver_id order = Some d /\ d <> 0
                           /\ Db.latest_location (Tracking.db s) d = Some location)
             /\ (Order.status order = OrderStatus.ASSIGNED
                 \/ Order.status order = OrderStatus.IN_TRANSIT)
             /\ Tracking.order_id resp = oid
             /\ Tracking.latitude resp = TruckLocation.latitude location
             /\ Tracking.longitude resp = TruckLocation.longitude location
             /\ Tracking.timestamp resp = TruckLocation.timestamp location
             /\ Tracking.selected_route_index resp
                = Some (default 0 (Tracking.selected_route_cache s !! oid))
       | Raise e =>
           (exists detail, e = HTTPException 404 detail)
           /\ snd (Tracking.get_order_tracking oid user s) = s
       end.
Proof.
  assert (Hquiet : forall (e : exn),
            (exists detail, e = HTTPException 404 detail) ->
            exists extra,
              routed s s extra /\ (length extra <= 3)%nat /\ (total_timeout extra <= 50)%R
              /\ ((exists detail, e = HTTPException 404 detail) /\ s = s)).
  { intros e He. exists []. split; [apply routed_refl |]. split; [simpl; lia |].
    split; [unfold total_timeout; simpl; lra | auto]. }
  unfold Tracking.get_order_tracking, bind, get, when, raise, ret.
  destruct (Db.order_by_id (Tracking.db s) oid) as [order |] eqn:Ho;
    [| apply Hquiet; eauto].
  pose proof (order_by_id_id _ _ _ Ho) as Hid.
  destruct (Order.driver_id order) as [d |] eqn:Hd; simpl; [| apply Hquiet; eauto].
  destruct (d =? 0) eqn:Hd0; simpl; [apply Hquiet; eauto |].
  apply Z.eqb_neq in Hd0.
  destruct (bool_decide (Order.status order = OrderStatus.ASSIGNED)
            || bool_decide (Order.status order = OrderStatus.IN_TRANSIT)) eqn:Hst; simpl;
    [| apply Hquiet; eauto].
  apply orb_true_iff in Hst. rewrite !bool_decide_eq_true in Hst.
  destruct (Db.latest_location (Tracking.db s) d) as [location |] eqn:Hl;
    [| apply Hquiet; eauto].
  destruct (Db.user_by_id (Tracking.db s) d) as [driver |]; [| apply Hquiet; eauto].
  clear Hquiet.
  destruct (Tracking.customer_coordinates order _) as [clat clng].
  destruct (Tracking.float_if_truthy clat) as [la |];
    [destruct (Tracking.float_if_truthy clng) as [lo |] |].
  - destruct (track_route_routed oid (TruckLocation.latitude location)
                (TruckLocation.longitude location) la lo
                (TruckLocation.speed location) s)
      as ([[dk em] rg] & s' & extra & E & Hr & Hlen & Htime).
    rewrite E. simpl. exists extra. split; [exact Hr |]. split; [lia |].
    split; [exact Htime |].
    exists order, location. split; [reflexivity |].
    split; [exists d; auto |]. split; [exact Hst |].
    split; [exact Hid |]. do 3 (split; [reflexivity |]).
    destruct Hr as (_ & -> & _). reflexivity.
  - simpl. exists []. split; [apply routed_refl |]. split; [simpl; lia |].
    split; [unfold total_timeout; simpl; lra |].
    exists order, location. split; [reflexivity |].
    split; [exists d; auto |]. split; [exact Hst |].
    split; [exact Hid |]. repeat split.
  - simpl. exists []. split; [apply routed_refl |]. split; [simpl; lia |].
    split; [unfold total_timeout; simpl; lra |].
    exists order, location. split; [reflexivity |].
    split; [exists d; auto |]. split; [exact Hst |].
    split; [exact Hid |]. repeat split.
Qed.


(** X10. The index given to [select_route] is stored as it is, with no
    check against the number of routes, and it is the index both queries
    report afterwards; the cached route of the order is dropped. A driver
    gets through only for an order assigned to them. *)
Theorem selected_route_is_reported (s s1 : Tracking.state) (oid idx : Z)
    (user : User.t) (r : bool * Z) :
  Tracking.select_route oid idx user s = (Return r, s1) ->
  r = (true, idx)
  /\ Tracking.route_cache s1 !! oid = None
  /\ (User.role user = UserRole.DRIVER ->
      exists order,
        Db.order_by_id (Tracking.db s) oid = Some order
        /\ Order.driver_id order = Some (User.id user))
  /\ (forall user' resp s2,
        Tracking.get_order_tracking oid user' s1 = (Return resp, s2) ->
        Tracking.selected_route_index resp = Some idx)
  /\ (forall user' resp s2,
        Tracking.get_alternative_routes_endpoint oid user' s1 = (Return resp, s2) ->
        Tracking.alt_selected_route_index resp = idx).
Proof.
  intros Hrun.
  destruct (select_route_spec s oid idx user r s1 Hrun) as (Hc & Hsel & _).
  split; [| split; [exact Hc | split; [| split]]].
  - unfold Tracking.select_route, bind, get, when, raise, ret, modify in Hrun.
    destruct (Db.order_by_id (Tracking.db s) oid); [| discriminate].
    destruct (bool_decide _ && bool_decide _); [discriminate |].
    injection Hrun as <- _. reflexivity.
  - intros Hrole.
    unfold Tracking.select_route, bind, get, when, raise, ret, modify in Hrun.
    destruct (Db.order_by_id (Tracking.db s) oid) as [order |]; [| discriminate].
    rewrite (bool_decide_eq_true_2 _ Hrole) in Hrun. simpl in Hrun.
    destruct (bool_decide (Order.driver_id order <> Some (User.id user))) eqn:Hd;
      [discriminate |].
    apply bool_decide_eq_false in Hd. exists order. split; [reflexivity |].
    destruct (decide (Order.driver_id order = Some (User.id user))); [assumption | contradiction].
  - intros user' resp s2 E.
    destruct (get_order_tracking_routed s1 oid user') as (extra & _ & _ & _ & H).
    rewrite E in H. simpl in H.
    destruct H as (order & location & _ & _ & _ & _ & _ & _ & _ & H).
    rewrite H, Hsel. reflexivity.
  - intros user' resp s2 E.
    destruct (get_alternative_routes_endpoint_routed s1 oid user') as (extra & _ & _ & _ & H).
    rewrite E in H. simpl in H.
    destruct H as (_ & _ & _ & H).
    rewrite H, Hsel. reflexivity.
Qed.

Lemma selected_route_is_reported_witness :
  Tracking.route_cache
    (snd (Tracking.select_route 1 7 admin_user (cached_state silent_net))) !! 1
  = None
  /\ forall user' resp s2,
       Tracking.get_order_tracking 1 user'
         (snd (Tracking.select_route 1 7 admin_user (cached_state silent_net)))
       = (Return resp, s2) ->
       Tracking.selected_route_index resp = Some 7.
Proof.
  destruct (selected_route_is_reported (cached_state silent_net)
              (snd (Tracking.select_route 1 7 admin_user (cached_state silent_net)))
              1 7 admin_user (true, 7) eq_refl)
    as (_ & Hc & _ & Ht & _).
  split; [exact Hc | exact Ht].
Defined.

End TrackingQueries.

(** ** The latest sample of a driver *)

Section DriverLocation.
Import Py Spec Notions.
Local Open Scope Z_scope.

Lemma latest_location_in_spec (rows : list TruckLocation.t) (driver_id : Z) :
  match Db.latest_location_in rows driver_id with
  | Some l =>
      In l rows /\ TruckLocation.driver_id l = driver_id
      /\ (forall l', In l' rows -> TruckLocation.driver_id l' = driver_id ->
            TruckLocation.timestamp l' <= TruckLocation.timestamp l)
  | None => forall l', In l' rows -> TruckLocation.driver_id l' <> driver_id
  end.
Proof.
  induction rows as [| l rows IH]; simpl.
  - intros l' [].
  - destruct (TruckLocation.driver_id l =? driver_id) eqn:E.
    + apply Z.eqb_eq in E.
      destruct (Db.latest_location_in rows driver_id) as [l1 |].
      * destruct IH as (Hin & Hd & Hmax).
        destruct (TruckLocation.timestamp l <? TruckLocation.timestamp l1) eqn:Hlt.
        -- apply Z.ltb_lt in Hlt. split; [right; exact Hin |]. split; [exact Hd |].
           intros l' [<- | Hl'] Hd'; [lia | apply Hmax; assumption].
        -- apply Z.ltb_ge in Hlt. split; [left; reflexivity |]. split; [exact E |].
           intros l' [<- | Hl'] Hd'; [lia |].
           specialize (Hmax l' Hl' Hd'). lia.
      * split; [left; reflexivity |]. split; [exact E |].
        intros l' [<- | Hl'] Hd'; [lia |]. destruct (IH l' Hl' Hd').
    + apply Z.eqb_neq in E.
      destruct (Db.latest_location_in rows driver_id) as [l1 |].
      * destruct IH as (Hin & Hd & Hmax).
        split; [right; exact Hin |]. split; [exact Hd |].
        intros l' [<- | Hl'] Hd'; [contradiction | apply Hmax; assumption].
      * intros l' [<- | Hl']; [exact E | apply IH; exact Hl'].
Qed.

(** A sample later than every stored sample of its driver is the latest
    one once appended. *)
Lemma latest_location_in_app (rows : list TruckLocation.t) (l : TruckLocation.t) :
  (forall l', In l' rows -> TruckLocation.driver_id l' = TruckLocation.driver_id l ->
     TruckLocation.timestamp l' < TruckLocation.timestamp l) ->
  Db.latest_location_in (rows ++ [l]) (TruckLocation.driver_id l) = Some l.
Proof.
  induction rows as [| r rows IH]; intros H; simpl.
  - rewrite Z.eqb_refl. reflexivity.
  - rewrite IH by (intros l' Hl'; apply H; right; exact Hl').
    destruct (TruckLocation.driver_id r =? TruckLocation.driver_id l) eqn:E;
      [| reflexivity].
    apply Z.eqb_eq in E. specialize (H r (or_introl eq_refl) E).
    apply Z.ltb_lt in H. rewrite H. reflexivity.
Qed.

(** X11. [get_driver_location] changes nothing. It answers with a stored
    sample of the driver asked for that no other sample of that driver is
    later than, and it raises 404 exactly when the driver has no sample. *)
Theorem get_driver_location_latest (s : Tracking.state) (driver_id : Z) (user : User.t) :
  snd (Tracking.get_driver_location driver_id user s) = s
  /\ match fst (Tracking.get_driver_location driver_id user s) with
     | Return location =>
         In location (Db.truck_locations (Tracking.db s))
         /\ TruckLocation.driver_id location = driver_id
         /\ (forall l, In l (Db.truck_locations (Tracking.db s)) ->
               TruckLocation.driver_id l = driver_id ->
               TruckLocation.timestamp l <= TruckLocation.timestamp location)
     | Raise e =>
         e = HTTPException 404 "No location data found for driver"
         /\ (forall l, In l (Db.truck_locations (Tracking.db s)) ->
               TruckLocation.driver_id l <> driver_id)
     end.
Proof.
  unfold Tracking.get_driver_location, bind, get, Db.latest_location.
  pose proof (latest_location_in_spec (Db.truck_locations (Tracking.db s)) driver_id) as H.
  destruct (Db.latest_location_in _ _) as [l |]; simpl.
  - split; [reflexivity | exact H].
  - split; [reflexivity |]. split; [reflexivity | exact H].
Qed.


Lemma mumbai_in_region : in_service_region 19 73.
Proof. unfold in_service_region. lra. Qed.


End DriverLocation.

(** ** The session of a driver socket *)

Section DriverSocket.
Import Py Spec Notions.
Local Open Scope Z_scope.

Lemma remove_app_fresh (ws : WebSocket.t) (l : list WebSocket.t) :
  ~ In ws l -> remove ws (l ++ [ws]) = Return l.
Proof.
  induction l as [| x l IH]; intros H; simpl.
  - rewrite decide_True by reflexivity. reflexivity.
  - destruct (decide (ws = x)) as [-> | _]; [destruct H; left; reflexivity |].
    rewrite IH by (intros Hin; apply H; right; exact Hin). reflexivity.
Qed.








End DriverSocket.

(** ** Who may read the position of a driver *)

Section LatestLocation.
Import Py Spec Notions.
Local Open Scope Z_scope.






End LatestLocation.

Section LocationRoundTrip.
Import Py Spec Notions.
Local Open Scope Z_scope.

(** X15. A sample inside the service region that a driver sends to
    [update_location] is stored under the id of the authenticated driver
    with the clock as its time and never fails; when that time is later
    than the stored samples of the driver, a later
    [get_latest_driver_location] of the driver answers with this sample,
    and its "time ago" text is that of the time gone by since. *)
Theorem location_update_then_latest (s : Location.state)
    (location : Location.LocationUpdate) (user : User.t) (now : Z) :
  Location.is_valid_india_location (Location.latitude location)
    (Location.longitude location) = true ->
  User.role user = UserRole.DRIVER ->
  Db.user_by_id (Location.db s) (User.id user) = Some user ->
  (forall l, In l (Db.truck_locations (Location.db s)) ->
     TruckLocation.driver_id l = User.id user ->
     TruckLocation.timestamp l < Location.utcnow s) ->
  exists resp s1 latest s2,
    Location.update_location location user s = (Return resp, s1)
    /\ Location.get_latest_driver_location (User.id user) None None user (at_time now s1)
       = (Return (Some latest), s2)
    /\ Location.id (Location.response latest) = Location.id resp
    /\ Location.driver_id (Location.response latest) = User.id user
    /\ Location.resp_latitude (Location.response latest) = Location.latitude location
    /\ Location.resp_longitude (Location.response latest) = Location.longitude location
    /\ Location.timestamp (Location.response latest) = Location.utcnow s
    /\ Location.time_ago (Location.response latest)
       = Location.time_ago_of (now - Location.utcnow s).
Proof.
  intros Hvalid Hrole Huser Hlater.
  destruct s as [db ac w logs now0]. simpl in *.
  unfold Location.update_location, when, bind at 1. rewrite Hvalid. simpl.
  unfold try_except, bind at 1, get at 1. unfold bind at 1, put at 1.
  unfold bind at 1, Location.broadcast, bind at 1, get at 1. simpl.
  unfold Location.set_db. simpl.
  rewrite broadcast_each_spec.
  unfold bind, Location.log, modify, ret. simpl.
  eexists _, _, _, _. split; [reflexivity |].
  unfold Location.get_latest_driver_location, at_time, bind, get, ret. simpl.
  rewrite Hrole. simpl. rewrite Z.eqb_refl. simpl.
  unfold Db.latest_location. simpl.
  match goal with
  | |- context [Db.latest_location_in (?rows ++ [?l]) _] =>
      pose proof (latest_location_in_app rows l) as H
  end.
  simpl in H. rewrite H by exact Hlater. clear H.
  change (Db.user_by_id (Db.add_location ?l db) ?u) with (Db.user_by_id db u).
  rewrite Huser. simpl.
  split; [reflexivity |]. simpl. repeat split.
Qed.

Lemma location_update_then_latest_witness :
  exists resp s1 latest s2,
    Location.update_location
      {| Location.latitude := 19%R; Location.longitude := 73%R;
         Location.accuracy := None; Location.speed := None;
         Location.heading := None |} driver_user
      (location_state (sample_db []) [1%nat] open_wire)
    = (Return resp, s1)
    /\ Location.get_latest_driver_location 7 None None driver_user (at_time 90 s1)
       = (Return (Some latest), s2)
    /\ Location.time_ago (Location.response latest) = "1 min ago".
Proof.
  destruct (location_update_then_latest
              (location_state (sample_db []) [1%nat] open_wire)
              {| Location.latitude := 19%R; Location.longitude := 73%R;
                 Location.accuracy := None; Location.speed := None;
                 Location.heading := None |} driver_user 90)
    as (resp & s1 & latest & s2 & E1 & E2 & _ & _ & _ & _ & _ & Hago).
  - apply location_valid_iff. exact mumbai_in_region.
  - reflexivity.
  - reflexivity.
  - intros l [].
  - exists resp, s1, latest, s2. split; [exact E1 |]. split; [exact E2 |].
    rewrite Hago. reflexivity.
Defined.

End LocationRoundTrip.

(** ** The notification sockets *)

Section NotificationSockets.
Import Py Spec Notions.
Local Open Scope Z_scope.

Lemma remove_each_user_spec (user_id : Z) (d l : list WebSocket.t)
    (ac : gmap Z (list WebSocket.t)) (rc : gmap string (list WebSocket.t))
    (w : WebSocket.wire) :
  ac !! user_id = Some l ->
  NotificationBroadcast.remove_each_user user_id d
    {| NotificationBroadcast.active_connections := ac;
       NotificationBroadcast.role_connections := rc;
       NotificationBroadcast.wire := w |}
  = (Return tt,
     {| NotificationBroadcast.active_connections := <[user_id := prune d l]> ac;
        NotificationBroadcast.role_connections := rc;
        NotificationBroadcast.wire := w |}).
Proof.
  revert l ac. induction d as [| ws d IH]; intros l ac Hl.
  - simpl. unfold ret, prune. simpl. rewrite insert_id by exact Hl. reflexivity.
  - simpl. unfold bind at 1, try_except, bind, get, lift, put, ret. simpl.
    rewrite Hl. unfold prune. simpl.
    destruct (remove ws l) as [l' | e]; simpl.
    + unfold NotificationBroadcast.set_active_connections. simpl.
      rewrite (IH l' (<[user_id := l']> ac)) by apply lookup_insert_eq.
      rewrite insert_insert_eq. reflexivity.
    + rewrite (IH l ac Hl). reflexivity.
Qed.

Lemma send_to_user_spec (user_id : Z) (msg : WebSocket.message)
    (self : NotificationBroadcast.NotificationConnectionManager) :
  exists self',
    NotificationBroadcast.send_to_user user_id msg self = (Return tt, self')
    /\ NotificationBroadcast.role_connections self'
       = NotificationBroadcast.role_connections self
    /\ WebSocket.closed (NotificationBroadcast.wire self')
       = WebSocket.closed (NotificationBroadcast.wire self)
    /\ (forall u, u <> user_id ->
          NotificationBroadcast.active_connections self' !! u
          = NotificationBroadcast.active_connections self !! u)
    /\ match NotificationBroadcast.active_connections self !! user_id with
       | None => self' = self
       | Some conns =>
           WebSocket.sent (NotificationBroadcast.wire self')
           = WebSocket.sent (NotificationBroadcast.wire self)
             ++ deliveries (alive (NotificationBroadcast.wire self) conns) msg
           /\ NotificationBroadcast.active_connections self'
              = <[user_id := alive (NotificationBroadcast.wire self) conns]>
                  (NotificationBroadcast.active_connections self)
       end.
Proof.
  destruct self as [ac rc w].
  unfold NotificationBroadcast.send_to_user, bind at 1, get. simpl.
  destruct (ac !! user_id) as [conns |] eqn:Hl.
  - unfold bind. rewrite send_each_spec. simpl.
    rewrite (remove_each_user_spec user_id _ conns) by exact Hl.
    rewrite prune_failing. eexists. split; [reflexivity |]. simpl.
    split; [reflexivity |]. split; [reflexivity |].
    split; [intros u Hu; apply lookup_insert_ne; congruence |].
    split; reflexivity.
  - eexists. split; [reflexivity |]. simpl. auto.
Qed.

(** X16. [send_to_user] never raises. The message reaches, in order, every
    connection of the user on which the send succeeds; the connections on
    which it fails are taken out of the list of the user, which is kept
    even when it is left empty; the lists of the roles and of the other
    users are not touched, so a failed connection stays in the list of its
    role. *)
Theorem send_to_user_best_effort (user_id : Z) (msg : WebSocket.message)
    (self : NotificationBroadcast.NotificationConnectionManager) :
  exists self',
    NotificationBroadcast.send_to_user user_id msg self = (Return tt, self')
    /\ NotificationBroadcast.role_connections self'
       = NotificationBroadcast.role_connections self
    /\ WebSocket.closed (NotificationBroadcast.wire self')
       = WebSocket.closed (NotificationBroadcast.wire self)
    /\ (forall u, u <> user_id ->
          NotificationBroadcast.active_connections self' !! u
          = NotificationBroadcast.active_connections self !! u)
    /\ match NotificationBroadcast.active_connections self !! user_id with
       | None => self' = self
       | Some conns =>
           WebSocket.sent (NotificationBroadcast.wire self')
           = WebSocket.sent (NotificationBroadcast.wire self)
             ++ deliveries (alive (NotificationBroadcast.wire self) conns) msg
           /\ NotificationBroadcast.active_connections self' !! user_id
              = Some (alive (NotificationBroadcast.wire self) conns)
       end.
Proof.
  destruct (send_to_user_spec user_id msg self) as (self' & E & H1 & H2 & H3 & H4).
  exists self'. split; [exact E |]. split; [exact H1 |]. split; [exact H2 |].
  split; [exact H3 |].
  destruct (NotificationBroadcast.active_connections self !! user_id) as [conns |];
    [| exact H4].
  destruct H4 as [Hs Ha]. split; [exact Hs |]. rewrite Ha. apply lookup_insert_eq.
Qed.

Lemma broadcast_to_role_sent (role : string) (msg : WebSocket.message)
    (self : NotificationBroadcast.NotificationConnectionManager) :
  exists self',
    NotificationBroadcast.broadcast_to_role role msg self = (Return tt, self')
    /\ NotificationBroadcast.active_connections self'
       = NotificationBroadcast.active_connections self
    /\ WebSocket.sent (NotificationBroadcast.wire self')
       = WebSocket.sent (NotificationBroadcast.wire self)
         ++ deliveries
              (alive (NotificationBroadcast.wire self)
                 (default [] (NotificationBroadcast.role_connections self !! role)))
              msg.
Proof.
  destruct self as [ac rc w].
  unfold NotificationBroadcast.broadcast_to_role, bind at 1, get. simpl.
  destruct (rc !! role) as [conns |] eqn:Hl.
  - unfold bind. rewrite send_each_spec. simpl.
    rewrite (remove_each_role_spec role _ conns) by exact Hl.
    eexists. split; [reflexivity |]. simpl. auto.
  - eexists. split; [reflexivity |]. simpl.
    unfold alive, deliveries. simpl. rewrite app_nil_r. auto.
Qed.

(** X17. [broadcast_notification] never raises, and one payload goes to
    the open connections of the recipients and to no other connection: the
    connections of the user when a user is named, even if a role is named
    as well; those of the role when only a role is named; none when
    neither is. *)
Theorem notification_reaches_its_recipients (notification_id : Z)
    (notification_type title message : string) (user_id : option Z)
    (role : option string) (order_id : option Z)
    (self : NotificationBroadcast.NotificationConnectionManager) :
  exists self' payload,
    NotificationBroadcast.broadcast_notification notification_id notification_type
      title message user_id role order_id self
    = (Return tt, self')
    /\ WebSocket.sent (NotificationBroadcast.wire self')
       = WebSocket.sent (NotificationBroadcast.wire self)
         ++ deliveries
              (alive (NotificationBroadcast.wire self) (recipients self user_id role))
              payload.
Proof.
  unfold NotificationBroadcast.broadcast_notification, recipients. cbv zeta.
  destruct (truthy_int user_id).
  - match goal with
    | |- context [NotificationBroadcast.send_to_user ?u ?p self] =>
        destruct (send_to_user_spec u p self) as (self' & E & _ & _ & _ & H)
    end.
    exists self'. eexists. split; [exact E |].
    destruct (NotificationBroadcast.active_connections self !! default 0 user_id)
      as [conns |]; simpl.
    + apply H.
    + subst self'. unfold alive, deliveries. simpl. rewrite app_nil_r. reflexivity.
  - destruct (truthy_str role).
    + match goal with
      | |- context [NotificationBroadcast.broadcast_to_role ?r ?p self] =>
          destruct (broadcast_to_role_sent r p self) as (self' & E & _ & H)
      end.
      exists self'. eexists. split; [exact E | exact H].
    + exists self, []. split; [reflexivity |].
      unfold alive, deliveries. simpl. rewrite app_nil_r. reflexivity.
Qed.

(** X18. [disconnect] undoes [connect]: a connection that was not yet in
    the list of its user nor in the list of its role leaves the registry
    exactly as it was, provided the user was not left registered with an
    empty list (which [disconnect] would delete). *)
Theorem connect_then_disconnect (websocket : WebSocket.t) (user_id : Z) (role : string)
    (self : NotificationBroadcast.NotificationConnectionManager) :
  ~ In websocket (default [] (NotificationBroadcast.active_connections self !! user_id)) ->
  ~ In websocket (default [] (NotificationBroadcast.role_connections self !! role)) ->
  NotificationBroadcast.active_connections self !! user_id <> Some [] ->
  (NotificationBroadcast.connect websocket user_id role ;;;
   NotificationBroadcast.disconnect websocket user_id role) self
  = (Return tt, self).
Proof.
  destruct self as [ac rc w]. simpl. intros Hu Hr Hne.
  assert (Hac :
    match default [] (ac !! user_id) with
    | [] => delete user_id (<[user_id := default [] (ac !! user_id) ++ [websocket]]> ac)
    | _ :: _ =>
        <[user_id := default [] (ac !! user_id)]>
          (<[user_id := default [] (ac !! user_id) ++ [websocket]]> ac)
    end = ac).
  { destruct (ac !! user_id) as [[| x l] |] eqn:E; simpl.
    - congruence.
    - rewrite insert_insert_eq. apply insert_id. exact E.
    - rewrite delete_insert_eq. apply delete_id. exact E. }
  unfold NotificationBroadcast.connect, NotificationBroadcast.disconnect,
    bind, modify, get, try_except, lift, put, ret. simpl.
  destruct (rc !! role) as [l |] eqn:E; simpl in Hr |- *;
    rewrite lookup_insert_eq, (remove_app_fresh _ _ Hu); simpl; rewrite Hac.
  - rewrite lookup_insert_eq, (remove_app_fresh _ _ Hr). simpl.
    unfold NotificationBroadcast.set_role_connections. simpl.
    rewrite insert_insert_eq, (insert_id _ _ _ E). reflexivity.
  - rewrite E. reflexivity.
Qed.

Lemma connect_then_disconnect_witness :
  (NotificationBroadcast.connect 1%nat 7 "driver" ;;;
   NotificationBroadcast.disconnect 1%nat 7 "driver")
    (NotificationBroadcast.init open_wire)
  = (Return tt, NotificationBroadcast.init open_wire).
Proof.
  apply (connect_then_disconnect 1%nat 7 "driver" (NotificationBroadcast.init open_wire)).
  - intros [].
  - intros [].
  - discriminate.
Defined.

(** X19. What [send_to_user] prunes does not show in the connection
    statistics: [total_users] and the counts by role are the same before
    and after, so a user whose connections have all failed is still
    counted. *)
Theorem pruning_keeps_user_counted (user_id : Z) (msg : WebSocket.message)
    (self : NotificationBroadcast.NotificationConnectionManager) :
  NotificationBroadcast.get_connection_count
    (snd (NotificationBroadcast.send_to_user user_id msg self))
  = NotificationBroadcast.get_connection_count self.
Proof.
  destruct (send_to_user_spec user_id msg self) as (self' & E & Hr & _ & _ & H).
  rewrite E. simpl. unfold NotificationBroadcast.get_connection_count. rewrite Hr.
  f_equal.
  destruct (NotificationBroadcast.active_connections self !! user_id) as [conns |] eqn:Hl.
  - destruct H as [_ ->]. apply map_size_insert_Some. rewrite Hl. eexists. reflexivity.
  - subst self'. reflexivity.
Qed.

End NotificationSockets.

(** ** A recalculation that fails *)

Section FailedRecalculation.
Import Py Spec Notions.
Local Open Scope Z_scope.

Lemma get_alternative_routes_unusable (w : Distance.net) (lat1 lon1 lat2 lon2 timeout : R) :
  no_usable_result
    (Distance.provider w (length (Distance.calls w))
       (Distance.alternatives_request lat1 lon1 lat2 lon2 timeout)) ->
  Distance.get_alternative_routes lat1 lon1 lat2 lon2 timeout w
  = (Return [],
     {| Distance.provider := Distance.provider w;
        Distance.calls :=
          Distance.calls w ++ [Distance.alternatives_request lat1 lon1 lat2 lon2 timeout] |}).
Proof.
  unfold Distance.get_alternative_routes, try_except, bind, Distance.http_get, ret.
  destruct (Distance.provider w _ _) as [sc data | |]; simpl; try reflexivity.
  intros [Hsc | Hr].
  - destruct (Z.eqb_spec sc 200); [contradiction | reflexivity].
  - rewrite Hr. destruct (sc =? 200)%Z; reflexivity.
Qed.

Lemma get_route_with_geometry_unusable (w : Distance.net)
    (lat1 lon1 lat2 lon2 timeout : R) :
  no_usable_result
    (Distance.provider w (length (Distance.calls w))
       (Distance.geometry_request lat1 lon1 lat2 lon2 timeout)) ->
  Distance.get_route_with_geometry lat1 lon1 lat2 lon2 timeout w
  = (Return (None, None, None),
     {| Distance.provider := Distance.provider w;
        Distance.calls :=
          Distance.calls w ++ [Distance.geometry_request lat1 lon1 lat2 lon2 timeout] |}).
Proof.
  unfold Distance.get_route_with_geometry, try_except, bind, Distance.http_get, ret.
  destruct (Distance.provider w _ _) as [sc data | |]; simpl; try reflexivity.
  intros [Hsc | Hr].
  - destruct (Z.eqb_spec sc 200); [contradiction | reflexivity].
  - rewrite Hr. destruct (sc =? 200)%Z; reflexivity.
Qed.

(** X20. A recalculation for which the provider gives no usable route
    fails with a 404, after two requests to the provider, but not without
    effect: by then the cached route of the order has been dropped and its
    selected-route index reset to 0, and they stay so. The session is
    untouched. *)
Theorem failed_recalculation_resets (s : Tracking.state) (oid : Z)
    (request : Tracking.RecalculateRouteRequest) (user : User.t) (order : Order.t)
    (customer_lat customer_lng : R) :
  Db.order_by_id (Tracking.db s) oid = Some order ->
  (User.role user = UserRole.DRIVER -> Order.driver_id order = Some (User.id user)) ->
  Tracking.customer_coordinates_or_profile (Tracking.db s) order
  = (Some customer_lat, Some customer_lng) ->
  customer_lat <> 0%R -> customer_lng <> 0%R ->
  (forall n rq, no_usable_result (Distance.provider (Tracking.osrm s) n rq)) ->
  exists s',
    Tracking.recalculate_route oid request user s
    = (Raise (HTTPException 404 "Could not calculate new routes"), s')
    /\ Tracking.route_cache s' !! oid = None
    /\ Tracking.selected_route_cache s' !! oid = Some 0
    /\ Tracking.db s' = Tracking.db s
    /\ length (Distance.calls (Tracking.osrm s'))
       = (length (Distance.calls (Tracking.osrm s)) + 2)%nat.
Proof.
  intros Hfind Hown Hcoords Hlat Hlng Hsilent.
  unfold Tracking.recalculate_route, bind, get, when, raise, ret, modify,
    Tracking.routing, zoom.
  rewrite Hfind, Hcoords.
  assert (Hguard : bool_decide (User.role user = UserRole.DRIVER)
                   && bool_decide (Order.driver_id order <> Some (User.id user)) = false).
  { destruct (bool_decide (User.role user = UserRole.DRIVER)) eqn:Hrole; [| reflexivity].
    apply bool_decide_eq_true in Hrole. simpl.
    apply bool_decide_eq_false. intros Hne. apply Hne, Hown, Hrole. }
  rewrite Hguard. unfold Tracking.float_if_truthy.
  rewrite !truthy_float_true by assumption. simpl.
  set (s1 := match Tracking.route_cache s !! oid with
             | Some _ => Tracking.set_route_cache (delete oid (Tracking.route_cache s)) s
             | None => s
             end).
  assert (Hs1 : Tracking.route_cache s1 !! oid = None
                /\ Tracking.osrm s1 = Tracking.osrm s /\ Tracking.db s1 = Tracking.db s).
  { unfold s1. destruct (Tracking.route_cache s !! oid) eqn:Hc; simpl.
    - split; [apply lookup_delete_eq | auto].
    - auto. }
  destruct Hs1 as (Hc1 & Ho1 & Hd1).
  rewrite get_alternative_routes_unusable by (rewrite Ho1; apply Hsilent).
  simpl.
  rewrite get_route_with_geometry_unusable by (simpl; rewrite Ho1; apply Hsilent).
  simpl. eexists. split; [reflexivity |]. simpl.
  split; [exact Hc1 |]. split; [apply lookup_insert_eq |]. split; [exact Hd1 |].
  rewrite Ho1, !length_app. simpl. lia.
Qed.

Lemma failed_recalculation_resets_witness :
  exists s',
    Tracking.recalculate_route 1
      {| Tracking.driver_lat := 19%R; Tracking.driver_lng := 73%R |} admin_user
      (cached_state silent_net)
    = (Raise (HTTPException 404 "Could not calculate new routes"), s')
    /\ Tracking.route_cache s' !! 1 = None
    /\ Tracking.selected_route_cache s' !! 1 = Some 0.
Proof.
  destruct (failed_recalculation_resets (cached_state silent_net) 1
              {| Tracking.driver_lat := 19%R; Tracking.driver_lng := 73%R |} admin_user
              {| Order.id := 1; Order.customer_id := 10; Order.driver_id := Some 7;
                 Order.status := OrderStatus.ASSIGNED; Order.delivery_time := None;
                 Order.otp := Some "482913"; Order.signature := None;
                 Order.delivery_address := None;
                 Order.delivery_gps_lat := Some 19.2%R;
                 Order.delivery_gps_long := Some 73.1%R |}
              19.2%R 73.1%R)
    as (s' & E & H1 & H2 & _).
  - reflexivity.
  - discriminate.
  - cbv beta iota zeta delta [Tracking.customer_coordinates_or_profile
                                Order.delivery_gps_lat Order.delivery_gps_long].
    rewrite !truthy_float_true by lra. reflexivity.
  - lra.
  - lra.
  - intros n rq. exact I.
  - exists s'. auto.
Defined.

End FailedRecalculation.

(** ** The read state of notifications *)

Section ReadState.
Import Py NotificationRead Notions.
Local Open Scope Z_scope.

Lemma unread_count_split (u : Z) (r : string) (rows : list row) :
  get_unread_count u r rows
  = (Return (personal_unread u rows + broadcast_unread r rows)%nat, rows).
Proof.
  unfold get_unread_count, bind, get, ret, personal_unread, broadcast_unread.
  f_equal. f_equal.
  induction rows as [| n rows IH]; [reflexivity |].
  simpl. unfold addressed_to in *.
  destruct (NotificationRead.user_id n) as [v |] eqn:Hv.
  - rewrite (bool_decide_eq_false_2 (Some v = None)) by discriminate.
    simpl. rewrite orb_false_r.
    destruct (bool_decide (Some v = Some u)), (is_read n); simpl; lia.
  - rewrite (bool_decide_eq_false_2 (None = Some u)) by discriminate.
    rewrite (bool_decide_eq_true_2 (None = None)) by reflexivity.
    simpl. destruct (String.eqb (role n) r), (is_read n); simpl; lia.
Qed.

Lemma mark_all_as_read_run (u : Z) (r : string) (rows : list row) :
  mark_all_as_read u r rows
  = (Return (personal_unread u rows),
     map (fun n => if bool_decide (NotificationRead.user_id n = Some u)
                      && negb (is_read n)
                   then set_is_read true n else n) rows).
Proof. reflexivity. Qed.

Lemma length_filter_map (P Q : row -> bool) (f : row -> row) (rows : list row) :
  (forall n, In n rows -> P (f n) = Q n) ->
  length (List.filter P (map f rows)) = length (List.filter Q rows).
Proof.
  induction rows as [| n rows IH]; intros H; [reflexivity |].
  simpl. rewrite H by (left; reflexivity).
  destruct (Q n); simpl; rewrite IH by (intros; apply H; right; assumption); reflexivity.
Qed.

Lemma length_filter_none (rows : list row) :
  length (List.filter (fun _ : row => false) rows) = 0%nat.
Proof. induction rows; [reflexivity | assumption]. Qed.

Lemma personal_unread_after (u u' : Z) (rows : list row) :
  personal_unread u'
    (map (fun n => if bool_decide (NotificationRead.user_id n = Some u)
                      && negb (is_read n)
                   then set_is_read true n else n) rows)
  = if decide (u' = u) then 0%nat else personal_unread u' rows.
Proof.
  unfold personal_unread. destruct (decide (u' = u)) as [-> | Hne].
  - rewrite <- (length_filter_none rows). apply length_filter_map.
    intros n _. destruct (bool_decide (NotificationRead.user_id n = Some u)) eqn:Hu;
      destruct (is_read n) eqn:Hr; simpl; rewrite ?Hu, ?Hr; reflexivity.
  - apply length_filter_map.
    intros n _. destruct (bool_decide (NotificationRead.user_id n = Some u)) eqn:Hu;
      destruct (is_read n) eqn:Hr; simpl; rewrite ?Hr; try reflexivity.
    apply bool_decide_eq_true in Hu. rewrite Hu.
    rewrite bool_decide_eq_false_2 by congruence. rewrite ?andb_false_r. reflexivity.
Qed.

Lemma broadcast_unread_after (u : Z) (r : string) (rows : list row) :
  broadcast_unread r
    (map (fun n => if bool_decide (NotificationRead.user_id n = Some u)
                      && negb (is_read n)
                   then set_is_read true n else n) rows)
  = broadcast_unread r rows.
Proof.
  unfold broadcast_unread. apply length_filter_map.
  intros n _. destruct (bool_decide (NotificationRead.user_id n = Some u)) eqn:Hu;
    destruct (is_read n) eqn:Hr; simpl; rewrite ?Hr; try reflexivity.
  apply bool_decide_eq_true in Hu. rewrite Hu.
  rewrite bool_decide_eq_false_2 by discriminate. rewrite ?andb_false_r. reflexivity.
Qed.

(** X21. [mark_all_as_read] returns the number of unread rows addressed
    to the user in person and marks exactly those: the rows keep their ids,
    the counts of every other user are as before, and the unread count of
    the user afterwards is not 0 but the number of unread rows broadcast to
    their role, which [get_unread_count] counts and [mark_all_as_read]
    leaves alone. *)
Theorem mark_all_leaves_broadcasts_unread (u : Z) (r : string) (rows : list row) :
  exists rows',
    mark_all_as_read u r rows = (Return (personal_unread u rows), rows')
    /\ get_unread_count u r rows' = (Return (broadcast_unread r rows), rows')
    /\ (forall u' r', u' <> u ->
          fst (get_unread_count u' r' rows') = fst (get_unread_count u' r' rows))
    /\ map id rows' = map id rows.
Proof.
  eexists. split; [apply mark_all_as_read_run |].
  split; [| split].
  - rewrite unread_count_split, personal_unread_after, broadcast_unread_after.
    rewrite decide_True by reflexivity. reflexivity.
  - intros u' r' Hne.
    rewrite !unread_count_split, personal_unread_after, broadcast_unread_after.
    rewrite decide_False by exact Hne. reflexivity.
  - rewrite map_map. apply map_ext. intros n. destruct (_ && _); reflexivity.
Qed.

(** Marking the one row with the id of [n] as read takes one row out of a
    count that [n] was part of. *)
Lemma count_without (P : row -> bool) (n : row) (rows : list row) :
  NoDup (map id rows) -> In n rows ->
  P n = true -> P (set_is_read true n) = false ->
  S (length (List.filter P
               (map (fun r => if id r =? id n then set_is_read true r else r) rows)))
  = length (List.filter P rows).
Proof.
  intros Hnd Hin Hn Hn'. induction rows as [| x rows IH]; [destruct Hin |].
  simpl in Hnd. apply NoDup_cons in Hnd as [Hx Hnd].
  destruct Hin as [-> | Hin].
  - simpl. rewrite Z.eqb_refl, Hn, Hn'. simpl. f_equal.
    apply length_filter_map. intros y Hy.
    destruct (id y =? id n) eqn:E; [| reflexivity].
    apply Z.eqb_eq in E. destruct Hx. rewrite <- E.
    apply list_elem_of_In, in_map, Hy.
  - simpl. destruct (id x =? id n) eqn:E.
    + apply Z.eqb_eq in E. destruct Hx. rewrite E.
      apply list_elem_of_In, in_map, Hin.
    + destruct (P x); simpl; rewrite <- (IH Hnd Hin); reflexivity.
Qed.

Lemma mark_as_read_cases (nid u : Z) (r : string) (rows : list row) :
  (exists n,
      In n rows /\ id n = nid /\ addressed_to u r n = true
      /\ mark_as_read nid u r rows
         = (Return true,
            map (fun x => if id x =? nid then set_is_read true x else x) rows))
  \/ ((forall n, In n rows -> id n = nid -> addressed_to u r n = false)
      /\ mark_as_read nid u r rows = (Return false, rows)).
Proof.
  unfold mark_as_read, bind, get, put, ret.
  destruct (find _ rows) as [n |] eqn:E.
  - apply find_some in E as [Hin H]. apply andb_true_iff in H as [Hid Ha].
    apply Z.eqb_eq in Hid. left. exists n. rewrite Hid. auto.
  - right. split; [| reflexivity].
    intros n Hin Hid. pose proof (find_none _ _ E n Hin) as H. simpl in H.
    rewrite Hid, Z.eqb_refl in H. exact H.
Qed.

(** X22. [mark_as_read] answers true exactly when a row with the id asked
    for is addressed to the caller, in person or through a broadcast to
    their role; then every row with that id is read afterwards. When it
    answers false, as for a notification addressed to someone else,
    nothing changes. The rows keep their ids either way. *)
Theorem mark_as_read_own_or_broadcast (nid u : Z) (r : string) (rows : list row) :
  exists b rows',
    mark_as_read nid u r rows = (Return b, rows')
    /\ (b = true <-> exists n, In n rows /\ id n = nid /\ addressed_to u r n = true)
    /\ (b = false -> rows' = rows)
    /\ (b = true -> forall n, In n rows' -> id n = nid -> is_read n = true)
    /\ map id rows' = map id rows.
Proof.
  destruct (mark_as_read_cases nid u r rows) as [(n & Hin & Hid & Ha & E) | [H E]];
    rewrite E; eexists _, _; (split; [reflexivity |]).
  - split; [split; [eauto | reflexivity] |]. split; [discriminate |]. split.
    + intros _ m Hm Hmid. apply in_map_iff in Hm as (x & <- & Hx).
      destruct (id x =? nid) eqn:Ex; [reflexivity |].
      rewrite Hmid in Ex. rewrite Z.eqb_refl in Ex. discriminate.
    + rewrite map_map. apply map_ext. intros x. destruct (id x =? nid); reflexivity.
  - split; [split; [discriminate |] |].
    + intros (n & Hin & Hid & Ha). rewrite (H n Hin Hid) in Ha. discriminate.
    + split; [reflexivity |]. split; [discriminate | reflexivity].
Qed.

(** X23. The read state of a broadcast is shared: when one user marks an
    unread notification broadcast to their role as read, the unread count
    of every user of that role goes down by one. *)
Theorem broadcast_read_is_shared (n : row) (u u' : Z) (rows : list row) :
  NoDup (map id rows) -> In n rows ->
  NotificationRead.user_id n = None -> is_read n = false ->
  exists rows' k,
    mark_as_read (id n) u (role n) rows = (Return true, rows')
    /\ get_unread_count u' (role n) rows = (Return (S k), rows)
    /\ get_unread_count u' (role n) rows' = (Return k, rows').
Proof.
  intros Hnd Hin Hu Hr.
  destruct (mark_as_read_cases (id n) u (role n) rows)
    as [(m & Hm & Hid & Ha & E) | [H _]].
  2: { specialize (H n Hin eq_refl). unfold addressed_to in H.
       rewrite Hu, String.eqb_refl in H.
       rewrite (bool_decide_eq_true_2 (None = None)) in H by reflexivity.
       rewrite orb_true_r in H. discriminate. }
  rewrite E. eexists _, _. split; [reflexivity |].
  unfold get_unread_count, bind, get, ret. split; [| reflexivity].
  f_equal. f_equal. symmetry.
  apply (count_without (fun x => addressed_to u' (role n) x && negb (is_read x)));
    [exact Hnd | exact Hin | |].
  - unfold addressed_to. rewrite Hu, Hr, String.eqb_refl.
    rewrite (bool_decide_eq_true_2 (None = None)) by reflexivity.
    rewrite orb_true_r. reflexivity.
  - simpl. apply andb_false_r.
Qed.

Lemma broadcast_read_is_shared_witness :
  exists rows' k,
    mark_as_read 1 7 "driver"
      [ {| id := 1; user_id := None; role := "driver"; is_read := false |};
        {| id := 2; user_id := Some 8; role := "driver"; is_read := false |} ]
    = (Return true, rows')
    /\ get_unread_count 8 "driver"
         [ {| id := 1; user_id := None; role := "driver"; is_read := false |};
           {| id := 2; user_id := Some 8; role := "driver"; is_read := false |} ]
       = (Return (S k),
          [ {| id := 1; user_id := None; role := "driver"; is_read := false |};
            {| id := 2; user_id := Some 8; role := "driver"; is_read := false |} ])
    /\ get_unread_count 8 "driver" rows' = (Return k, rows').
Proof.
  apply (broadcast_read_is_shared
           {| id := 1; user_id := None; role := "driver"; is_read := false |} 7 8
           [ {| id := 1; user_id := None; role := "driver"; is_read := false |};
             {| id := 2; user_id := Some 8; role := "driver"; is_read := false |} ]).
  - simpl. apply NoDup_cons. split; [| apply NoDup_singleton].
    intros H. apply list_elem_of_In in H. destruct H as [H | []]. discriminate.
  - left. reflexivity.
  - reflexivity.
  - reflexivity.
Defined.

End ReadState.

(** ** The status an order is left in *)

Section OrderTransitions.
Import Py Spec Orders Notions.
Local Open Scope Z_scope.

Lemma apply_updates_status (request : OrderUpdate) (order : Order.t) :
  Order.status (apply_updates request order) = final_status request order.
Proof.
  unfold apply_updates, final_status.
  destruct (status request) as [st |]; destruct (truthy_int (driver_id request));
    destruct (is_some (delivery_time request));
    destruct (truthy_str (signature request)); simpl;
    try destruct (bool_decide _); reflexivity.
Qed.

Lemma apply_updates_driver (request : OrderUpdate) (order : Order.t) :
  Order.driver_id (apply_updates request order)
  = if truthy_int (driver_id request) then driver_id request else Order.driver_id order.
Proof.
  unfold apply_updates.
  destruct (status request) as [st |]; destruct (truthy_int (driver_id request));
    destruct (is_some (delivery_time request));
    destruct (truthy_str (signature request)); simpl;
    try destruct (bool_decide _); reflexivity.
Qed.

(** X24. When [update_order] succeeds, the status it leaves is decided by
    this precedence, whatever the status before (no order of the states is
    enforced): a signature given with a status other than DELIVERED makes
    the order DELIVERED; otherwise a driver in the request makes it
    ASSIGNED to that driver, even when status DELIVERED was asked for and
    the delivery gate was passed; otherwise the status asked for, if any,
    is taken as it is. The row of the order holds the result. *)
Theorem update_order_final_status (db db' : Db.Session) (oid : Z) (request : OrderUpdate)
    (user : User.t) (order : Order.t) (resp : OrderResponse) :
  Db.order_by_id db oid = Some order ->
  update_order oid request user db = (Return resp, db') ->
  Order.status (Orders.order resp) = final_status request order
  /\ Order.driver_id (Orders.order resp)
     = (if truthy_int (driver_id request) then driver_id request
        else Order.driver_id order)
  /\ Db.order_by_id db' oid = Some (Orders.order resp).
Proof.
  intros Hfind Hrun.
  pose proof (update_order_cases db oid request user order Hfind) as H.
  assert (Hok : Orders.order resp = apply_updates request order
                /\ same_tables (Db.commit_order (apply_updates request order) db) db').
  { destruct (if bool_decide (status request = Some OrderStatus.IN_TRANSIT)
                 && bool_decide (User.role user = UserRole.DRIVER)
              then active_delivery_of db (User.id user) oid else None).
    - destruct H as (d & E). rewrite E in Hrun. discriminate.
    - destruct (bool_decide (status request = Some OrderStatus.DELIVERED)
                || is_some (signature request));
        [destruct (negb (truthy_str (otp_input request))
                   || bool_decide (otp_input request <> Order.otp order)
                   || (Db.receipt_count db oid =? 0)%nat) |];
        try (destruct H as (d & E); rewrite E in Hrun; discriminate);
        destruct H as (resp0 & db0 & E & H1 & H2); rewrite E in Hrun;
        injection Hrun as <- <-; auto. }
  destruct Hok as [-> (So & _)].
  split; [apply apply_updates_status |]. split; [apply apply_updates_driver |].
  unfold Db.order_by_id. rewrite So.
  apply (order_by_id_commit db oid order); [exact Hfind |].
  rewrite apply_updates_id. apply (order_by_id_id _ _ _ Hfind).
Qed.

Lemma update_order_final_status_witness :
  exists resp db',
    update_order 1
      (update_request (Some OrderStatus.DELIVERED) (Some 7) None (Some "482913"))
      admin_user (sample_db [ {| Receipt.id := 1; Receipt.order_id := 1 |} ])
    = (Return resp, db')
    /\ Order.status (Orders.order resp) = OrderStatus.ASSIGNED.
Proof.
  destruct (update_order 1
              (update_request (Some OrderStatus.DELIVERED) (Some 7) None (Some "482913"))
              admin_user (sample_db [ {| Receipt.id := 1; Receipt.order_id := 1 |} ]))
    as [[resp | e] db'] eqn:E.
  - exists resp, db'. split; [reflexivity |].
    destruct (update_order_final_status
                (sample_db [ {| Receipt.id := 1; Receipt.order_id := 1 |} ]) db' 1
                (update_request (Some OrderStatus.DELIVERED) (Some 7) None (Some "482913"))
                admin_user (sample_order 1 (Some 7) OrderStatus.ASSIGNED) resp
                eq_refl E) as (H & _).
    rewrite H. reflexivity.
  - vm_compute in E. discriminate.
Defined.

(** X25. [cancel_order] has no guard but the existence of the order:
    whatever the status of the order (DELIVERED and CANCELLED included)
    and whichever user the route lets in (a customer need not own the
    order), it succeeds, the order is CANCELLED, one notification is stored
    for the customer of the order (when the customer row exists) and one
    for its driver (when it has one), and nothing else of the session
    changes. *)
Theorem cancel_order_unconditional (db : Db.Session) (oid : Z) (user : User.t)
    (order : Order.t) :
  Db.order_by_id db oid = Some order ->
  exists db',
    cancel_order oid user db = (Return "Order cancelled successfully", db')
    /\ Db.order_by_id db' oid = Some (Order.set_status OrderStatus.CANCELLED order)
    /\ same_tables (Db.commit_order (Order.set_status OrderStatus.CANCELLED order) db) db'
    /\ Db.notifications db' = Db.notifications db ++ cancellation_notices db order.
Proof.
  intros Hfind. pose proof (order_by_id_id _ _ _ Hfind) as Hid.
  unfold cancel_order, bind, get, put, try_except, when, ret,
    NotificationService.create_notification, modify, cancellation_notices.
  rewrite Hfind. simpl.
  change (Db.customer_by_id
            (Db.commit_order (Order.set_status OrderStatus.CANCELLED order) db)
            (Order.customer_id order))
    with (Db.customer_by_id db (Order.customer_id order)).
  destruct (Db.customer_by_id db (Order.customer_id order)) as [c |];
    destruct (truthy_int (Order.driver_id order)); simpl;
    eexists; (split; [reflexivity |]);
    (split; [exact (order_by_id_commit db oid order
                      (Order.set_status OrderStatus.CANCELLED order) Hfind Hid) |]);
    (split; [unfold same_tables; simpl; repeat split |]);
    simpl; rewrite <- ?app_assoc, ?app_nil_r; reflexivity.
Qed.

Lemma cancel_order_unconditional_witness :
  exists db',
    cancel_order 2 customer_user (sample_db [])
    = (Return "Order cancelled successfully", db')
    /\ Db.order_by_id db' 2 = Some (sample_order 2 (Some 7) OrderStatus.CANCELLED)
    /\ length (Db.notifications db') = 2%nat.
Proof.
  destruct (cancel_order_unconditional (sample_db []) 2 customer_user
              (sample_order 2 (Some 7) OrderStatus.IN_TRANSIT) eq_refl)
    as (db' & E & Ho & _ & Hn).
  exists db'. split; [exact E |]. split; [exact Ho |].
  rewrite Hn. reflexivity.
Defined.

Lemma float_gt_false_iff (x y : R) : float_gt x y = false <-> (x <= y)%R.
Proof.
  unfold float_gt. destruct (Rgt_dec x y); split; intros; try discriminate; try lra;
    reflexivity.
Qed.

(** X26. [delete_order], the second handler on the DELETE route, is
    guarded: it succeeds only on a PENDING or ASSIGNED order, for a
    customer only on an order of their own, and only when no payment is
    recorded for the order. Then the order is CANCELLED, the amounts of its
    transaction are set to 0, and no notification is stored. Every refusal
    is a 404, 400 or 403 that leaves the session as it was. *)
Theorem delete_order_guarded (db : Db.Session) (oid : Z) (user : User.t) :
  match fst (delete_order oid user db) with
  | Return r =>
      exists order,
        Db.order_by_id db oid = Some order
        /\ (Order.status order = OrderStatus.PENDING
            \/ Order.status order = OrderStatus.ASSIGNED)
        /\ (User.role user = UserRole.CUSTOMER ->
            exists c, Db.customer_by_user_id db (User.id user) = Some c
                      /\ Order.customer_id order = Customer.id c)
        /\ (forall tr, Db.transaction_by_order db oid = Some tr ->
              (Transaction.paid tr <= 0)%R
              /\ In (Transaction.zero_out tr)
                    (Db.transactions (snd (delete_order oid user db))))
        /\ Db.order_by_id (snd (delete_order oid user db)) oid
           = Some (Order.set_status OrderStatus.CANCELLED order)
        /\ Db.notifications (snd (delete_order oid user db)) = Db.notifications db
  | Raise e =>
      snd (delete_order oid user db) = db
      /\ exists code detail,
           e = HTTPException code detail /\ (code = 404 \/ code = 400 \/ code = 403)
  end.
Proof.
  destruct (delete_order oid user db) as [res db'] eqn:Erun. simpl.
  unfold delete_order, bind, get, when, raise, ret, put in Erun.
  destruct (Db.order_by_id db oid) as [order |] eqn:Hfind.
  2: { injection Erun as <- <-. split; [reflexivity |]. eexists _, _. eauto. }
  pose proof (order_by_id_id _ _ _ Hfind) as Hid.
  destruct (bool_decide (Order.status order = OrderStatus.PENDING)
            || bool_decide (Order.status order = OrderStatus.ASSIGNED)) eqn:Hst;
    simpl in Erun.
  2: { injection Erun as <- <-. split; [reflexivity |]. eexists _, _. eauto. }
  apply orb_true_iff in Hst. rewrite !bool_decide_eq_true in Hst.
  assert (Htail :
    (User.role user = UserRole.CUSTOMER ->
     exists c, Db.customer_by_user_id db (User.id user) = Some c
               /\ Order.customer_id order = Customer.id c) ->
    (when (match Db.transaction_by_order db oid with
           | Some tr => float_gt (Transaction.paid tr) 0
           | None => false
           end)
       (raise (HTTPException 400
                 "Cannot cancel order with payments. Please contact admin for refund.")) ;;;
     put (match Db.transaction_by_order db oid with
          | Some tr =>
              Db.commit_transaction (Transaction.zero_out tr)
                (Db.commit_order (Order.set_status OrderStatus.CANCELLED order) db)
          | None => Db.commit_order (Order.set_status OrderStatus.CANCELLED order) db
          end) ;;;
     ret ("Order cancelled successfully", oid)) db = (res, db') ->
    match res with
    | Return _ =>
        exists order0,
          Some order = Some order0
          /\ (Order.status order0 = OrderStatus.PENDING
              \/ Order.status order0 = OrderStatus.ASSIGNED)
          /\ (User.role user = UserRole.CUSTOMER ->
              exists c, Db.customer_by_user_id db (User.id user) = Some c
                        /\ Order.customer_id order0 = Customer.id c)
          /\ (forall tr, Db.transaction_by_order db oid = Some tr ->
                (Transaction.paid tr <= 0)%R
                /\ In (Transaction.zero_out tr) (Db.transactions db'))
          /\ Db.order_by_id db' oid
             = Some (Order.set_status OrderStatus.CANCELLED order0)
          /\ Db.notifications db' = Db.notifications db
    | Raise e =>
        db' = db
        /\ exists code detail,
             e = HTTPException code detail /\ (code = 404 \/ code = 400 \/ code = 403)
    end).
  { intros Ho. unfold bind, when, raise, put, ret.
    destruct (Db.transaction_by_order db oid) as [tr |] eqn:Htr.
    - destruct (float_gt (Transaction.paid tr) 0) eqn:Hpaid; intros E.
      + injection E as <- <-. split; [reflexivity |]. eexists _, _. eauto.
      + injection E as <- <-. simpl.
        exists order. split; [reflexivity |]. split; [exact Hst |]. split; [exact Ho |].
        split; [| split; [| reflexivity]].
        * intros tr' [= <-]. split; [apply float_gt_false_iff; exact Hpaid |].
          apply in_map_iff. exists tr. rewrite Z.eqb_refl. split; [reflexivity |].
          unfold Db.transaction_by_order in Htr. apply find_some in Htr. apply Htr.
        * exact (order_by_id_commit db oid order
                   (Order.set_status OrderStatus.CANCELLED order) Hfind Hid).
    - intros E. injection E as <- <-. simpl.
      exists order. split; [reflexivity |]. split; [exact Hst |]. split; [exact Ho |].
      split; [| split; [| reflexivity]].
      + intros tr' [=].
      + exact (order_by_id_commit db oid order
                 (Order.set_status OrderStatus.CANCELLED order) Hfind Hid). }
  destruct (bool_decide (User.role user = UserRole.CUSTOMER)) eqn:Hrole.
  - destruct (Db.customer_by_user_id db (User.id user)) as [c |] eqn:Hc.
    + destruct (Order.customer_id order =? Customer.id c) eqn:Hcid; simpl in Erun.
      * apply Z.eqb_eq in Hcid. apply Htail; [eauto | exact Erun].
      * injection Erun as <- <-. split; [reflexivity |]. eexists _, _. eauto.
    + injection Erun as <- <-. split; [reflexivity |]. eexists _, _. eauto.
  - apply bool_decide_eq_false in Hrole. simpl in Erun.
    apply Htail; [intros; contradiction | exact Erun].
Qed.

End OrderTransitions.

(** ** The rate limiter as a sliding window *)

Section SlidingWindow.
Import Py RateLimiter Notions.
Local Open Scope R_scope.

Variable max_requests : Z.
Variable window_seconds : R.

Lemma since_app (c : R) (l1 l2 : list R) : since c (l1 ++ l2) = since c l1 ++ since c l2.
Proof. apply List.filter_app. Qed.

Lemma since_since (c c' : R) (l : list R) : c' <= c -> since c (since c' l) = since c l.
Proof.
  intros H. unfold since. induction l as [| x l IH]; [reflexivity |].
  simpl. destruct (float_gt x c') eqn:E1; simpl; destruct (float_gt x c) eqn:E2;
    rewrite ?IH; try reflexivity.
  apply float_gt_iff in E2. rewrite float_gt_true in E1 by lra. discriminate.
Qed.

Lemma cleanup_lookup (now : R) (self : t) (key : string) :
  default [] (requests (cleanup now self) !! key)
  = since (now - 300) (default [] (requests self !! key)).
Proof.
  unfold cleanup. simpl. rewrite lookup_omap.
  destruct (requests self !! key) as [times |]; simpl; [| reflexivity].
  unfold since. destruct (List.filter _ times); reflexivity.
Qed.

Lemma granted_snoc (key : string) (calls : list call) (outcomes : list bool)
    (c : call) (b : bool) :
  length calls = length outcomes ->
  granted key (calls ++ [c]) (outcomes ++ [b])
  = granted key calls outcomes
    ++ (if b && String.eqb (call_key c) key then [call_time c] else []).
Proof.
  revert outcomes. induction calls as [| c' calls IH]; intros [| b' outcomes] H;
    simpl in *; try discriminate.
  - rewrite app_nil_r. reflexivity.
  - rewrite IH by lia. rewrite app_assoc. reflexivity.
Qed.

Lemma is_allowed_step (self : t) (calls : list call) (outcomes : list bool)
    (T : R) (c : call) :
  length calls = length outcomes ->
  agrees window_seconds self calls outcomes T -> T <= call_time c ->
  within_kept window_seconds c ->
  exists b self',
    is_allowed (call_time c) (call_cleanup_time c) (call_key c)
      max_requests window_seconds self
    = (Return b, self')
    /\ (b = true <->
        (Z.of_nat (length (since (call_time c - window_seconds)
                             (granted (call_key c) calls outcomes)))
         < max_requests)%Z)
    /\ agrees window_seconds self' (calls ++ [c]) (outcomes ++ [b]) (call_time c).
Proof.
  destruct c as [now cnow key]. unfold within_kept. simpl.
  intros Hlen Hinv HT Hkept.
  unfold is_allowed, bind, get, put, ret.
  set (self1 := if float_gt (now - last_cleanup self) (cleanup_interval self)
                then {| requests := requests (cleanup cnow self);
                        cleanup_interval := cleanup_interval self;
                        last_cleanup := now |}
                else self).
  assert (H1 : forall k t, now <= t ->
            since (t - window_seconds) (default [] (requests self1 !! k))
            = since (t - window_seconds) (granted k calls outcomes)).
  { intros k t Ht. rewrite <- (Hinv k t) by lra.
    unfold self1. destruct (float_gt _ _); [| reflexivity].
    cbn [requests]. rewrite cleanup_lookup. apply since_since. lra. }
  fold (since (now - window_seconds) (default [] (requests self1 !! key))).
  rewrite (H1 key now) by lra.
  destruct (max_requests <=? _)%Z eqn:E.
  - apply Z.leb_le in E. eexists _, _. split; [reflexivity |].
    split; [split; [discriminate | lia] |].
    intros k t Ht. rewrite (granted_snoc _ _ _ _ _ Hlen).
    cbn [requests andb call_key call_time]. rewrite app_nil_r.
    destruct (decide (k = key)) as [-> | Hk].
    + rewrite lookup_insert_eq. cbv beta iota delta [from_option Datatypes.id].
      apply since_since. lra.
    + rewrite lookup_insert_ne by congruence. apply H1. exact Ht.
  - apply Z.leb_gt in E. eexists _, _. split; [reflexivity |].
    split; [split; [intros _; lia | reflexivity] |].
    intros k t Ht. rewrite (granted_snoc _ _ _ _ _ Hlen).
    cbn [requests andb call_key call_time].
    destruct (decide (k = key)) as [-> | Hk].
    + rewrite lookup_insert_eq, String.eqb_refl.
      cbv beta iota delta [from_option Datatypes.id].
      rewrite !since_app. f_equal. apply since_since. lra.
    + rewrite lookup_insert_ne by congruence.
      assert (String.eqb key k = false) as -> by (apply String.eqb_neq; congruence).
      rewrite app_nil_r. apply H1. exact Ht.
Qed.

Lemma agrees_init (now T : R) : agrees window_seconds (init now) [] [] T.
Proof. intros key t _. reflexivity. Qed.

Lemma serve_spec (calls prior : list call) (outcomes : list bool) (self : t) (T : R) :
  length prior = length outcomes ->
  agrees window_seconds self prior outcomes T ->
  ascending T (map call_time calls) ->
  Forall (within_kept window_seconds) calls ->
  exists outs self',
    serve max_requests window_seconds calls self = (Return outs, self')
    /\ length outs = length calls
    /\ forall i c b,
         calls !! i = Some c -> outs !! i = Some b ->
         (b = true <->
          (Z.of_nat (length (since (call_time c - window_seconds)
                               (granted (call_key c) (prior ++ take i calls)
                                  (outcomes ++ take i outs))))
           < max_requests)%Z).
Proof.
  revert prior outcomes self T.
  induction calls as [| c0 calls IH]; intros prior outcomes self T Hlen Hinv Hasc Hkept.
  - exists [], self. split; [reflexivity |]. split; [reflexivity |].
    intros i c b H. discriminate.
  - destruct Hasc as [HT Hasc]. simpl in HT.
    apply Forall_cons in Hkept. destruct Hkept as [Hk0 Hkept].
    destruct (is_allowed_step self prior outcomes T c0 Hlen Hinv HT Hk0)
      as (b & self1 & E1 & Hb & Hinv1).
    destruct (IH (prior ++ [c0]) (outcomes ++ [b]) self1 (call_time c0))
      as (outs & self2 & E2 & Hl2 & Hall);
      [rewrite !length_app; simpl; lia | exact Hinv1 | exact Hasc | exact Hkept |].
    simpl. unfold bind. rewrite E1, E2.
    exists (b :: outs), self2. split; [reflexivity |].
    split; [simpl; lia |].
    intros [| i] c b0 Hc Ho; simpl in Hc, Ho.
    + injection Hc as <-. injection Ho as <-.
      simpl. rewrite !app_nil_r. exact Hb.
    + specialize (Hall i c b0 Hc Ho). simpl.
      rewrite <- !app_assoc in Hall. exact Hall.
Qed.

End SlidingWindow.

Section RateLimit.
Import Py Notions.
Local Open Scope R_scope.

(** X27. The rate limiter is a sliding window. Of a series of requests
    whose times do not go back, served with one limit and one window that
    lies within the five minutes the cleanup keeps, a request is let through
    exactly when fewer than [max_requests] requests of its key were let
    through in the [window_seconds] before it; refused requests do not
    count, other keys do not count, and the periodic cleanup never changes
    a decision. *)
Theorem rate_limit_is_a_sliding_window (max_requests : Z) (window_seconds t0 : R)
    (calls : list call) :
  Forall (within_kept window_seconds) calls ->
  ascending t0 (map call_time calls) ->
  exists outs self',
    serve max_requests window_seconds calls (RateLimiter.init t0) = (Return outs, self')
    /\ length outs = length calls
    /\ forall i c b,
         calls !! i = Some c -> outs !! i = Some b ->
         (b = true <->
          (Z.of_nat (length (since (call_time c - window_seconds)
                               (granted (call_key c) (take i calls) (take i outs))))
           < max_requests)%Z).
Proof.
  intros Hkept Hasc.
  exact (serve_spec max_requests window_seconds calls [] [] (RateLimiter.init t0) t0
           eq_refl (agrees_init window_seconds t0 t0) Hasc Hkept).
Qed.

Lemma rate_limit_is_a_sliding_window_witness :
  exists outs self',
    serve 2 60
      [ {| call_time := 0; call_cleanup_time := 0; call_key := "10.0.0.1" |};
        {| call_time := 1; call_cleanup_time := 1; call_key := "10.0.0.1" |};
        {| call_time := 62; call_cleanup_time := 63; call_key := "10.0.0.1" |} ]
      (RateLimiter.init 0)
    = (Return outs, self')
    /\ length outs = 3%nat.
Proof.
  destruct (rate_limit_is_a_sliding_window 2 60 0
              [ {| call_time := 0; call_cleanup_time := 0; call_key := "10.0.0.1" |};
                {| call_time := 1; call_cleanup_time := 1; call_key := "10.0.0.1" |};
                {| call_time := 62; call_cleanup_time := 63; call_key := "10.0.0.1" |} ])
    as (outs & self' & E & Hl & _).
  - repeat constructor; unfold within_kept; simpl; lra.
  - simpl. lra.
  - exists outs, self'. split; [exact E | exact Hl].
Defined.

End RateLimit.
